(** * Plan take-off pipeline: a shallow embedding and its checked properties

    The development follows [src/pipeline.py] (calibration, geometry,
    candidate filter, CSV export, the OpenCV stages of [run_pipeline]) and
    [model.py] (the accepted-regions model).

    Python [float] is IEEE-754 binary64, embedded as Rocq's primitive
    [float]; Python [int] is [Z]; exceptions are an explicit error type
    threaded through a small error monad; the external libraries (PyMuPDF,
    OpenCV, shapely) are calls of a free monad answered by a handler; the
    file system touched by the export is a finite map from paths to nodes. *)

From Stdlib Require Import ZArith Floats List String Ascii Bool Lia Sorted.
From stdpp Require Import gmap strings pretty.

Set Warnings "-inexact-float".

Local Open Scope string_scope.
Local Open Scope Z_scope.

(* ===================================================================== *)
(** ** Exceptions and the error monad *)
(* ===================================================================== *)

(** The exceptions the embedded code can raise or let through. *)
Inductive exn : Type :=
| ValueError (msg : string)
| ZeroDivisionError
| OverflowError
| FileExistsError
| FileNotFoundError
| NotADirectoryError
| IsADirectoryError
| ExternalError (library : string).

Inductive result (A : Type) : Type :=
| Ok (a : A)
| Raise (e : exn).
Arguments Ok {A} a.
Arguments Raise {A} e.

Definition bind {A B : Type} (m : result A) (k : A -> result B) : result B :=
  match m with
  | Ok a => k a
  | Raise e => Raise e
  end.

Declare Scope py_scope.
Delimit Scope py_scope with py.
Notation "x <- m ;; k" := (bind m (fun x => k))
  (at level 100, m at next level, right associativity) : py_scope.
Local Open Scope py_scope.

Definition is_ok {A : Type} (r : result A) : bool :=
  match r with Ok _ => true | Raise _ => false end.

(* ===================================================================== *)
(** ** Python floats *)
(* ===================================================================== *)

Module PyFloat.

(** [a / b] on floats: [ZeroDivisionError] on a zero divisor (of either
    sign), the IEEE quotient otherwise. *)
Definition truediv (a b : float) : result float :=
  if (b =? 0)%float then Raise ZeroDivisionError else Ok (a / b)%float.

(** [x ** 2] on a float: the rounded square, with CPython's check that
    turns an overflow of a finite base into [OverflowError]. *)
Definition pow2 (x : float) : result float :=
  let r := (x * x)%float in
  if is_finite x && is_infinity r then Raise OverflowError else Ok r.

(** *** [repr] of a float: the shortest decimal string that reads back
    as the same binary64 value. *)

(** Does the decimal [d * 10^q] round to the float [m * 2^e]?  The
    rounding interval is [(4m - delta) * 2^(e-2), (4m + 2) * 2^(e-2)],
    closed exactly when [m] is even (ties go to the even mantissa).
    [A] and [B] clear the negative powers of both sides. *)
Definition lower_gap (m e : Z) : Z :=
  if (m =? 2 ^ 52) && (-1074 <? e) then 1 else 2.

Definition scaleA (e q : Z) : Z := 2 ^ Z.max (e - 2) 0 * 10 ^ Z.max (- q) 0.
Definition scaleB (e q : Z) : Z := 10 ^ Z.max q 0 * 2 ^ Z.max (- (e - 2)) 0.

Definition reads_back (m e q d : Z) : bool :=
  let lo := (4 * m - lower_gap m e) * scaleA e q in
  let hi := (4 * m + 2) * scaleA e q in
  let x := d * scaleB e q in
  if Z.even m then (lo <=? x) && (x <=? hi) else (lo <? x) && (x <? hi).

(** The multiple of [10^q] nearest to [m * 2^e] that reads back, if any. *)
Definition nearest_at (m e q : Z) : option Z :=
  let v := 4 * m * scaleA e q in
  let b := scaleB e q in
  let d := v / b in
  match reads_back m e q d, reads_back m e q (d + 1) with
  | true, true =>
      let below := v - d * b in
      let above := (d + 1) * b - v in
      if below <? above then Some d
      else if above <? below then Some (d + 1)
      else Some (if Z.even d then d else d + 1)
  | true, false => Some d
  | false, true => Some (d + 1)
  | false, false => None
  end.

(** Largest exponent first: the first hit has the fewest digits. *)
Fixpoint shortest_from (fuel : nat) (m e q : Z) : Z * Z :=
  match fuel with
  | O => (m * 2 ^ Z.max e 0 * 5 ^ Z.max (- e) 0, Z.min e 0)
  | S fuel' =>
      match nearest_at m e q with
      | Some d => (d, q)
      | None => shortest_from fuel' m e (q - 1)
      end
  end.

(** Digits and the position of the decimal point ([0.d1d2... * 10^decpt]). *)
Definition shortest_digits (m e : Z) : string * Z :=
  let q0 := (e + 53) * 30103 / 100000 + 1 in
  let '(d, q) := shortest_from 400 m e q0 in
  let ds := pretty d in
  (ds, Z.of_nat (String.length ds) + q).

Fixpoint zeros (n : nat) : string :=
  match n with
  | O => EmptyString
  | S n' => String "0" (zeros n')
  end.

Definition exponent_text (x : Z) : string :=
  let a := Z.abs x in
  (if x <? 0 then "-" else "+") +:+ (if a <? 10 then "0" else EmptyString) +:+ pretty a.

(** The layout of [repr]: exponent form when [decpt <= -4] or
    [decpt > 16], positional otherwise, always with a fractional part. *)
Definition layout (ds : string) (decpt : Z) : string :=
  let n := Z.of_nat (String.length ds) in
  if (decpt <=? -4) || (16 <? decpt) then
    match ds with
    | EmptyString => EmptyString
    | String c EmptyString => String c ("e" +:+ exponent_text (decpt - 1))
    | String c rest => String c ("." +:+ rest +:+ "e" +:+ exponent_text (decpt - 1))
    end
  else if decpt <=? 0 then "0." +:+ zeros (Z.to_nat (- decpt)) +:+ ds
  else if n <=? decpt then ds +:+ zeros (Z.to_nat (decpt - n)) +:+ ".0"
  else
    substring 0 (Z.to_nat decpt) ds +:+ "." +:+
    substring (Z.to_nat decpt) (Z.to_nat (n - decpt)) ds.

Definition repr (x : float) : string :=
  match Prim2SF x with
  | S754_nan => "nan"
  | S754_infinity s => if s then "-inf" else "inf"
  | S754_zero s => if s then "-0.0" else "0.0"
  | S754_finite s m e =>
      let '(ds, decpt) := shortest_digits (Z.pos m) e in
      (if s then "-" else EmptyString) +:+ layout ds decpt
  end.

End PyFloat.

(* ===================================================================== *)
(** ** Data model of [pipeline.py] *)
(* ===================================================================== *)

(** A shapely polygon, as far as the pipeline looks at it: the attributes
    [is_empty], [area], [length] and the coordinate sequence of the
    exterior ring.  shapely keeps rings closed, so the ring of a polygon
    built from n distinct corner points lists n + 1 coordinates, the first
    one repeated at the end. *)
Module Shapely.
Record Polygon : Type := {
  is_empty : bool;
  area : float;
  length : float;
  exterior_coords : list (float * float)
}.
End Shapely.
Abbreviation Polygon := Shapely.Polygon.

Record Calibration : Type := {
  pixel_distance : float;
  real_distance_feet : float
}.

Record CandidateMetrics : Type := {
  contour_index : Z;
  area_sqft : float;
  perimeter_lf : float;
  vertex_count : Z;
  metric_sanity_score : float;
  flagged : bool
}.

Record PipelineConfig : Type := {
  dpi : Z;
  adaptive_block_size : Z;
  adaptive_c : Z;
  line_weight_threshold_px : Z;
  close_kernel_px : option Z;
  min_area_sqft : float;
  max_vertex_count : Z;
  sanity_ratio_threshold : float
}.

(** The defaults of the dataclass. *)
Definition default_config : PipelineConfig := {|
  dpi := 600;
  adaptive_block_size := 35;
  adaptive_c := 10;
  line_weight_threshold_px := 5;
  close_kernel_px := Some 3;
  min_area_sqft := 1.0%float;
  max_vertex_count := 1000;
  sanity_ratio_threshold := 0.8%float
|}.

Record PipelineResult : Type := {
  polygons : list Polygon;
  metrics : list CandidateMetrics
}.

(* ===================================================================== *)
(** ** Calibration, geometry and the candidate filter *)
(* ===================================================================== *)

(** The property [Calibration.feet_per_pixel]: the two guards, then the
    quotient.  The dataclass has no [__post_init__]: building a
    [Calibration] stores the two fields and checks nothing. *)
Definition feet_per_pixel (self : Calibration) : result float :=
  if (pixel_distance self <=? 0)%float then
    Raise (ValueError "pixel_distance must be > 0")
  else if (real_distance_feet self <=? 0)%float then
    Raise (ValueError "real_distance_feet must be > 0")
  else PyFloat.truediv (real_distance_feet self) (pixel_distance self).

Definition compute_geometry (polygon : Polygon) (calibration : Calibration)
  : result (float * float) :=
  fpp <- feet_per_pixel calibration ;;
  squared <- PyFloat.pow2 fpp ;;
  let area_sqft := (Shapely.area polygon * squared)%float in
  let perimeter_lf := (Shapely.length polygon * fpp)%float in
  Ok (area_sqft, perimeter_lf).

Definition sanity_score (polygon : Polygon) : result float :=
  if (Shapely.area polygon =? 0)%float then Ok infinity
  else PyFloat.truediv (Shapely.length polygon) (Shapely.area polygon).

(** [enumerate(polygons)]. *)
Fixpoint enumerate_from {A : Type} (start : Z) (l : list A) : list (Z * A) :=
  match l with
  | nil => nil
  | x :: rest => (start, x) :: enumerate_from (start + 1) rest
  end.

Definition enumerate {A : Type} (l : list A) : list (Z * A) := enumerate_from 0 l.

(** The body of the [for] loop of [filter_candidates], with the two lists
    it appends to passed along. *)
Fixpoint filter_loop (calibration : Calibration) (config : PipelineConfig)
    (items : list (Z * Polygon))
    (metrics : list CandidateMetrics) (accepted : list Polygon)
  : result (list CandidateMetrics * list Polygon) :=
  match items with
  | nil => Ok (metrics, accepted)
  | (idx, polygon) :: rest =>
      if Shapely.is_empty polygon then
        filter_loop calibration config rest metrics accepted
      else
        geometry <- compute_geometry polygon calibration ;;
        let '(area_sqft, perimeter_lf) := geometry in
        let vertices := Z.of_nat (List.length (Shapely.exterior_coords polygon)) in
        score <- sanity_score polygon ;;
        let flagged := (sanity_ratio_threshold config <? score)%float in
        if (area_sqft <? min_area_sqft config)%float then
          filter_loop calibration config rest metrics accepted
        else if max_vertex_count config <? vertices then
          filter_loop calibration config rest metrics accepted
        else
          filter_loop calibration config rest
            (metrics ++ [ {| contour_index := idx;
                             area_sqft := area_sqft;
                             perimeter_lf := perimeter_lf;
                             vertex_count := vertices;
                             metric_sanity_score := score;
                             flagged := flagged |} ])
            (accepted ++ [polygon])
  end.

Definition filter_candidates (polygons : list Polygon)
    (calibration : Calibration) (config : PipelineConfig)
  : result PipelineResult :=
  out <- filter_loop calibration config (enumerate polygons) nil nil ;;
  let '(metrics, accepted) := out in
  Ok {| polygons := accepted; metrics := metrics |}.

(* ===================================================================== *)
(** ** The raster stages: calls into PyMuPDF, OpenCV and shapely *)
(* ===================================================================== *)

(** A numpy array: its shape and its elements in row-major order.  The
    arrays of the pipeline hold integers (8-bit pixels, 32-bit contour
    coordinates); [astype(float)] keeps their values. *)
Record ndarray : Type := {
  shape : list Z;
  elements : list Z
}.

Inductive adaptive_method : Type := ADAPTIVE_THRESH_MEAN_C | ADAPTIVE_THRESH_GAUSSIAN_C.
Inductive threshold_type : Type := THRESH_BINARY | THRESH_BINARY_INV.
Inductive morph_shape : Type := MORPH_RECT | MORPH_CROSS | MORPH_ELLIPSE.
Inductive morph_op : Type := MORPH_OPEN | MORPH_CLOSE.
Inductive retrieval_mode : Type := RETR_EXTERNAL | RETR_LIST.
Inductive approximation : Type := CHAIN_APPROX_NONE | CHAIN_APPROX_SIMPLE.

(** The library calls of the pipeline, indexed by what they return.
    [RenderPage] stands for the body of [render_pdf_to_grayscale], which
    is PyMuPDF and colour-conversion calls only. *)
Inductive ext : Type -> Type :=
| RenderPage (pdf_path : string) (page_number dpi : Z) : ext ndarray
| AdaptiveThreshold (src : ndarray) (max_value : Z) (method : adaptive_method)
    (kind : threshold_type) (block_size c : Z) : ext ndarray
| GetStructuringElement (shape : morph_shape) (ksize : Z * Z) : ext ndarray
| MorphologyEx (src : ndarray) (op : morph_op) (kernel : ndarray) : ext ndarray
| FindContours (image : ndarray) (mode : retrieval_mode) (method : approximation)
    : ext (list ndarray * ndarray)
| ShapelyPolygon (points : ndarray) : ext Polygon.

(** Programs over these calls: return, raise, or call and go on. *)
Inductive prog (A : Type) : Type :=
| Ret (a : A)
| Throw (e : exn)
| Vis {X : Type} (c : ext X) (k : X -> prog A).
Arguments Ret {A} a.
Arguments Throw {A} e.
Arguments Vis {A X} c k.

Fixpoint pbind {A B : Type} (p : prog A) (f : A -> prog B) : prog B :=
  match p with
  | Ret a => f a
  | Throw e => Throw e
  | Vis c k => Vis c (fun x => pbind (k x) f)
  end.

Definition call {X : Type} (c : ext X) : prog X := Vis c Ret.

Definition lift {A : Type} (r : result A) : prog A :=
  match r with
  | Ok a => Ret a
  | Raise e => Throw e
  end.

Declare Scope prog_scope.
Delimit Scope prog_scope with prog.
Notation "x <~ p ;; q" := (pbind p (fun x => q))
  (at level 100, p at next level, right associativity) : prog_scope.

Definition render_pdf_to_grayscale (pdf_path : string) (page_number dpi : Z)
  : prog ndarray :=
  call (RenderPage pdf_path page_number dpi).

Definition adaptive_binarize (gray : ndarray) (block_size c : Z) : prog ndarray :=
  if block_size mod 2 =? 0 then
    Throw (ValueError "adaptive_block_size must be odd")
  else
    call (AdaptiveThreshold gray 255 ADAPTIVE_THRESH_GAUSSIAN_C THRESH_BINARY_INV
            block_size c).

(** The truth value of an [Optional[int]]: [None] and [0] are false. *)
Definition truthy (x : option Z) : bool :=
  match x with
  | None => false
  | Some n => negb (n =? 0)
  end.

Definition thickness_gate (binary : ndarray) (line_weight_threshold_px : Z)
    (close_kernel_px : option Z) : prog ndarray :=
  (kernel <~ call (GetStructuringElement MORPH_RECT
                     (line_weight_threshold_px, line_weight_threshold_px)) ;;
   opened <~ call (MorphologyEx binary MORPH_OPEN kernel) ;;
   if truthy close_kernel_px then
     match close_kernel_px with
     | Some n =>
         close_kernel <~ call (GetStructuringElement MORPH_RECT (n, n)) ;;
         call (MorphologyEx opened MORPH_CLOSE close_kernel)
     | None => Ret opened
     end
   else Ret opened)%prog.

Definition find_closed_contours (mask : ndarray) : prog (list ndarray) :=
  (found <~ call (FindContours mask RETR_EXTERNAL CHAIN_APPROX_SIMPLE) ;;
   Ret (fst found))%prog.

(** [contour[:, 0, :]] on an array of shape [(n, 1, k)]: the middle axis
    goes, the elements stay. *)
Definition drop_middle_axis (a : ndarray) : ndarray :=
  match shape a with
  | n :: _ :: k :: nil => {| shape := [n; k]; elements := elements a |}
  | _ => a
  end.

Definition contour_to_polygon (contour : ndarray) : prog Polygon :=
  if negb (Nat.eqb (List.length (shape contour)) 3)
     || negb (nth 1 (shape contour) 0 =? 1) then
    Throw (ValueError "Unexpected contour shape")
  else call (ShapelyPolygon (drop_middle_axis contour)).

Fixpoint for_each {A B : Type} (f : A -> prog B) (l : list A) : prog (list B) :=
  match l with
  | nil => Ret nil
  | x :: rest =>
      (y <~ f x ;; ys <~ for_each f rest ;; Ret (y :: ys))%prog
  end.

Definition run_pipeline (pdf_path : string) (page_number : Z)
    (calibration : Calibration) (config : PipelineConfig) : prog PipelineResult :=
  (gray <~ render_pdf_to_grayscale pdf_path page_number (dpi config) ;;
   binary <~ adaptive_binarize gray (adaptive_block_size config) (adaptive_c config) ;;
   mask <~ thickness_gate binary (line_weight_threshold_px config)
             (close_kernel_px config) ;;
   contours <~ find_closed_contours mask ;;
   polygons <~ for_each contour_to_polygon contours ;;
   lift (filter_candidates polygons calibration config))%prog.

(** Running a program against the libraries: a handler answers each call
    or fails; the calls made are logged in order. *)
Inductive made : Type :=
| Made {X : Type} (c : ext X).

Definition handler : Type := forall X : Type, ext X -> result X.

Fixpoint run {A : Type} (h : handler) (p : prog A) : list made * result A :=
  match p with
  | Ret a => (nil, Ok a)
  | Throw e => (nil, Raise e)
  | Vis c k =>
      match h _ c with
      | Ok x => let '(log, r) := run h (k x) in (Made c :: log, r)
      | Raise e => ([Made c], Raise e)
      end
  end.

Definition is_binarization (m : made) : bool :=
  match m with
  | Made (AdaptiveThreshold _ _ _ _ _ _) => true
  | Made _ => false
  end.

Definition is_kernel_call (m : made) : bool :=
  match m with
  | Made (GetStructuringElement _ _) => true
  | Made _ => false
  end.

(* ===================================================================== *)
(** ** The metrics export: CSV text and the file system *)
(* ===================================================================== *)

(** The values a CSV cell is given, and Python's [str] of them. *)
Inductive pyvalue : Type :=
| PyInt (z : Z)
| PyFloatValue (f : float)
| PyBool (b : bool)
| PyStr (s : string).

Definition py_str (v : pyvalue) : string :=
  match v with
  | PyInt z => pretty z
  | PyFloatValue f => PyFloat.repr f
  | PyBool b => if b then "True" else "False"
  | PyStr s => s
  end.

Definition quote_char : ascii := "034"%char.
Definition CR : ascii := "013"%char.
Definition LF : ascii := "010"%char.
Definition CRLF : string := String CR (String LF EmptyString).

(** The [excel] dialect with [QUOTE_MINIMAL]: a field is quoted when it
    holds the delimiter, the quote character or a line-terminator
    character; quote characters inside are doubled. *)
Definition is_special (c : ascii) : bool :=
  Ascii.eqb c ","%char || Ascii.eqb c quote_char || Ascii.eqb c CR || Ascii.eqb c LF.

Fixpoint needs_quotes (s : string) : bool :=
  match s with
  | EmptyString => false
  | String c rest => is_special c || needs_quotes rest
  end.

Fixpoint double_quotes (s : string) : string :=
  match s with
  | EmptyString => EmptyString
  | String c rest =>
      if Ascii.eqb c quote_char then String c (String c (double_quotes rest))
      else String c (double_quotes rest)
  end.

Definition csv_field (s : string) : string :=
  if needs_quotes s then
    String quote_char (double_quotes s +:+ String quote_char EmptyString)
  else s.

Fixpoint join (sep : string) (l : list string) : string :=
  match l with
  | nil => EmptyString
  | x :: nil => x
  | x :: rest => x +:+ sep +:+ join sep rest
  end.

(** [csv.writer.writerow]: the text one row adds to the file. *)
Definition writerow (cells : list pyvalue) : string :=
  join "," (map (fun v => csv_field (py_str v)) cells) +:+ CRLF.

Definition fieldnames : list string :=
  ["contour_index"; "area_sqft"; "perimeter_lf"; "vertex_count";
   "sanity_score"; "flagged"].

Fixpoint dict_get (key : string) (d : list (string * pyvalue)) : option pyvalue :=
  match d with
  | nil => None
  | (k, v) :: rest => if String.eqb k key then Some v else dict_get key rest
  end.

(** [csv.DictWriter]: a key outside [fieldnames] is a [ValueError]; then
    the cells are taken in the order of [fieldnames], a missing key giving
    the empty string. *)
Definition DictWriter_writerow (names : list string) (rowdict : list (string * pyvalue))
  : result string :=
  if forallb (fun kv => existsb (String.eqb (fst kv)) names) rowdict then
    Ok (writerow (map (fun k => match dict_get k rowdict with
                                | Some v => v
                                | None => PyStr EmptyString
                                end) names))
  else Raise (ValueError "dict contains fields not in fieldnames").

Definition DictWriter_writeheader (names : list string) : string :=
  writerow (map PyStr names).

(** The dictionary [export_to_csv] builds for one record. *)
Definition row_of (item : CandidateMetrics) : list (string * pyvalue) :=
  [("contour_index", PyInt (contour_index item));
   ("area_sqft", PyFloatValue (area_sqft item));
   ("perimeter_lf", PyFloatValue (perimeter_lf item));
   ("vertex_count", PyInt (vertex_count item));
   ("sanity_score", PyFloatValue (metric_sanity_score item));
   ("flagged", PyBool (flagged item))].

(** The file system: absolute paths as component lists (the root is the
    empty list and always a directory), each bound to a directory or to a
    file with its text.  Permissions and links are left out. *)
Inductive node : Type :=
| Dir
| File (content : string).

Abbreviation filesystem := (gmap (list string) node).

Definition parent (p : list string) : list string := removelast p.

(** [Path.mkdir(parents=True, exist_ok=True)], walking down from [done]
    (an existing directory): missing components are created, existing
    directories kept, a file in the way is an error. *)
Fixpoint mkdir_parents (fs : filesystem) (done todo : list string)
  : result filesystem :=
  match todo with
  | nil => Ok fs
  | c :: rest =>
      match fs !! (done ++ [c])%list with
      | None => mkdir_parents (<[(done ++ [c])%list := Dir]> fs) (done ++ [c])%list rest
      | Some Dir => mkdir_parents fs (done ++ [c])%list rest
      | Some (File _) =>
          Raise (match rest with nil => FileExistsError | _ => NotADirectoryError end)
      end
  end.

(** [open(path, "w")]: the file is created or emptied; the directory it
    lies in must exist. *)
Fixpoint open_w (fs : filesystem) (done todo : list string) : result filesystem :=
  match todo with
  | nil => Raise IsADirectoryError
  | c :: nil =>
      match fs !! (done ++ [c])%list with
      | Some Dir => Raise IsADirectoryError
      | _ => Ok (<[(done ++ [c])%list := File EmptyString]> fs)
      end
  | c :: rest =>
      match fs !! (done ++ [c])%list with
      | Some Dir => open_w fs (done ++ [c])%list rest
      | Some (File _) => Raise NotADirectoryError
      | None => Raise FileNotFoundError
      end
  end.

(** Writing to the open handle appends to the file's text. *)
Definition handle_write (fs : filesystem) (p : list string) (text : string)
  : filesystem :=
  match fs !! p with
  | Some (File old) => <[p := File (old +:+ text)]> fs
  | _ => fs
  end.

Fixpoint write_rows (fs : filesystem) (p : list string)
    (items : list CandidateMetrics) : result filesystem :=
  match items with
  | nil => Ok fs
  | item :: rest =>
      line <- DictWriter_writerow fieldnames (row_of item) ;;
      write_rows (handle_write fs p line) p rest
  end.

Definition export_to_csv (metrics : list CandidateMetrics)
    (output_path : list string) (fs : filesystem) : result filesystem :=
  fs1 <- mkdir_parents fs nil (parent output_path) ;;
  fs2 <- open_w fs1 nil output_path ;;
  let fs3 := handle_write fs2 output_path (DictWriter_writeheader fieldnames) in
  write_rows fs3 output_path metrics.

(** The lines of a text written with CRLF line ends. *)
Fixpoint lines_from (current : string) (s : string) : list string :=
  match s with
  | EmptyString =>
      match current with EmptyString => nil | _ => [current] end
  | String c rest =>
      match rest with
      | String c' rest' =>
          if Ascii.eqb c CR && Ascii.eqb c' LF then current :: lines_from EmptyString rest'
          else lines_from (current +:+ String c EmptyString) rest
      | EmptyString => [current +:+ String c EmptyString]
      end
  end.

Definition splitlines (s : string) : list string := lines_from EmptyString s.

(* ===================================================================== *)
(** ** [model.py]: the accepted regions *)
(* ===================================================================== *)

Module Model.

Record AcceptedRegion : Type := {
  page : Z;
  region_id : Z;
  area_sqft : float;
  perimeter_lf : float;
  polygon_points : list (float * float)
}.

Record AcceptedRegionsModel : Type := {
  _regions : list AcceptedRegion;
  _next_id : Z
}.

(** [__init__] *)
Definition init : AcceptedRegionsModel := {| _regions := nil; _next_id := 1 |}.

Definition add_region (self : AcceptedRegionsModel) (page : Z)
    (area_sqft perimeter_lf : float) (polygon_points : list (float * float))
  : AcceptedRegionsModel * AcceptedRegion :=
  let region := {| page := page;
                   region_id := _next_id self;
                   area_sqft := area_sqft;
                   perimeter_lf := perimeter_lf;
                   polygon_points := polygon_points |} in
  ({| _regions := _regions self ++ [region];
      _next_id := _next_id self + 1 |}, region).

Definition remove_region (self : AcceptedRegionsModel) (region_id' : Z)
  : AcceptedRegionsModel :=
  {| _regions := List.filter (fun region => negb (region_id region =? region_id'))
                   (_regions self);
     _next_id := _next_id self |}.

Definition regions (self : AcceptedRegionsModel) : list AcceptedRegion :=
  _regions self.

Definition regions_for_page (self : AcceptedRegionsModel) (page' : Z)
  : list AcceptedRegion :=
  List.filter (fun region => page region =? page') (_regions self).

(** A life of the model: the calls made on it after [__init__]. *)
Inductive request : Type :=
| AddRegion (page : Z) (area_sqft perimeter_lf : float)
    (polygon_points : list (float * float))
| RemoveRegion (region_id : Z).

(** Serving the calls in order; the regions returned by [add_region] are
    collected in the order they were handed out. *)
Fixpoint serve (self : AcceptedRegionsModel) (requests : list request)
  : AcceptedRegionsModel * list AcceptedRegion :=
  match requests with
  | nil => (self, nil)
  | AddRegion p a l pts :: rest =>
      let '(self', region) := add_region self p a l pts in
      let '(final, handed) := serve self' rest in
      (final, region :: handed)
  | RemoveRegion i :: rest => serve (remove_region self i) rest
  end.

(** The stored identifiers grow along the list and stay below the next
    one to hand out. *)
Definition numbered (self : AcceptedRegionsModel) : Prop :=
  StronglySorted Z.lt (map region_id (_regions self)) /\
  Forall (fun region => region_id region < _next_id self) (_regions self).

End Model.

(* ===================================================================== *)
(** ** Definitions used to state the properties *)
(* ===================================================================== *)

(** What one pass of the loop body decides for a polygon at position
    [idx] once the scale [fpp] and its square are known: nothing, or the
    polygon with its record. *)
Definition verdict (config : PipelineConfig) (fpp squared : float)
    (item : Z * Polygon) : option (Polygon * CandidateMetrics) :=
  let '(idx, polygon) := item in
  let a := (Shapely.area polygon * squared)%float in
  let score := if (Shapely.area polygon =? 0)%float then infinity
               else (Shapely.length polygon / Shapely.area polygon)%float in
  let vertices := Z.of_nat (List.length (Shapely.exterior_coords polygon)) in
  if Shapely.is_empty polygon then None
  else if (a <? min_area_sqft config)%float then None
  else if max_vertex_count config <? vertices then None
  else Some (polygon,
             {| contour_index := idx;
                area_sqft := a;
                perimeter_lf := (Shapely.length polygon * fpp)%float;
                vertex_count := vertices;
                metric_sanity_score := score;
                flagged := (sanity_ratio_threshold config <? score)%float |}).

(** The same configuration with another sanity threshold. *)
Definition with_sanity_threshold (config : PipelineConfig) (t : float)
  : PipelineConfig :=
  {| dpi := dpi config;
     adaptive_block_size := adaptive_block_size config;
     adaptive_c := adaptive_c config;
     line_weight_threshold_px := line_weight_threshold_px config;
     close_kernel_px := close_kernel_px config;
     min_area_sqft := min_area_sqft config;
     max_vertex_count := max_vertex_count config;
     sanity_ratio_threshold := t |}.

(** A record with its advisory flag left out. *)
Definition unflagged (m : CandidateMetrics) : Z * float * float * Z * float :=
  (contour_index m, area_sqft m, perimeter_lf m, vertex_count m,
   metric_sanity_score m).

(** The polygon and the calibration of the worked scenario.  The ring of
    the 100 by 50 rectangle is closed: five coordinates. *)
Definition rectangle : Polygon := {|
  Shapely.is_empty := false;
  Shapely.area := 5000%float;
  Shapely.length := 300%float;
  Shapely.exterior_coords :=
    [(0, 0); (100, 0); (100, 50); (0, 50); (0, 0)]%float
|}.

Definition scenario_calibration : Calibration :=
  {| pixel_distance := 100%float; real_distance_feet := 10%float |}.

(** The record the scenario of the export starts from. *)
Definition scenario_metrics : CandidateMetrics := {|
  contour_index := 0;
  area_sqft := 50.0%float;
  perimeter_lf := 30.0%float;
  vertex_count := 4;
  metric_sanity_score := 0.06%float;
  flagged := false
|}.

Definition header_line : string :=
  "contour_index,area_sqft,perimeter_lf,vertex_count,sanity_score,flagged".

(** [Polygon()]: the empty polygon. *)
Definition empty_polygon : Polygon := {|
  Shapely.is_empty := true;
  Shapely.area := 0%float;
  Shapely.length := 0%float;
  Shapely.exterior_coords := nil
|}.

(** Three collinear points: a polygon that is not empty and has no area. *)
Definition sliver : Polygon := {|
  Shapely.is_empty := false;
  Shapely.area := 0%float;
  Shapely.length := (sqrt 2 + sqrt 2 + sqrt 8)%float;
  Shapely.exterior_coords := [(0, 0); (1, 1); (2, 2); (0, 0)]%float
|}.

(** An input with an empty polygon ahead of the rectangle, and what the
    filter makes of it. *)
Definition mixed_input : list Polygon := [empty_polygon; rectangle].

Definition mixed_result : PipelineResult := {|
  polygons := [rectangle];
  metrics := [ {| contour_index := 1;
                  area_sqft := 50.00000000000001%float;
                  perimeter_lf := 30.0%float;
                  vertex_count := 5;
                  metric_sanity_score := 0.06%float;
                  flagged := false |} ]
|}.

(** A library to run against: a blank page, masks passed through, no
    contour found; a structuring element of a size below one is refused
    with the library's own error, as OpenCV does. *)
Definition blank : ndarray := {| shape := [2; 2]; elements := [255; 255; 255; 255] |}.

Definition obliging : handler :=
  fun X c =>
    match c in ext T return result T with
    | RenderPage _ _ _ => Ok blank
    | AdaptiveThreshold src _ _ _ _ _ => Ok src
    | GetStructuringElement _ (w, h) =>
        if (w <? 1) || (h <? 1) then Raise (ExternalError "cv2")
        else Ok {| shape := [h; w]; elements := nil |}
    | MorphologyEx src _ _ => Ok src
    | FindContours _ _ _ => Ok (nil, {| shape := nil; elements := nil |})
    | ShapelyPolygon _ => Ok empty_polygon
    end.

(** The defaults with one kernel size set to zero. *)
Definition config_close_zero : PipelineConfig := {|
  dpi := 600;
  adaptive_block_size := 35;
  adaptive_c := 10;
  line_weight_threshold_px := 5;
  close_kernel_px := Some 0;
  min_area_sqft := 1.0%float;
  max_vertex_count := 1000;
  sanity_ratio_threshold := 0.8%float
|}.

Definition config_weight_zero : PipelineConfig := {|
  dpi := 600;
  adaptive_block_size := 35;
  adaptive_c := 10;
  line_weight_threshold_px := 0;
  close_kernel_px := Some 3;
  min_area_sqft := 1.0%float;
  max_vertex_count := 1000;
  sanity_ratio_threshold := 0.8%float
|}.

(** The binarization call of [run_pipeline] on a page [gray]. *)
Definition binarization_of (config : PipelineConfig) (gray : ndarray) : ext ndarray :=
  AdaptiveThreshold gray 255 ADAPTIVE_THRESH_GAUSSIAN_C THRESH_BINARY_INV
    (adaptive_block_size config) (adaptive_c config).

(** The directories above a path: its non-empty strict prefixes. *)
Definition proper_prefix (d p : list string) : Prop :=
  d <> nil /\ d <> p /\ exists k, p = (d ++ k)%list.

(* ===================================================================== *)
(** ** [detect.py]: presets and candidate regions *)
(* ===================================================================== *)

Module Detect.

Record CandidateRegion : Type := {
  contour : ndarray;
  polygon : list (float * float);
  area_px : float;
  perimeter_px : float
}.

Definition preset_map : gmap string Z :=
  {[ "Light" := 3; "Medium" := 5; "Heavy" := 7 ]}.

Definition _kernel_from_preset (preset : string) : Z :=
  default 5 (preset_map !! preset).

(** [format(x, ".2f")]: the decimal with two places nearest to the exact
    value of the float, ties to even. *)
Definition format_2f (x : float) : string :=
  match Prim2SF x with
  | S754_nan => "nan"
  | S754_infinity s => if s then "-inf" else "inf"
  | S754_zero s => if s then "-0.00" else "0.00"
  | S754_finite s m e =>
      let num := Z.pos m * 100 * 2 ^ Z.max e 0 in
      let den := 2 ^ Z.max (- e) 0 in
      let q := num / den in
      let r := num mod den in
      let n := if 2 * r <? den then q
               else if den <? 2 * r then q + 1
               else if Z.even q then q else q + 1 in
      let cents := pretty (n mod 100) in
      (if s then "-" else EmptyString)
      +:+ pretty (n / 100) +:+ "."
      +:+ (if n mod 100 <? 10 then "0" else EmptyString) +:+ cents
  end.

(** [float(i)] for an integer of a contour: exact below 2^53. *)
Definition float_of_int (z : Z) : float :=
  if z <? 0 then (- of_uint63 (Uint63.of_Z (- z)))%float
  else of_uint63 (Uint63.of_Z z).

Inductive color_code : Type := COLOR_GRAY2BGR.

(** The flags of [cv2.threshold]. *)
Definition THRESH_BINARY_INV_flag : Z := 1.
Definition THRESH_OTSU_flag : Z := 8.

(** The OpenCV calls of [detect_regions], indexed by what they return.
    [ApproxPolyDP] answers with the points of the approximated curve. *)
Inductive call : Type -> Type :=
| GaussianBlur (src : ndarray) (ksize : Z * Z) (sigma_x : Z) : call ndarray
| Threshold (src : ndarray) (thresh maxval kind : Z) : call (float * ndarray)
| StructuringElement (shape : morph_shape) (ksize : Z * Z) : call ndarray
| Morphology (src : ndarray) (op : morph_op) (kernel : ndarray) : call ndarray
| Contours (image : ndarray) (mode : retrieval_mode) (method : approximation)
    : call (list ndarray * ndarray)
| ContourArea (contour : ndarray) : call float
| ArcLength (curve : ndarray) (closed : bool) : call float
| ApproxPolyDP (curve : ndarray) (epsilon : float) (closed : bool) : call (list (Z * Z))
| CvtColor (src : ndarray) (code : color_code) : call ndarray
| DrawContours (image : ndarray) (contours : list ndarray) (contour_idx : Z)
    (color : Z * Z * Z) (thickness : Z) : call ndarray.

Inductive program (A : Type) : Type :=
| Return (a : A)
| Fail (e : exn)
| Ask {X : Type} (c : call X) (k : X -> program A).
Arguments Return {A} a.
Arguments Fail {A} e.
Arguments Ask {A X} c k.

Fixpoint andthen {A B : Type} (p : program A) (f : A -> program B) : program B :=
  match p with
  | Return a => f a
  | Fail e => Fail e
  | Ask c k => Ask c (fun x => andthen (k x) f)
  end.

Definition ask {X : Type} (c : call X) : program X := Ask c Return.

Definition of_result {A : Type} (r : result A) : program A :=
  match r with
  | Ok a => Return a
  | Raise e => Fail e
  end.

Declare Scope detect_scope.
Delimit Scope detect_scope with detect.
Notation "x <~~ p ;; q" := (andthen p (fun x => q))
  (at level 100, p at next level, right associativity) : detect_scope.

Record DetectionDebug : Type := {
  gray : ndarray;
  binary : ndarray;
  thickness_mask : ndarray;
  closed_mask : ndarray;
  contour_preview : ndarray;
  stats : list (string * string)
}.

(** The loop over the contours found. *)
Fixpoint measure (min_area_px : float) (contours : list ndarray)
    (candidates : list CandidateRegion) : program (list CandidateRegion) :=
  match contours with
  | nil => Return candidates
  | contour :: rest =>
      (area_px <~~ ask (ContourArea contour) ;;
       if (area_px <? min_area_px)%float then measure min_area_px rest candidates
       else
         perimeter_px <~~ ask (ArcLength contour true) ;;
         let epsilon := (0.002 * perimeter_px)%float in
         approx <~~ ask (ApproxPolyDP contour epsilon true) ;;
         let polygon :=
           map (fun pt => (float_of_int (fst pt), float_of_int (snd pt))) approx in
         measure min_area_px rest
           (candidates ++ [ {| contour := contour;
                               polygon := polygon;
                               area_px := area_px;
                               perimeter_px := perimeter_px |} ]))%detect
  end.

Definition detect_regions (gray : ndarray) (thickness_preset gap_close : string)
    (min_area_sqft ft_per_pixel : float) (dpi : Z)
  : program (list CandidateRegion * DetectionDebug) :=
  (blur <~~ ask (GaussianBlur gray (3, 3) 0) ;;
   thresholded <~~ ask (Threshold blur 0 255
                          (THRESH_BINARY_INV_flag + THRESH_OTSU_flag)) ;;
   let binary := snd thresholded in
   let kernel_size := _kernel_from_preset thickness_preset in
   kernel <~~ ask (StructuringElement MORPH_RECT (kernel_size, kernel_size)) ;;
   thickness_mask <~~ ask (Morphology binary MORPH_OPEN kernel) ;;
   closed_mask <~~
     (if String.eqb gap_close "Low" then
        close_kernel <~~ ask (StructuringElement MORPH_RECT (3, 3)) ;;
        ask (Morphology thickness_mask MORPH_CLOSE close_kernel)
      else Return thickness_mask) ;;
   found <~~ ask (Contours closed_mask RETR_EXTERNAL CHAIN_APPROX_SIMPLE) ;;
   let contours := fst found in
   min_area_px <~~ of_result (bind (PyFloat.pow2 ft_per_pixel)
                                (fun squared => PyFloat.truediv min_area_sqft squared)) ;;
   candidates <~~ measure min_area_px contours nil ;;
   preview <~~ ask (CvtColor closed_mask COLOR_GRAY2BGR) ;;
   drawn <~~ ask (DrawContours preview (map contour candidates) (-1) (0, 255, 0) 2) ;;
   let stats :=
     [("dpi", pretty dpi);
      ("kernel_size", pretty kernel_size);
      ("contours_found", pretty (Z.of_nat (List.length contours)));
      ("candidates", pretty (Z.of_nat (List.length candidates)));
      ("min_area_sqft", format_2f min_area_sqft)] in
   Return (candidates,
           {| gray := gray;
              binary := binary;
              thickness_mask := thickness_mask;
              closed_mask := closed_mask;
              contour_preview := drawn;
              stats := stats |}))%detect.

(** Running against OpenCV: a library answers each call or fails; the
    calls made are logged in order. *)
Inductive asked : Type :=
| Asked {X : Type} (c : call X).

Definition library : Type := forall X : Type, call X -> result X.

Fixpoint exec {A : Type} (h : library) (p : program A) : list asked * result A :=
  match p with
  | Return a => (nil, Ok a)
  | Fail e => (nil, Raise e)
  | Ask c k =>
      match h _ c with
      | Ok x => let '(log, r) := exec h (k x) in (Asked c :: log, r)
      | Raise e => ([Asked c], Raise e)
      end
  end.

Definition is_measure (a : asked) : bool :=
  match a with
  | Asked (ContourArea _) => true
  | Asked (ArcLength _ _) => true
  | Asked (ApproxPolyDP _ _ _) => true
  | Asked _ => false
  end.

(** Whether the loop keeps a contour, by the area the library reports. *)
Definition keeps (h : library) (min_area_px : float) (contour : ndarray) : bool :=
  match h _ (ContourArea contour) with
  | Ok area_px => negb (area_px <? min_area_px)%float
  | Raise _ => false
  end.

(** A candidate as the loop builds it from the library's answers. *)
Definition described (h : library) (min_area_px : float) (c : CandidateRegion) : Prop :=
  h _ (ContourArea (contour c)) = Ok (area_px c) /\
  (area_px c <? min_area_px)%float = false /\
  h _ (ArcLength (contour c) true) = Ok (perimeter_px c) /\
  exists points,
    h _ (ApproxPolyDP (contour c) (0.002 * perimeter_px c)%float true) = Ok points /\
    polygon c = map (fun pt => (float_of_int (fst pt), float_of_int (snd pt))) points.

End Detect.

(* ===================================================================== *)
(** ** [ui.py]: accepting and rejecting a candidate *)
(* ===================================================================== *)

Module Ui.

(** [CandidateGraphicsItem]: the candidate it draws and the identifier of
    the region it was accepted as, if it was. *)
Record CandidateGraphicsItem : Type := {
  candidate : Detect.CandidateRegion;
  accepted_region_id : option Z
}.

(** The fields of [MainWindow] that accepting a candidate reads or
    writes; [calibration] is the dictionary from page index to scale. *)
Record MainWindow : Type := {
  current_page : Z;
  calibration : gmap Z float;
  candidates : list CandidateGraphicsItem;
  model : Model.AcceptedRegionsModel
}.

(** What the window shows in response: a message box, the restyling of an
    item, the refresh of the table. *)
Inductive shown : Type :=
| Information (title text : string)
| StyleUpdated (item : nat)
| TableUpdated.

(** [toggle_candidate], on the item at position [i] of [self.candidates]. *)
Definition toggle_candidate (self : MainWindow) (i : nat)
  : result (MainWindow * list shown) :=
  match candidates self !! i with
  | None => Ok (self, nil)
  | Some item =>
      match calibration self !! current_page self with
      | None => Ok (self, [Information "Calibrate first" "Calibrate first."])
      | Some ft_per_pixel =>
          match accepted_region_id item with
          | None =>
              squared <- PyFloat.pow2 ft_per_pixel ;;
              let area_sqft := (Detect.area_px (candidate item) * squared)%float in
              let perimeter_lf := (Detect.perimeter_px (candidate item) * ft_per_pixel)%float in
              let '(model', region) :=
                Model.add_region (model self) (current_page self + 1)
                  area_sqft perimeter_lf (Detect.polygon (candidate item)) in
              Ok ({| current_page := current_page self;
                     calibration := calibration self;
                     candidates :=
                       <[i := {| candidate := candidate item;
                                 accepted_region_id := Some (Model.region_id region) |}]>
                         (candidates self);
                     model := model' |},
                  [StyleUpdated i; TableUpdated])
          | Some region_id =>
              Ok ({| current_page := current_page self;
                     calibration := calibration self;
                     candidates :=
                       <[i := {| candidate := candidate item;
                                 accepted_region_id := None |}]>
                         (candidates self);
                     model := Model.remove_region (model self) region_id |},
                  [StyleUpdated i; TableUpdated])
          end
      end
  end.

(** The identifiers the items carry, in item order. *)
Definition accepted_ids (self : MainWindow) : list Z :=
  omap accepted_region_id (candidates self).

(** The windows reached from [start] by clicks on candidates. *)
Inductive reached (start : MainWindow) : MainWindow -> Prop :=
| reached_start : reached start start
| reached_toggle (w w' : MainWindow) (i : nat) (out : list shown) :
    reached start w -> toggle_candidate w i = Ok (w', out) -> reached start w'.

(** Items and model agree: no two items carry the same identifier, every
    identifier an item carries is that of a stored region, and the model
    is numbered. *)
Definition linked (self : MainWindow) : Prop :=
  List.NoDup (accepted_ids self) /\
  (forall id, In id (accepted_ids self) ->
              In id (map Model.region_id (Model._regions (model self)))) /\
  Model.numbered (model self).

Definition newline : string := String (Ascii.ascii_of_nat 10) EmptyString.

(** The tooltip text of a candidate item and of an overlay. *)
Definition tooltip_text (area_sqft perimeter_lf : float) : string :=
  "Area: " +:+ Detect.format_2f area_sqft +:+ " sqft" +:+ newline
  +:+ "Perimeter: " +:+ Detect.format_2f perimeter_lf +:+ " lf".

(** An overlay drawn for an accepted region. *)
Record overlay : Type := {
  outline : list (float * float);
  tooltip : string
}.

(** [_add_accepted_overlays]: the overlays it adds to the scene, in
    order; [renderer] tells whether a document is open. *)
Definition _add_accepted_overlays (renderer : bool) (self : MainWindow) : list overlay :=
  if negb renderer then nil
  else
    map (fun region =>
           {| outline := Model.polygon_points region;
              tooltip := tooltip_text (Model.area_sqft region)
                           (Model.perimeter_lf region) |})
      (Model.regions_for_page (model self) (current_page self)).

(** [on_page_changed] with a document open whose page renders: the page
    index is set and [refresh_page] drops the candidate items. *)
Definition on_page_changed (self : MainWindow) (index : Z) : MainWindow :=
  {| current_page := index;
     calibration := calibration self;
     candidates := nil;
     model := model self |}.

(** What [run_detection] shows. *)
Inductive detection_shown : Type :=
| NothingShown
| CalibrateFirst (title text : string)
| Found (tooltips : list string) (debug_data : option Detect.DetectionDebug)
    (status : string).

(** The loop of [run_detection] over the candidates found: one fresh item
    per candidate, with its tooltip. *)
Fixpoint add_items (ft_per_pixel : float) (found : list Detect.CandidateRegion)
    (items : list CandidateGraphicsItem) (tooltips : list string)
  : result (list CandidateGraphicsItem * list string) :=
  match found with
  | nil => Ok (items, tooltips)
  | candidate :: rest =>
      squared <- PyFloat.pow2 ft_per_pixel ;;
      let area_sqft := (Detect.area_px candidate * squared)%float in
      let perimeter_lf := (Detect.perimeter_px candidate * ft_per_pixel)%float in
      add_items ft_per_pixel rest
        (items ++ [ {| candidate := candidate; accepted_region_id := None |} ])
        (tooltips ++ [tooltip_text area_sqft perimeter_lf])
  end.

(** [run_detection]; [renderer] tells whether a document is open,
    [gray_image] is the rendered page if any, and the remaining arguments
    are what the controls of the window hold. *)
Definition run_detection (renderer : bool) (gray_image : option ndarray)
    (thickness_preset gap_close : string) (min_area_sqft : float) (dpi : Z)
    (debug_checked : bool) (self : MainWindow)
  : Detect.program (MainWindow * detection_shown) :=
  match renderer, gray_image with
  | true, Some gray =>
      match calibration self !! current_page self with
      | None =>
          Detect.Return (self, CalibrateFirst "Calibrate first" "Calibrate first.")
      | Some ft_per_pixel =>
          Detect.andthen
            (Detect.detect_regions gray thickness_preset gap_close
               min_area_sqft ft_per_pixel dpi)
            (fun detected =>
               let '(found, debug_data) := detected in
               Detect.andthen
                 (Detect.of_result (add_items ft_per_pixel found nil nil))
                 (fun added =>
                    let '(items, tooltips) := added in
                    Detect.Return
                      ({| current_page := current_page self;
                          calibration := calibration self;
                          candidates := items;
                          model := model self |},
                       Found tooltips
                         (if debug_checked then Some debug_data else None)
                         ("Found " +:+ pretty (Z.of_nat (List.length found))
                          +:+ " candidates."))))
      end
  | _, _ => Detect.Return (self, NothingShown)
  end.

End Ui.

(* ===================================================================== *)
(** ** Definitions used to state further properties *)
(* ===================================================================== *)

(** A window with two fresh candidates on its first page, calibrated at
    0.1 feet per pixel, and nothing accepted yet. *)
Definition sample_candidate : Detect.CandidateRegion := {|
  Detect.contour := {| shape := [4; 1; 2]; elements := [0; 0; 100; 0; 100; 50; 0; 50] |};
  Detect.polygon := [(0, 0); (100, 0); (100, 50); (0, 50)]%float;
  Detect.area_px := 5000%float;
  Detect.perimeter_px := 300%float
|}.

Definition sample_window : Ui.MainWindow := {|
  Ui.current_page := 0;
  Ui.calibration := {[ 0 := 0.1%float ]};
  Ui.candidates :=
    [ {| Ui.candidate := sample_candidate; Ui.accepted_region_id := None |};
      {| Ui.candidate := sample_candidate; Ui.accepted_region_id := None |} ];
  Ui.model := Model.init
|}.

(** A library for [detect_regions] to run against: images passed
    through, two rectangular contours found, measured by their corners. *)
Definition big_contour : ndarray :=
  {| shape := [4; 1; 2]; elements := [0; 0; 100; 0; 100; 50; 0; 50] |}.

Definition small_contour : ndarray :=
  {| shape := [4; 1; 2]; elements := [0; 0; 2; 0; 2; 2; 0; 2] |}.

Fixpoint pairs (l : list Z) : list (Z * Z) :=
  match l with
  | x :: y :: rest => (x, y) :: pairs rest
  | _ => nil
  end.

Definition studio : Detect.library :=
  fun X c =>
    match c in Detect.call T return result T with
    | Detect.GaussianBlur src _ _ => Ok src
    | Detect.Threshold src _ _ _ => Ok (0%float, src)
    | Detect.StructuringElement _ (w, h) => Ok {| shape := [h; w]; elements := nil |}
    | Detect.Morphology src _ _ => Ok src
    | Detect.Contours _ _ _ =>
        Ok ([small_contour; big_contour], {| shape := nil; elements := nil |})
    | Detect.ContourArea contour =>
        Ok (Detect.float_of_int (nth 2 (elements contour) 0%Z)
            * Detect.float_of_int (nth 5 (elements contour) 0%Z))%float
    | Detect.ArcLength contour _ =>
        Ok (2 * (Detect.float_of_int (nth 2 (elements contour) 0%Z)
                 + Detect.float_of_int (nth 5 (elements contour) 0%Z)))%float
    | Detect.ApproxPolyDP contour _ _ => Ok (pairs (elements contour))
    | Detect.CvtColor src _ => Ok src
    | Detect.DrawContours image _ _ _ _ => Ok image
    end.

(** A contour [contour_to_polygon] lets through: three axes, the middle
    one of length one. *)
Definition well_shaped (contour : ndarray) : bool :=
  Nat.eqb (List.length (shape contour)) 3 && (nth 1 (shape contour) 0 =? 1).


(** A record moved [k] positions further in the input. *)
Definition reindexed (k : Z) (m : CandidateMetrics) : CandidateMetrics :=
  {| contour_index := contour_index m + k;
     area_sqft := area_sqft m;
     perimeter_lf := perimeter_lf m;
     vertex_count := vertex_count m;
     metric_sanity_score := metric_sanity_score m;
     flagged := flagged m |}.

(** A record without its position. *)
Definition unplaced (m : CandidateMetrics) : float * float * Z * float * bool :=
  (area_sqft m, perimeter_lf m, vertex_count m, metric_sanity_score m, flagged m).

(** The same configuration with another vertex limit. *)
Definition with_max_vertex_count (config : PipelineConfig) (n : Z) : PipelineConfig :=
  {| dpi := dpi config;
     adaptive_block_size := adaptive_block_size config;
     adaptive_c := adaptive_c config;
     line_weight_threshold_px := line_weight_threshold_px config;
     close_kernel_px := close_kernel_px config;
     min_area_sqft := min_area_sqft config;
     max_vertex_count := n;
     sanity_ratio_threshold := sanity_ratio_threshold config |}.

(** The cells [export_to_csv] writes for one record, in column order. *)
Definition cells_of (item : CandidateMetrics) : list pyvalue :=
  [PyInt (contour_index item); PyFloatValue (area_sqft item);
   PyFloatValue (perimeter_lf item); PyInt (vertex_count item);
   PyFloatValue (metric_sanity_score item); PyBool (flagged item)].

Fixpoint concat_text (l : list string) : string :=
  match l with
  | nil => EmptyString
  | x :: rest => x +:+ concat_text rest
  end.

(** The number of [add_region] calls among requests. *)
Fixpoint additions (requests : list Model.request) : nat :=
  match requests with
  | nil => O
  | Model.AddRegion _ _ _ _ :: rest => S (additions rest)
  | Model.RemoveRegion _ :: rest => additions rest
  end.

(** The integers [start, start + 1, ...], [n] of them. *)
Fixpoint count_from (start : Z) (n : nat) : list Z :=
  match n with
  | O => nil
  | S n' => start :: count_from (start + 1) n'
  end.

(** A candidate item as [run_detection] makes it: not accepted. *)
Definition fresh_item (candidate : Detect.CandidateRegion) : Ui.CandidateGraphicsItem :=
  {| Ui.candidate := candidate; Ui.accepted_region_id := None |}.

(** A window in which the one candidate of the first page has been
    accepted as region 1. *)
Definition accepted_window : Ui.MainWindow := {|
  Ui.current_page := 0;
  Ui.calibration := {[ 0 := 0.1%float ]};
  Ui.candidates :=
    [ {| Ui.candidate := sample_candidate; Ui.accepted_region_id := Some 1 |} ];
  Ui.model :=
    {| Model._regions :=
         [ {| Model.page := 1;
              Model.region_id := 1;
              Model.area_sqft := (5000 * (0.1 * 0.1))%float;
              Model.perimeter_lf := (300 * 0.1)%float;
              Model.polygon_points := Detect.polygon sample_candidate |} ];
       Model._next_id := 2 |}
|}.

(** Clicks leave alone the regions that no candidate item stands for:
    those stored under identifiers below [floor], when the identifiers of
    the items and the next identifier are at or above it. *)
Definition above (floor : Z) (w : Ui.MainWindow) (older : list Model.AcceptedRegion)
  : Prop :=
  Forall (fun item => forall id, Ui.accepted_region_id item = Some id -> floor <= id)
    (Ui.candidates w) /\
  floor <= Model._next_id (Ui.model w) /\
  exists newer,
    Model._regions (Ui.model w) = (older ++ newer)%list.

(* ===================================================================== *)
(** ** Facts about float comparisons *)
(* ===================================================================== *)

Section FloatFacts.

Local Open Scope float_scope.

Local Arguments SFltb !f1 !f2 /.
Local Arguments SFleb !f1 !f2 /.
Local Arguments SFeqb !f1 !f2 /.

Lemma zero_image : Prim2SF 0 = S754_zero false.
Proof. reflexivity. Qed.

Lemma positive_not_below (x : float) : (0 <? x) = true -> (x <=? 0) = false.
Proof.
  rewrite FloatAxioms.ltb_spec, FloatAxioms.leb_spec, zero_image.
  destruct (Prim2SF x) as [[]|[]| |[] m e]; cbn; congruence.
Qed.

Lemma positive_not_zero (x : float) : (0 <? x) = true -> (x =? 0) = false.
Proof.
  rewrite FloatAxioms.ltb_spec, FloatAxioms.eqb_spec, zero_image.
  destruct (Prim2SF x) as [[]|[]| |[] m e]; cbn; congruence.
Qed.



End FloatFacts.

(* ===================================================================== *)
(** ** Reading the filter loop *)
(* ===================================================================== *)

Section FilterLoop.

Local Open Scope float_scope.

(** The guard on a zero area keeps the division from ever failing. *)
Lemma sanity_score_value (p : Polygon) :
  sanity_score p =
  Ok (if Shapely.area p =? 0 then infinity else Shapely.length p / Shapely.area p).
Proof.
  unfold sanity_score, PyFloat.truediv.
  destruct (Shapely.area p =? 0); reflexivity.
Qed.

Lemma compute_geometry_scaled (p : Polygon) (cal : Calibration) (f s : float) :
  feet_per_pixel cal = Ok f -> PyFloat.pow2 f = Ok s ->
  compute_geometry p cal = Ok (Shapely.area p * s, Shapely.length p * f).
Proof.
  intros Hf Hs. unfold compute_geometry. rewrite Hf. simpl. rewrite Hs. reflexivity.
Qed.

Lemma compute_geometry_inv (p : Polygon) (cal : Calibration) (a l : float) :
  compute_geometry p cal = Ok (a, l) ->
  exists f s, feet_per_pixel cal = Ok f /\ PyFloat.pow2 f = Ok s /\
              a = Shapely.area p * s /\ l = Shapely.length p * f.
Proof.
  unfold compute_geometry.
  destruct (feet_per_pixel cal) as [f|e]; simpl; [|discriminate].
  destruct (PyFloat.pow2 f) as [s|e] eqn:Es; simpl; [|discriminate].
  intros [= <- <-]. exists f, s. repeat split. exact Es.
Qed.

Variables (cal : Calibration) (cfg : PipelineConfig).

Lemma filter_loop_scaled (f s : float) :
  feet_per_pixel cal = Ok f -> PyFloat.pow2 f = Ok s ->
  forall items ms acc,
    filter_loop cal cfg items ms acc =
    Ok ((ms ++ map snd (omap (verdict cfg f s) items))%list,
        (acc ++ map fst (omap (verdict cfg f s) items))%list).
Proof.
  intros Hf Hs. induction items as [|[idx p] rest IH]; intros ms acc.
  - simpl. rewrite !app_nil_r. reflexivity.
  - simpl. destruct (Shapely.is_empty p) eqn:Ee.
    + apply IH.
    + rewrite (compute_geometry_scaled p cal f s Hf Hs). simpl.
      rewrite sanity_score_value. simpl.
      destruct (Shapely.area p * s <? min_area_sqft cfg); [apply IH|].
      destruct (max_vertex_count cfg <? _)%Z; [apply IH|].
      rewrite IH. simpl. rewrite <- !app_assoc. reflexivity.
Qed.

Lemma filter_loop_all_empty :
  forall items ms acc,
    Forall (fun item => Shapely.is_empty (snd item) = true) items ->
    filter_loop cal cfg items ms acc = Ok (ms, acc).
Proof.
  induction items as [|[idx p] rest IH]; intros ms acc H; [reflexivity|].
  inversion H as [|? ? Hp Hrest]; subst. simpl in *. rewrite Hp. apply IH, Hrest.
Qed.

Lemma verdict_all_empty (f s : float) :
  forall items,
    Forall (fun item => Shapely.is_empty (snd item) = true) items ->
    omap (verdict cfg f s) items = nil.
Proof.
  induction items as [|[idx p] rest IH]; intros H; [reflexivity|].
  inversion H as [|? ? Hp Hrest]; subst. simpl in *.
  rewrite Hp. apply IH, Hrest.
Qed.

(** A run of the loop that returns either never needed the scale or had
    a usable one. *)
Lemma filter_loop_returns_inv :
  forall items ms acc out,
    filter_loop cal cfg items ms acc = Ok out ->
    Forall (fun item => Shapely.is_empty (snd item) = true) items \/
    exists f s, feet_per_pixel cal = Ok f /\ PyFloat.pow2 f = Ok s.
Proof.
  induction items as [|[idx p] rest IH]; intros ms acc out H; [left; constructor|].
  simpl in H. destruct (Shapely.is_empty p) eqn:Ee.
  - destruct (IH _ _ _ H) as [Hall|Hus]; [left|right; exact Hus].
    constructor; [exact Ee|exact Hall].
  - right. destruct (compute_geometry p cal) as [[a l]|e] eqn:Eg; [|discriminate].
    destruct (compute_geometry_inv _ _ _ _ Eg) as (f & s & Hf & Hs & _). eauto.
Qed.

Lemma enumerate_from_empty {A : Type} (P : A -> Prop) (l : list A) :
  forall k, Forall P l -> Forall (fun item => P (snd item)) (enumerate_from k l).
Proof.
  induction l as [|x l IH]; intros k H; simpl; [constructor|].
  inversion H; subst. constructor; [assumption|apply IH; assumption].
Qed.

End FilterLoop.

(** What the filter returns, when it returns: the verdicts on the
    enumerated input, in order, for a scale that fits every polygon the
    loop had to measure. *)
Lemma filter_candidates_reading (ps : list Polygon) (cal : Calibration)
    (cfg : PipelineConfig) (r : PipelineResult) :
  filter_candidates ps cal cfg = Ok r ->
  exists f s,
    (forall p, Shapely.is_empty p = false -> In p ps ->
       compute_geometry p cal
       = Ok (Shapely.area p * s, Shapely.length p * f)%float) /\
    polygons r = map fst (omap (verdict cfg f s) (enumerate ps)) /\
    metrics r = map snd (omap (verdict cfg f s) (enumerate ps)).
Proof.
  unfold filter_candidates. intros H.
  destruct (filter_loop cal cfg (enumerate ps) nil nil) as [[ms acc]|e] eqn:E;
    simpl in H; [|discriminate].
  injection H as <-. simpl.
  destruct (filter_loop_returns_inv _ _ _ _ _ _ E) as [Hall|(f & s & Hf & Hs)].
  - exists 0%float, 0%float.
    rewrite (filter_loop_all_empty cal cfg _ _ _ Hall) in E. injection E as <- <-.
    rewrite (verdict_all_empty cfg _ _ _ Hall). repeat split; try reflexivity.
    intros p Hne Hin. exfalso.
    assert (G : forall k (l : list Polygon),
               Forall (fun item => Shapely.is_empty (snd item) = true)
                 (enumerate_from k l) -> In p l -> Shapely.is_empty p = true).
    { intros k l; revert k. induction l as [|x l IH]; intros k HF [].
      - subst. inversion HF; subst; assumption.
      - inversion HF; subst. eapply IH; eassumption. }
    rewrite (G _ _ Hall Hin) in Hne. discriminate.
  - exists f, s. rewrite (filter_loop_scaled cal cfg f s Hf Hs) in E.
    injection E as <- <-. repeat split; try reflexivity.
    intros p _ _. apply compute_geometry_scaled; assumption.
Qed.

(** With a usable scale the filter does return. *)
Lemma filter_candidates_returns (ps : list Polygon) (cal : Calibration)
    (cfg : PipelineConfig) (f s : float) :
  feet_per_pixel cal = Ok f -> PyFloat.pow2 f = Ok s ->
  filter_candidates ps cal cfg =
  Ok {| polygons := map fst (omap (verdict cfg f s) (enumerate ps));
        metrics := map snd (omap (verdict cfg f s) (enumerate ps)) |}.
Proof.
  intros Hf Hs. unfold filter_candidates.
  rewrite (filter_loop_scaled cal cfg f s Hf Hs). reflexivity.
Qed.

Section Verdicts.

Variables (cfg : PipelineConfig) (f s : float).

Local Arguments verdict : simpl never.

Lemma enumerate_from_elem {A : Type} (l : list A) :
  forall (k i : Z) (x : A),
    In (i, x) (enumerate_from k l) <->
    exists j : nat, i = k + Z.of_nat j /\ l !! j = Some x.
Proof.
  induction l as [|y l IH]; intros k i x; simpl.
  - split; [tauto|]. intros (j & _ & H). discriminate.
  - rewrite IH. split.
    + intros [[= <- <-]|(j & -> & H)].
      * exists O. split; [lia|reflexivity].
      * exists (S j). split; [lia|exact H].
    + intros ([|j] & -> & H); simpl in H.
      * left. injection H as ->. f_equal. lia.
      * right. exists j. split; [lia|exact H].
Qed.

(** A verdict that keeps a polygon keeps that very polygon, labelled
    with its position, after both checks have passed. *)
Lemma verdict_kept (idx : Z) (p q : Polygon) (m : CandidateMetrics) :
  verdict cfg f s (idx, p) = Some (q, m) ->
  q = p /\ Shapely.is_empty p = false /\
  (Shapely.area p * s <? min_area_sqft cfg)%float = false /\
  (max_vertex_count cfg <? Z.of_nat (List.length (Shapely.exterior_coords p))) = false /\
  contour_index m = idx /\
  area_sqft m = (Shapely.area p * s)%float /\
  perimeter_lf m = (Shapely.length p * f)%float /\
  vertex_count m = Z.of_nat (List.length (Shapely.exterior_coords p)) /\
  metric_sanity_score m =
    (if (Shapely.area p =? 0)%float then infinity
     else (Shapely.length p / Shapely.area p)%float) /\
  flagged m = (sanity_ratio_threshold cfg <? metric_sanity_score m)%float.
Proof.
  unfold verdict.
  destruct (Shapely.is_empty p); [discriminate|].
  destruct (_ <? min_area_sqft cfg)%float; [discriminate|].
  destruct (max_vertex_count cfg <? _); [discriminate|].
  intros [= <- <-]. simpl. repeat split; reflexivity.
Qed.

Lemma verdicts_elem (ps : list Polygon) (q : Polygon) (m : CandidateMetrics) :
  In (q, m) (omap (verdict cfg f s) (enumerate ps)) <->
  exists j : nat, ps !! j = Some q /\ verdict cfg f s (Z.of_nat j, q) = Some (q, m).
Proof.
  rewrite <- list_elem_of_In, list_elem_of_omap. split.
  - intros ([i p] & Hin & Hv).
    apply list_elem_of_In, enumerate_from_elem in Hin. destruct Hin as (j & -> & Hj).
    destruct (verdict_kept _ _ _ _ Hv) as (-> & _).
    exists j. split; [exact Hj|exact Hv].
  - intros (j & Hj & Hv). exists (Z.of_nat j, q). split; [|exact Hv].
    apply list_elem_of_In, enumerate_from_elem. exists j. split; [reflexivity|exact Hj].
Qed.

(** The two output lists are the two halves of one list of pairs. *)
Lemma halves_lookup {A B : Type} (l : list (A * B)) (k : nat) (a : A) (b : B) :
  l !! k = Some (a, b) <-> map fst l !! k = Some a /\ map snd l !! k = Some b.
Proof.
  revert k. induction l as [|[a' b'] l IH]; intros [|k]; simpl.
  - split; [discriminate|intros [? ?]; discriminate].
  - split; [discriminate|intros [? ?]; discriminate].
  - split; [intros [= -> ->]; tauto|intros [[= ->] [= ->]]; reflexivity].
  - apply IH.
Qed.

Lemma halves_second {A B : Type} (l : list (A * B)) (k : nat) (b : B) :
  map snd l !! k = Some b -> exists a, l !! k = Some (a, b).
Proof.
  revert k. induction l as [|[a' b'] l IH]; intros [|k]; simpl; try discriminate.
  - intros [= ->]. eauto.
  - apply IH.
Qed.

(** Positions only grow along the verdicts. *)
Lemma verdicts_sorted (ps : list Polygon) :
  forall k,
    StronglySorted Z.lt
      (map contour_index (map snd (omap (verdict cfg f s) (enumerate_from k ps)))) /\
    Forall (fun i => k <= i)
      (map contour_index (map snd (omap (verdict cfg f s) (enumerate_from k ps)))).
Proof.
  induction ps as [|p ps IH]; intros k; simpl.
  - split; constructor.
  - destruct (IH (k + 1)) as [Hs Hb].
    assert (Hb' : Forall (fun i => k <= i)
              (map contour_index (map snd (omap (verdict cfg f s)
                 (enumerate_from (k + 1) ps))))).
    { eapply List.Forall_impl; [|exact Hb]. simpl. intros; lia. }
    destruct (verdict cfg f s (k, p)) as [[q m]|] eqn:Ev; simpl.
    + destruct (verdict_kept _ _ _ _ Ev) as (_ & _ & _ & _ & Hi & _).
      rewrite Hi. split.
      * constructor; [exact Hs|]. eapply List.Forall_impl; [|exact Hb]. simpl. intros; lia.
      * constructor; [lia|exact Hb'].
    + split; assumption.
Qed.

End Verdicts.

Section FilterFacts.

Variables (ps : list Polygon) (cal : Calibration) (cfg : PipelineConfig).
Variable r : PipelineResult.
Hypothesis run_ok : filter_candidates ps cal cfg = Ok r.

Local Arguments verdict : simpl never.

(** Every accepted polygon comes from a kept verdict at some position. *)
Lemma accepted_origin (q : Polygon) :
  In q (polygons r) ->
  exists (f s : float) (j : nat) (m : CandidateMetrics),
    ps !! j = Some q /\ verdict cfg f s (Z.of_nat j, q) = Some (q, m).
Proof.
  destruct (filter_candidates_reading _ _ _ _ run_ok) as (f & s & _ & Hp & _).
  rewrite Hp. intros Hin. apply in_map_iff in Hin. destruct Hin as ([q' m] & <- & Hin).
  apply verdicts_elem in Hin. destruct Hin as (j & Hj & Hv).
  exists f, s, j, m. simpl. split; assumption.
Qed.

(** Every record comes from a kept verdict, and sits where its polygon
    sits. *)
Lemma record_origin (k : nat) (m : CandidateMetrics) :
  metrics r !! k = Some m ->
  exists (f s : float) (j : nat) (p : Polygon),
    ps !! j = Some p /\ polygons r !! k = Some p /\
    verdict cfg f s (Z.of_nat j, p) = Some (p, m) /\
    compute_geometry p cal = Ok (Shapely.area p * s, Shapely.length p * f)%float.
Proof.
  destruct (filter_candidates_reading _ _ _ _ run_ok) as (f & s & Hg & Hp & Hm).
  rewrite Hm, Hp. intros Hk.
  destruct (halves_second _ _ _ Hk) as (p & Hpair).
  assert (Hin : In (p, m) (omap (verdict cfg f s) (enumerate ps))).
  { apply list_elem_of_In. eapply list_elem_of_lookup_2. exact Hpair. }
  apply verdicts_elem in Hin. destruct Hin as (j & Hj & Hv).
  exists f, s, j, p. repeat split; try assumption.
  - apply halves_lookup in Hpair. tauto.
  - destruct (verdict_kept _ _ _ _ _ _ _ Hv) as (_ & Hne & _).
    apply Hg; [exact Hne|]. apply list_elem_of_In. eapply list_elem_of_lookup_2. exact Hj.
Qed.

(** A polygon the verdict drops leaves no trace at its position. *)
Lemma dropped_position (j : nat) (p : Polygon) :
  ps !! j = Some p ->
  (forall f s, verdict cfg f s (Z.of_nat j, p) = None \/
               compute_geometry p cal
               <> Ok (Shapely.area p * s, Shapely.length p * f)%float) ->
  forall m, In m (metrics r) -> contour_index m <> Z.of_nat j.
Proof.
  intros Hj Hdrop m Hin Hidx.
  apply list_elem_of_In, list_elem_of_lookup_1 in Hin. destruct Hin as (k & Hk).
  destruct (record_origin _ _ Hk) as (f & s & j' & p' & Hj' & _ & Hv & Hg).
  destruct (verdict_kept _ _ _ _ _ _ _ Hv) as (_ & _ & _ & _ & Hi & _).
  assert (j' = j) by lia. subst j'.
  rewrite Hj in Hj'. injection Hj' as <-.
  destruct (Hdrop f s) as [Hn|Hn]; [rewrite Hn in Hv; discriminate|exact (Hn Hg)].
Qed.


End FilterFacts.

(** The verdict under another sanity threshold: same decision, same
    record apart from the flag. *)
Lemma verdict_threshold (cfg : PipelineConfig) (t f s : float) (item : Z * Polygon) :
  option_map (fun pm => (fst pm, unflagged (snd pm)))
    (verdict (with_sanity_threshold cfg t) f s item) =
  option_map (fun pm => (fst pm, unflagged (snd pm))) (verdict cfg f s item).
Proof.
  destruct item as [idx p]. unfold verdict, with_sanity_threshold. simpl.
  destruct (Shapely.is_empty p); [reflexivity|].
  destruct (_ <? min_area_sqft cfg)%float; [reflexivity|].
  destruct (max_vertex_count cfg <? _); reflexivity.
Qed.

Lemma verdicts_threshold (cfg : PipelineConfig) (t f s : float)
    (items : list (Z * Polygon)) :
  map fst (omap (verdict (with_sanity_threshold cfg t) f s) items) =
  map fst (omap (verdict cfg f s) items) /\
  map unflagged (map snd (omap (verdict (with_sanity_threshold cfg t) f s) items)) =
  map unflagged (map snd (omap (verdict cfg f s) items)).
Proof.
  induction items as [|item items [IH1 IH2]]; [split; reflexivity|].
  pose proof (verdict_threshold cfg t f s item) as H.
  cbn [omap list_omap].
  destruct (verdict (with_sanity_threshold cfg t) f s item) as [[p m]|];
    destruct (verdict cfg f s item) as [[p' m']|]; cbn [option_map fst snd] in H;
    try discriminate.
  - assert (Hp : p = p') by congruence.
    assert (Hm : unflagged m = unflagged m') by congruence.
    cbn [map fst snd]. rewrite IH1, IH2, Hm, Hp. split; reflexivity.
  - split; assumption.
Qed.

(** The filter returns under one threshold exactly when it returns under
    another. *)
Lemma filter_candidates_threshold (ps : list Polygon) (cal : Calibration)
    (cfg : PipelineConfig) (r : PipelineResult) (t : float) :
  filter_candidates ps cal cfg = Ok r ->
  exists r', filter_candidates ps cal (with_sanity_threshold cfg t) = Ok r' /\
             polygons r' = polygons r /\
             map unflagged (metrics r') = map unflagged (metrics r).
Proof.
  intros H. unfold filter_candidates in *.
  destruct (filter_loop cal cfg (enumerate ps) nil nil) as [[ms acc]|e] eqn:E;
    simpl in H; [|discriminate].
  injection H as <-. simpl.
  destruct (filter_loop_returns_inv _ _ _ _ _ _ E) as [Hall|(f & s & Hf & Hs)].
  - rewrite (filter_loop_all_empty cal cfg _ _ _ Hall) in E. injection E as <- <-.
    rewrite (filter_loop_all_empty cal _ _ _ _ Hall). simpl. eexists. repeat split.
  - rewrite (filter_loop_scaled cal cfg f s Hf Hs) in E. injection E as <- <-.
    rewrite (filter_loop_scaled cal _ f s Hf Hs). simpl. eexists. split; [reflexivity|].
    simpl. apply verdicts_threshold.
Qed.

(* ===================================================================== *)
(** ** Calibration and geometry *)
(* ===================================================================== *)

(** Once the scale cannot be read, the loop fails at the first polygon it
    has to measure. *)
Lemma filter_loop_unusable (cal : Calibration) (cfg : PipelineConfig) (e : exn) :
  feet_per_pixel cal = Raise e ->
  forall items ms acc,
    Exists (fun item => Shapely.is_empty (snd item) = false) items ->
    filter_loop cal cfg items ms acc = Raise e.
Proof.
  intros He. induction items as [|[idx p] rest IH]; intros ms acc Hex.
  - inversion Hex.
  - simpl. destruct (Shapely.is_empty p) eqn:Ee.
    + apply IH. inversion Hex as [? ? H|? ? H]; subst; [|exact H].
      simpl in H. congruence.
    + unfold compute_geometry. rewrite He. reflexivity.
Qed.

Lemma enumerate_from_exists {A : Type} (P : A -> Prop) (l : list A) :
  forall k, Exists P l -> Exists (fun item => P (snd item)) (enumerate_from k l).
Proof.
  induction l as [|x l IH]; intros k H; inversion H; subst; simpl.
  - left. assumption.
  - right. apply IH. assumption.
Qed.


(** C1, as amended: for a calibration whose two distances are strictly
    positive, [feet_per_pixel] is their quotient.  A calibration with a
    distance that is zero or negative is built all the same; it is reading
    [feet_per_pixel] that raises [ValueError], so [compute_geometry] fails
    with it for every polygon before it touches the polygon, and
    [filter_candidates] fails with it as soon as some polygon is not empty
    and returns the empty result when all are. *)
Theorem calibration_checked_on_use (cal : Calibration) :
  ((0 <? pixel_distance cal)%float = true ->
   (0 <? real_distance_feet cal)%float = true ->
   feet_per_pixel cal = Ok (real_distance_feet cal / pixel_distance cal)%float) /\
  ((pixel_distance cal <=? 0)%float = true \/
   (real_distance_feet cal <=? 0)%float = true ->
   exists msg,
     feet_per_pixel cal = Raise (ValueError msg) /\
     (forall polygon, compute_geometry polygon cal = Raise (ValueError msg)) /\
     (forall ps cfg,
        (Forall (fun p => Shapely.is_empty p = true) ps ->
         filter_candidates ps cal cfg = Ok {| polygons := nil; metrics := nil |}) /\
        (Exists (fun p => Shapely.is_empty p = false) ps ->
         filter_candidates ps cal cfg = Raise (ValueError msg)))).
Proof.
  split.
  - intros Hp Hr. unfold feet_per_pixel, PyFloat.truediv.
    rewrite (positive_not_below _ Hp), (positive_not_below _ Hr),
      (positive_not_zero _ Hp). reflexivity.
  - intros Hbad.
    assert (Hraise : exists msg, feet_per_pixel cal = Raise (ValueError msg)).
    { unfold feet_per_pixel.
      destruct (pixel_distance cal <=? 0)%float eqn:E1; [eauto|].
      destruct (real_distance_feet cal <=? 0)%float eqn:E2; [eauto|].
      destruct Hbad; discriminate. }
    destruct Hraise as (msg & Hmsg). exists msg. split; [exact Hmsg|]. split.
    + intros polygon. unfold compute_geometry. rewrite Hmsg. reflexivity.
    + intros ps cfg. split; intros H; unfold filter_candidates.
      * rewrite filter_loop_all_empty; [reflexivity|].
        apply enumerate_from_empty with (P := fun p => Shapely.is_empty p = true).
        exact H.
      * rewrite (filter_loop_unusable cal cfg _ Hmsg); [reflexivity|].
        apply enumerate_from_exists with (P := fun p => Shapely.is_empty p = false).
        exact H.
Qed.

Lemma calibration_checked_on_use_witness :
  feet_per_pixel scenario_calibration = Ok (10 / 100)%float /\
  compute_geometry rectangle
    {| pixel_distance := 0%float; real_distance_feet := 10%float |}
  = Raise (ValueError "pixel_distance must be > 0").
Proof.
  split.
  - apply (calibration_checked_on_use scenario_calibration); reflexivity.
  - destruct (calibration_checked_on_use
                {| pixel_distance := 0%float; real_distance_feet := 10%float |})
      as [_ H].
    destruct H as (msg & Hm & Hg & _); [left; reflexivity|].
    rewrite Hg. vm_compute in Hm. injection Hm as <-. reflexivity.
Defined.

(** C1, as stated, fails: a calibration with a pixel distance of zero is
    built, and the filter runs to its end with it when it has nothing to
    measure. *)
Lemma nonpositive_calibration_goes_through :
  exists cal : Calibration,
    (pixel_distance cal <=? 0)%float = true /\
    filter_candidates [empty_polygon] cal default_config
    = Ok {| polygons := nil; metrics := nil |}.
Proof.
  exists {| pixel_distance := 0%float; real_distance_feet := 10%float |}.
  split; reflexivity.
Qed.




(* ===================================================================== *)
(** ** The candidate filter *)
(* ===================================================================== *)

Lemma mixed_run :
  filter_candidates mixed_input scenario_calibration default_config = Ok mixed_result.
Proof. vm_compute. reflexivity. Qed.

(** C2, as amended: with the calibration [pixel_distance = 100],
    [real_distance_feet = 10] the scale is 0.1, and a polygon of pixel
    area 5000 and pixel perimeter 300 is accepted under
    [min_area_sqft = 1.0], [max_vertex_count = 1000],
    [sanity_ratio_threshold = 0.8] with [perimeter_lf = 30.0],
    [sanity_score = 0.06], [flagged = false] and
    [area_sqft = 50.00000000000001], the binary64 value of
    [5000 * 0.1 ** 2], one unit in the last place above 50.0. *)
Theorem rectangle_scenario (p : Polygon) (cfg : PipelineConfig) :
  Shapely.is_empty p = false ->
  Shapely.area p = 5000%float ->
  Shapely.length p = 300%float ->
  Z.of_nat (List.length (Shapely.exterior_coords p)) <= 1000 ->
  min_area_sqft cfg = 1.0%float ->
  max_vertex_count cfg = 1000 ->
  sanity_ratio_threshold cfg = 0.8%float ->
  feet_per_pixel scenario_calibration = Ok 0.1%float /\
  exists m,
    filter_candidates [p] scenario_calibration cfg
    = Ok {| polygons := [p]; metrics := [m] |} /\
    contour_index m = 0 /\
    area_sqft m = 50.00000000000001%float /\
    perimeter_lf m = 30.0%float /\
    metric_sanity_score m = 0.06%float /\
    flagged m = false.
Proof.
  intros Hne Ha Hl Hv Hmin Hmax Ht.
  assert (Hf : feet_per_pixel scenario_calibration = Ok 0.1%float)
    by (vm_compute; reflexivity).
  assert (Hs : PyFloat.pow2 0.1%float = Ok (0.1 * 0.1)%float)
    by (vm_compute; reflexivity).
  split; [exact Hf|].
  rewrite (filter_candidates_returns [p] scenario_calibration cfg _ _ Hf Hs).
  unfold enumerate. cbn [enumerate_from omap list_omap]. unfold verdict.
  rewrite Hne, Ha, Hl, Hmin, Hmax, Ht.
  assert (E1 : (5000 * (0.1 * 0.1) <? 1.0)%float = false) by (vm_compute; reflexivity).
  assert (E2 : (5000 =? 0)%float = false) by (vm_compute; reflexivity).
  rewrite E1, E2.
  replace (1000 <? Z.of_nat (List.length (Shapely.exterior_coords p))) with false
    by (symmetry; apply Z.ltb_ge; exact Hv).
  eexists. split; [reflexivity|]. cbn [contour_index area_sqft perimeter_lf
    metric_sanity_score flagged].
  repeat split; vm_compute; reflexivity.
Qed.

Lemma rectangle_scenario_witness :
  exists m,
    filter_candidates [rectangle] scenario_calibration default_config
    = Ok {| polygons := [rectangle]; metrics := [m] |} /\
    area_sqft m = 50.00000000000001%float.
Proof.
  destruct (rectangle_scenario rectangle default_config) as (_ & m & H & _ & Ha & _);
    try reflexivity.
  - vm_compute. discriminate.
  - exists m. split; assumption.
Defined.

(** C2, as stated, fails: the record of the rectangle does not carry
    [area_sqft = 50.0], and the count it carries is that of the closed
    ring, five. *)
Lemma rectangle_area_is_not_50 :
  exists m,
    filter_candidates [rectangle] scenario_calibration default_config
    = Ok {| polygons := [rectangle]; metrics := [m] |} /\
    (area_sqft m =? 50.0)%float = false /\
    vertex_count m = 5.
Proof.
  eexists. split; [vm_compute; reflexivity|].
  split; vm_compute; reflexivity.
Qed.

(** C4: the score of a polygon is its pixel perimeter over its pixel area,
    and infinity when the area is zero; every record carries the score of
    its non-empty polygon and is flagged exactly when that score exceeds
    the threshold; and the threshold has no say in what is accepted:
    under any other threshold the same polygons are accepted with the same
    records, flags apart. *)
Theorem sanity_flag_is_advisory (ps : list Polygon) (cal : Calibration)
    (cfg : PipelineConfig) (r : PipelineResult) :
  filter_candidates ps cal cfg = Ok r ->
  (forall p,
     sanity_score p =
     Ok (if (Shapely.area p =? 0)%float then infinity
         else (Shapely.length p / Shapely.area p)%float)) /\
  (forall k m,
     metrics r !! k = Some m ->
     exists p,
       polygons r !! k = Some p /\ Shapely.is_empty p = false /\
       sanity_score p = Ok (metric_sanity_score m) /\
       flagged m = (sanity_ratio_threshold cfg <? metric_sanity_score m)%float) /\
  (forall t,
     exists r',
       filter_candidates ps cal (with_sanity_threshold cfg t) = Ok r' /\
       polygons r' = polygons r /\
       map unflagged (metrics r') = map unflagged (metrics r)).
Proof.
  intros H. split; [exact sanity_score_value|]. split.
  - intros k m Hk.
    destruct (record_origin _ _ _ _ H _ _ Hk) as (f & s & j & p & _ & Hp & Hv & _).
    destruct (verdict_kept _ _ _ _ _ _ _ Hv) as (_ & Hne & _ & _ & _ & _ & _ & _ & Hsc & Hfl).
    exists p. repeat split; try assumption.
    rewrite sanity_score_value, Hsc. reflexivity.
  - intros t. apply filter_candidates_threshold. exact H.
Qed.

Lemma sanity_flag_is_advisory_witness :
  sanity_score sliver = Ok infinity /\
  exists r',
    filter_candidates mixed_input scenario_calibration
      (with_sanity_threshold default_config 0.01%float) = Ok r' /\
    polygons r' = polygons mixed_result.
Proof.
  destruct (sanity_flag_is_advisory mixed_input scenario_calibration default_config
              mixed_result mixed_run)
    as (Hs & _ & Ht).
  split.
  - rewrite Hs. reflexivity.
  - destruct (Ht 0.01%float) as (r' & Hr & Hp & _). exists r'. split; assumption.
Defined.




(** C6: when the filter returns, the accepted polygons and the records
    are equally many; the record at an index describes the polygon at that
    index, its [contour_index] being the position of that polygon in the
    input; positions strictly grow along the output, so both lists keep
    the input order; and a second run on the same input returns the same
    result. *)
Theorem outputs_aligned_in_input_order (ps : list Polygon) (cal : Calibration)
    (cfg : PipelineConfig) (r : PipelineResult) :
  filter_candidates ps cal cfg = Ok r ->
  List.length (polygons r) = List.length (metrics r) /\
  (forall k m,
     metrics r !! k = Some m ->
     exists (j : nat) (p : Polygon),
       contour_index m = Z.of_nat j /\ ps !! j = Some p /\
       polygons r !! k = Some p /\
       compute_geometry p cal = Ok (area_sqft m, perimeter_lf m) /\
       vertex_count m = Z.of_nat (List.length (Shapely.exterior_coords p)) /\
       sanity_score p = Ok (metric_sanity_score m)) /\
  (forall k p, polygons r !! k = Some p -> exists m, metrics r !! k = Some m) /\
  StronglySorted Z.lt (map contour_index (metrics r)) /\
  (forall r', filter_candidates ps cal cfg = Ok r' -> r' = r).
Proof.
  intros H.
  destruct (filter_candidates_reading _ _ _ _ H) as (f & s & _ & Hp & Hm).
  split; [rewrite Hp, Hm, !length_map; reflexivity|]. split; [|split; [|split]].
  - intros k m Hk.
    destruct (record_origin _ _ _ _ H _ _ Hk) as (f' & s' & j & p & Hj & Hpk & Hv & Hg).
    destruct (verdict_kept _ _ _ _ _ _ _ Hv)
      as (_ & _ & _ & _ & Hi & Ha & Hl & Hc & Hsc & _).
    exists j, p. repeat split; try assumption.
    + rewrite Hg, Ha, Hl. reflexivity.
    + rewrite sanity_score_value, Hsc. reflexivity.
  - intros k p Hk. rewrite Hp in Hk. rewrite Hm.
    revert k Hk. generalize (omap (verdict cfg f s) (enumerate ps)).
    induction l as [|[q m] l IH]; intros [|k]; simpl; try discriminate; eauto.
  - rewrite Hm. apply verdicts_sorted.
  - intros r' H'. rewrite H in H'. injection H' as ->. reflexivity.
Qed.

Lemma outputs_aligned_in_input_order_witness :
  List.length (polygons mixed_result) = List.length (metrics mixed_result) /\
  StronglySorted Z.lt (map contour_index (metrics mixed_result)).
Proof.
  destruct (outputs_aligned_in_input_order mixed_input scenario_calibration
              default_config mixed_result mixed_run)
    as (H & _ & _ & Hs & _).
  split; assumption.
Defined.

(** C7: an empty polygon of the input is skipped: when the filter
    returns, it is not among the accepted polygons, and no record carries
    its position. *)
Theorem empty_polygons_skipped (ps : list Polygon) (cal : Calibration)
    (cfg : PipelineConfig) (r : PipelineResult) (j : nat) (p : Polygon) :
  filter_candidates ps cal cfg = Ok r ->
  ps !! j = Some p ->
  Shapely.is_empty p = true ->
  ~ In p (polygons r) /\
  (forall m, In m (metrics r) -> contour_index m <> Z.of_nat j).
Proof.
  intros H Hj He. split.
  - intros Hin. destruct (accepted_origin _ _ _ _ H _ Hin) as (f & s & j' & m & _ & Hv).
    destruct (verdict_kept _ _ _ _ _ _ _ Hv) as (_ & Hne & _). congruence.
  - apply (dropped_position _ _ _ _ H _ _ Hj). intros f s. left.
    unfold verdict. rewrite He. reflexivity.
Qed.

Lemma empty_polygons_skipped_witness :
  ~ In empty_polygon (polygons mixed_result).
Proof.
  destruct (empty_polygons_skipped mixed_input scenario_calibration default_config
              mixed_result O empty_polygon mixed_run eq_refl eq_refl)
    as (H & _).
  exact H.
Defined.

(* ===================================================================== *)
(** ** The accepted-regions model *)
(* ===================================================================== *)

Section ModelFacts.

Import Model.

Lemma sorted_snoc (l : list Z) (x : Z) :
  StronglySorted Z.lt l -> Forall (fun y => y < x) l ->
  StronglySorted Z.lt (l ++ [x])%list.
Proof.
  induction l as [|y l IH]; intros Hs Hb; simpl.
  - constructor; constructor.
  - inversion Hs as [|? ? Hs' Hy]; subst. inversion Hb as [|? ? Hyx Hb']; subst.
    constructor; [apply IH; assumption|].
    apply Forall_app. split; [exact Hy|]. constructor; [exact Hyx|constructor].
Qed.

Lemma sorted_filter (keep : AcceptedRegion -> bool) (l : list AcceptedRegion) :
  StronglySorted Z.lt (map region_id l) ->
  StronglySorted Z.lt (map region_id (List.filter keep l)).
Proof.
  induction l as [|r l IH]; intros Hs; simpl; [constructor|].
  simpl in Hs. inversion Hs as [|? ? Hs' Hr]; subst.
  destruct (keep r); simpl; [|apply IH; exact Hs'].
  constructor; [apply IH; exact Hs'|].
  rewrite List.Forall_forall in *. intros x Hx. apply Hr.
  apply in_map_iff in Hx. destruct Hx as (y & <- & Hy).
  apply List.filter_In in Hy. apply in_map. tauto.
Qed.

Lemma add_region_numbered (self : AcceptedRegionsModel) p a l pts :
  numbered self -> numbered (fst (add_region self p a l pts)).
Proof.
  intros [Hs Hb]. unfold add_region, numbered. simpl. split.
  - rewrite map_app. simpl. apply sorted_snoc; [exact Hs|].
    rewrite List.Forall_forall in *. intros y Hy.
    apply in_map_iff in Hy. destruct Hy as (r & <- & Hr). apply Hb, Hr.
  - apply Forall_app. split.
    + eapply List.Forall_impl; [|exact Hb]. simpl. intros; lia.
    + constructor; [simpl; lia|constructor].
Qed.

Lemma remove_region_numbered (self : AcceptedRegionsModel) (i : Z) :
  numbered self -> numbered (remove_region self i).
Proof.
  intros [Hs Hb]. unfold remove_region, numbered. simpl. split.
  - apply sorted_filter. exact Hs.
  - rewrite List.Forall_forall in *. intros r Hr.
    apply List.filter_In in Hr. apply Hb. tauto.
Qed.

(** Over any further life of a numbered model: the identifiers handed
    out grow strictly, start at the model's next identifier, and the
    model stays numbered. *)
Lemma serve_numbered (requests : list request) :
  forall self final handed,
    numbered self ->
    serve self requests = (final, handed) ->
    numbered final /\
    _next_id self <= _next_id final /\
    StronglySorted Z.lt (map region_id handed) /\
    Forall (fun region => _next_id self <= region_id region < _next_id final) handed.
Proof.
  induction requests as [|[p a l pts|i] rest IH]; intros self final handed Hn H.
  - injection H as <- <-. repeat split; try apply Hn; try lia; constructor.
  - simpl in H.
    destruct (serve _ rest) as [final' handed'] eqn:E.
    injection H as <- <-.
    destruct (IH _ _ _ (add_region_numbered self p a l pts Hn) E)
      as (Hn' & Hle & Hs & Hb).
    simpl in Hle, Hb. repeat split; try apply Hn'; [lia| |].
    + simpl. constructor; [exact Hs|].
      rewrite List.Forall_forall in *. intros y Hy.
      apply in_map_iff in Hy. destruct Hy as (r & <- & Hr).
      specialize (Hb r Hr). lia.
    + constructor; [simpl; lia|].
      eapply List.Forall_impl; [|exact Hb]. simpl. intros; lia.
  - simpl in H.
    destruct (IH _ _ _ (remove_region_numbered self i Hn) H) as (Hn' & Hle & Hs & Hb).
    simpl in Hle, Hb. repeat split; try apply Hn'; assumption.
Qed.

Lemma init_numbered : numbered init.
Proof. split; constructor. Qed.

Lemma sorted_nodup (l : list Z) : StronglySorted Z.lt l -> List.NoDup l.
Proof.
  induction 1 as [|x l Hs IH Hx]; constructor; [|exact IH].
  intros Hin. rewrite List.Forall_forall in Hx. specialize (Hx x Hin). lia.
Qed.

Lemma filter_sublist {A : Type} (keep : A -> bool) (l : list A) :
  sublist (List.filter keep l) l.
Proof.
  induction l as [|x l IH]; simpl; [constructor|].
  destruct (keep x); [apply sublist_skip|apply sublist_cons]; exact IH.
Qed.

(** What is stored was stored before or has been handed out since. *)
Lemma stored_origin (requests : list request) :
  forall self final handed,
    serve self requests = (final, handed) ->
    forall region, In region (_regions final) ->
                   In region (_regions self) \/ In region handed.
Proof.
  induction requests as [|[p a l pts|i] rest IH]; intros self final handed H region Hin.
  - injection H as <- <-. left. exact Hin.
  - simpl in H. destruct (serve _ rest) as [final' handed'] eqn:E.
    injection H as <- <-.
    destruct (IH _ _ _ E region Hin) as [Hold|Hnew].
    + simpl in Hold. apply in_app_iff in Hold. destruct Hold as [Hold|[<-|[]]].
      * left. exact Hold.
      * right. left. reflexivity.
    + right. right. exact Hnew.
  - simpl in H. destruct (IH _ _ _ H region Hin) as [Hold|Hnew].
    + left. simpl in Hold. apply List.filter_In in Hold. tauto.
    + right. exact Hnew.
Qed.

End ModelFacts.

(** C10: over any life of the model, the identifiers [add_region] hands
    out grow strictly from one request to the next, removals in between
    or not, so none is handed out twice; each lies below the model's next
    identifier, and the stored regions carry pairwise distinct
    identifiers.  [remove_region] keeps exactly the stored regions whose
    identifier differs from its argument, as they were and in their order,
    and leaves the next identifier alone. *)
Theorem region_ids_never_reused (requests : list Model.request) :
  (forall final handed,
     Model.serve Model.init requests = (final, handed) ->
     StronglySorted Z.lt (map Model.region_id handed) /\
     List.NoDup (map Model.region_id handed) /\
     Forall (fun region => 1 <= Model.region_id region < Model._next_id final) handed /\
     List.NoDup (map Model.region_id (Model._regions final)) /\
     (forall region, In region (Model._regions final) -> In region handed)) /\
  (forall self i,
     (forall region,
        In region (Model._regions (Model.remove_region self i)) <->
        In region (Model._regions self) /\ Model.region_id region <> i) /\
     sublist (Model._regions (Model.remove_region self i)) (Model._regions self) /\
     Model._next_id (Model.remove_region self i) = Model._next_id self).
Proof.
  split.
  - intros final handed H.
    destruct (serve_numbered requests _ _ _ init_numbered H) as ([Hs' Hb'] & _ & Hs & Hb).
    repeat split; try assumption.
    + apply sorted_nodup, Hs.
    + apply sorted_nodup, Hs'.
    + intros region Hin.
      destruct (stored_origin requests _ _ _ H region Hin) as [[]|Hnew]. exact Hnew.
  - intros self i. split; [|split].
    + intros region. simpl. rewrite List.filter_In, negb_true_iff, Z.eqb_neq. tauto.
    + simpl. apply filter_sublist.
    + reflexivity.
Qed.

(* ===================================================================== *)
(** ** The raster stages *)
(* ===================================================================== *)

Lemma run_vis {A X : Type} (h : handler) (c : ext X) (k : X -> prog A) :
  run h (Vis c k) =
  match h _ c with
  | Ok x => (Made c :: fst (run h (k x)), snd (run h (k x)))
  | Raise e => ([Made c], Raise e)
  end.
Proof.
  simpl. destruct (h X c) as [x|e]; [|reflexivity].
  destruct (run h (k x)). reflexivity.
Qed.

(** C9, as amended: an even adaptive block size makes [adaptive_binarize]
    raise [ValueError] before the threshold routine is called: whatever
    the libraries answer, the run of the pipeline ends in an error with
    neither the threshold call nor a kernel call made, and in that
    [ValueError] once the page is rendered.  Kernel sizes are not checked
    by the pipeline: with an odd block size, [line_weight_threshold_px]
    reaches the library as it is, after the binarization call; and a
    [close_kernel_px] that is unset or zero only skips the closing step. *)
Theorem block_size_checked_kernel_sizes_not (h : handler) (pdf_path : string)
    (page_number : Z) (calibration : Calibration) (config : PipelineConfig) :
  (adaptive_block_size config mod 2 = 0 ->
   (forall gray,
      adaptive_binarize gray (adaptive_block_size config) (adaptive_c config)
      = Throw (ValueError "adaptive_block_size must be odd")) /\
   existsb is_binarization
     (fst (run h (run_pipeline pdf_path page_number calibration config))) = false /\
   existsb is_kernel_call
     (fst (run h (run_pipeline pdf_path page_number calibration config))) = false /\
   is_ok (snd (run h (run_pipeline pdf_path page_number calibration config))) = false /\
   (forall gray,
      h _ (RenderPage pdf_path page_number (dpi config)) = Ok gray ->
      snd (run h (run_pipeline pdf_path page_number calibration config))
      = Raise (ValueError "adaptive_block_size must be odd"))) /\
  (adaptive_block_size config mod 2 <> 0 ->
   forall gray binary,
     h _ (RenderPage pdf_path page_number (dpi config)) = Ok gray ->
     h _ (binarization_of config gray) = Ok binary ->
     exists rest,
       fst (run h (run_pipeline pdf_path page_number calibration config))
       = Made (RenderPage pdf_path page_number (dpi config))
         :: Made (binarization_of config gray)
         :: Made (GetStructuringElement MORPH_RECT
                    (line_weight_threshold_px config, line_weight_threshold_px config))
         :: rest) /\
  (forall binary kernel opened,
     truthy (close_kernel_px config) = false ->
     h _ (GetStructuringElement MORPH_RECT
            (line_weight_threshold_px config, line_weight_threshold_px config))
     = Ok kernel ->
     h _ (MorphologyEx binary MORPH_OPEN kernel) = Ok opened ->
     run h (thickness_gate binary (line_weight_threshold_px config)
              (close_kernel_px config))
     = ([Made (GetStructuringElement MORPH_RECT
                 (line_weight_threshold_px config, line_weight_threshold_px config));
         Made (MorphologyEx binary MORPH_OPEN kernel)],
        Ok opened)).
Proof.
  split; [|split].
  - intros Heven.
    assert (Hb : forall gray,
               adaptive_binarize gray (adaptive_block_size config) (adaptive_c config)
               = Throw (ValueError "adaptive_block_size must be odd")).
    { intros gray. unfold adaptive_binarize. rewrite Heven. reflexivity. }
    split; [exact Hb|].
    unfold run_pipeline, render_pdf_to_grayscale, call.
    cbn [pbind]. rewrite run_vis.
    destruct (h ndarray (RenderPage pdf_path page_number (dpi config))) as [gray|e].
    + rewrite Hb. cbn. repeat split.
    + cbn. repeat split. intros gray' [=].
  - intros Hodd gray binary Hg Hbin.
    unfold run_pipeline, render_pdf_to_grayscale, call.
    cbn [pbind]. rewrite run_vis, Hg. cbn [fst snd].
    unfold adaptive_binarize.
    destruct (adaptive_block_size config mod 2 =? 0) eqn:E;
      [apply Z.eqb_eq in E; contradiction|].
    unfold call. cbn [pbind]. rewrite run_vis.
    unfold binarization_of in Hbin. rewrite Hbin. cbn [fst snd].
    unfold thickness_gate, call. cbn [pbind]. rewrite run_vis.
    destruct (h ndarray (GetStructuringElement MORPH_RECT _)) as [kernel|e];
      cbn [fst snd]; eexists; reflexivity.
  - intros binary kernel opened Hck Hk Ho.
    unfold thickness_gate, call. cbn [pbind].
    rewrite run_vis, Hk. cbn [fst snd].
    rewrite run_vis, Ho. cbn [fst snd].
    rewrite Hck. reflexivity.
Qed.

Lemma block_size_checked_kernel_sizes_not_witness :
  (forall gray, adaptive_binarize gray 34 10
                = Throw (ValueError "adaptive_block_size must be odd")) /\
  run obliging (thickness_gate blank 5 (Some 0))
  = ([Made (GetStructuringElement MORPH_RECT (5, 5));
      Made (MorphologyEx blank MORPH_OPEN {| shape := [5; 5]; elements := nil |})],
     Ok blank).
Proof.
  split.
  - destruct (block_size_checked_kernel_sizes_not obliging "plan.pdf" 0
                scenario_calibration
                {| dpi := 600; adaptive_block_size := 34; adaptive_c := 10;
                   line_weight_threshold_px := 5; close_kernel_px := Some 3;
                   min_area_sqft := 1.0%float; max_vertex_count := 1000;
                   sanity_ratio_threshold := 0.8%float |})
      as (H & _ & _).
    destruct (H eq_refl) as (Hb & _). exact Hb.
  - destruct (block_size_checked_kernel_sizes_not obliging "plan.pdf" 0
                scenario_calibration config_close_zero)
      as (_ & _ & H).
    exact (H blank {| shape := [5; 5]; elements := nil |} blank eq_refl eq_refl eq_refl).
Defined.

(** C9, as stated, fails on the kernel sizes: with [close_kernel_px = 0]
    the pipeline runs to its end, and with [line_weight_threshold_px = 0]
    the page has been binarized by the time the size is first used, by the
    library, whose error it is that ends the run. *)
Lemma nonpositive_kernel_sizes_not_rejected :
  run obliging (run_pipeline "plan.pdf" 0 scenario_calibration config_close_zero)
  = ([Made (RenderPage "plan.pdf" 0 600);
      Made (binarization_of config_close_zero blank);
      Made (GetStructuringElement MORPH_RECT (5, 5));
      Made (MorphologyEx blank MORPH_OPEN {| shape := [5; 5]; elements := nil |});
      Made (FindContours blank RETR_EXTERNAL CHAIN_APPROX_SIMPLE)],
     Ok {| polygons := nil; metrics := nil |}) /\
  run obliging (run_pipeline "plan.pdf" 0 scenario_calibration config_weight_zero)
  = ([Made (RenderPage "plan.pdf" 0 600);
      Made (binarization_of config_weight_zero blank);
      Made (GetStructuringElement MORPH_RECT (0, 0))],
     Raise (ExternalError "cv2")).
Proof. split; vm_compute; reflexivity. Qed.

(* ===================================================================== *)
(** ** The metrics export *)
(* ===================================================================== *)

Section FileSystem.

Implicit Types (fs : filesystem) (done todo : list string).

(** [mkdir] with parents: if no file is in the way, every directory on
    the way exists afterwards and nothing else has changed. *)
Lemma mkdir_parents_spec todo :
  forall fs done,
    (forall k1 k2 s, todo = (k1 ++ k2)%list -> k1 <> nil ->
                     fs !! (done ++ k1)%list <> Some (File s)) ->
    exists fs',
      mkdir_parents fs done todo = Ok fs' /\
      (forall k1 k2, todo = (k1 ++ k2)%list -> k1 <> nil ->
                     fs' !! (done ++ k1)%list = Some Dir) /\
      (forall q, (forall k1 k2, todo = (k1 ++ k2)%list -> k1 <> nil ->
                                q <> (done ++ k1)%list) ->
                 fs' !! q = fs !! q).
Proof.
  induction todo as [|c rest IH]; intros fs done Hfree.
  - exists fs. split; [reflexivity|]. split; [|reflexivity].
    intros k1 k2 E Hk. symmetry in E. apply app_eq_nil in E. tauto.
  - assert (Hstep : forall fs1,
               fs1 !! (done ++ [c])%list = Some Dir ->
               (forall q, q <> (done ++ [c])%list -> fs1 !! q = fs !! q) ->
               exists fs',
                 mkdir_parents fs1 (done ++ [c]) rest = Ok fs' /\
                 (forall k1 k2, c :: rest = (k1 ++ k2)%list -> k1 <> nil ->
                                fs' !! (done ++ k1)%list = Some Dir) /\
                 (forall q, (forall k1 k2, c :: rest = (k1 ++ k2)%list -> k1 <> nil ->
                                           q <> (done ++ k1)%list) ->
                            fs' !! q = fs !! q)).
    { intros fs1 Hdir Hsame.
      destruct (IH fs1 (done ++ [c])%list) as (fs' & Hrun & Hdirs & Hrest).
      { intros k1 k2 s E Hk. rewrite <- app_assoc. simpl.
        rewrite Hsame.
        - apply (Hfree (c :: k1) k2); [rewrite E; reflexivity|discriminate].
        - intros Heq. apply app_inv_head in Heq.
          destruct k1; [contradiction|discriminate]. }
      exists fs'. split; [exact Hrun|]. split.
      - intros [|c' k1] k2 E Hk; [contradiction|].
        injection E as <- E.
        destruct k1 as [|c'' k1].
        + rewrite Hrest; [exact Hdir|].
          intros k1' k2' _ Hk' Heq. rewrite <- app_assoc in Heq.
          apply app_inv_head in Heq. destruct k1'; [contradiction|discriminate].
        + specialize (Hdirs (c'' :: k1) k2 E). rewrite <- app_assoc in Hdirs.
          apply Hdirs. discriminate.
      - intros q Hq. rewrite Hrest.
        + apply Hsame. apply (Hq [c] rest); [reflexivity|discriminate].
        + intros k1 k2 E Hk. rewrite <- app_assoc. simpl.
          apply (Hq (c :: k1) k2); [rewrite E; reflexivity|discriminate]. }
    simpl. destruct (fs !! (done ++ [c])%list) as [[|s]|] eqn:E.
    + apply Hstep; [exact E|reflexivity].
    + exfalso. apply (Hfree [c] rest s); [reflexivity|discriminate|exact E].
    + apply Hstep; [apply lookup_insert_eq|].
      intros q Hq. apply lookup_insert_ne. congruence.
Qed.

Lemma open_w_step fs done (c c' : string) (rest : list string) :
  open_w fs done (c :: c' :: rest) =
  match fs !! (done ++ [c])%list with
  | Some Dir => open_w fs (done ++ [c]) (c' :: rest)
  | Some (File _) => Raise NotADirectoryError
  | None => Raise FileNotFoundError
  end.
Proof. reflexivity. Qed.

(** Opening for writing below existing directories creates or empties
    the file. *)
Lemma open_w_spec todo :
  forall fs done,
    todo <> nil ->
    (forall k1 k2, todo = (k1 ++ k2)%list -> k1 <> nil -> k2 <> nil ->
                   fs !! (done ++ k1)%list = Some Dir) ->
    fs !! (done ++ todo)%list <> Some Dir ->
    open_w fs done todo = Ok (<[(done ++ todo)%list := File EmptyString]> fs).
Proof.
  induction todo as [|c rest IH]; intros fs done Hne Hdirs Hfile; [contradiction|].
  destruct rest as [|c' rest].
  - simpl. destruct (fs !! (done ++ [c])%list) as [[|s]|] eqn:E;
      [contradiction|reflexivity|reflexivity].
  - rewrite open_w_step. rewrite (Hdirs [c] (c' :: rest)); [|reflexivity|discriminate|discriminate].
    rewrite IH.
    + rewrite <- app_assoc. reflexivity.
    + discriminate.
    + intros k1 k2 E Hk1 Hk2. rewrite <- app_assoc. simpl.
      apply (Hdirs (c :: k1) k2); [rewrite E; reflexivity|discriminate|exact Hk2].
    + rewrite <- app_assoc. exact Hfile.
Qed.

Lemma handle_write_file fs (p : list string) (old text : string) :
  fs !! p = Some (File old) ->
  handle_write fs p text = <[p := File (old +:+ text)]> fs.
Proof. unfold handle_write. intros ->. reflexivity. Qed.

Lemma path_split (p : list string) :
  p <> nil -> exists c, p = (parent p ++ [c])%list.
Proof.
  intros H. exists (List.last p EmptyString). apply app_removelast_last. exact H.
Qed.

End FileSystem.

(** [repr] on values whose Python text is well known. *)
Lemma repr_samples :
  map PyFloat.repr
    [50.0; 0.1; 0.1 + 0.2; 1e16; 1e22; 1e-05; 0.0001; 5e-324;
     1.7976931348623157e308; 1 / 3; -2.5]%float
  = ["50.0"; "0.1"; "0.30000000000000004"; "1e+16"; "1e+22"; "1e-05"; "0.0001";
     "5e-324"; "1.7976931348623157e+308"; "0.3333333333333333"; "-2.5"].
Proof. vm_compute. reflexivity. Qed.

(** The text the export writes for the record of the scenario. *)
Lemma scenario_text :
  DictWriter_writeheader fieldnames = header_line +:+ CRLF /\
  DictWriter_writerow fieldnames (row_of scenario_metrics)
  = Ok ("0,50.0,30.0,4,0.06,False" +:+ CRLF).
Proof. split; vm_compute; reflexivity. Qed.

(** C3, as amended: exporting the one record of the scenario writes, at
    the target path, a file whose first line is the header and whose
    second line is [0,50.0,30.0,4,0.06,False]: each value as Python's
    [str] gives it, with no rounding.  The directories above the target
    are created where missing, whatever the target held before is
    replaced, and nothing else changes; this whenever no file sits where a
    directory is needed and the target is not a directory. *)
Theorem export_scenario_file (fs : filesystem) (path : list string) :
  path <> nil ->
  (forall d s, proper_prefix d path -> fs !! d <> Some (File s)) ->
  fs !! path <> Some Dir ->
  exists fs' text,
    export_to_csv [scenario_metrics] path fs = Ok fs' /\
    fs' !! path = Some (File text) /\
    text = header_line +:+ CRLF +:+ "0,50.0,30.0,4,0.06,False" +:+ CRLF /\
    splitlines text = [header_line; "0,50.0,30.0,4,0.06,False"] /\
    (forall d, proper_prefix d path -> fs' !! d = Some Dir) /\
    (forall q, q <> path -> ~ proper_prefix q path -> fs' !! q = fs !! q).
Proof.
  intros Hne Hfree Htarget.
  destruct (path_split path Hne) as (c & Hpath).
  assert (Hproper : forall k1 k2, parent path = (k1 ++ k2)%list -> k1 <> nil ->
                                  proper_prefix k1 path).
  { intros k1 k2 E Hk. repeat split; [exact Hk| |].
    - intros Heq.
      assert (L : List.length path = S (List.length k1 + List.length k2)).
      { rewrite Hpath, E, !length_app. simpl. lia. }
      rewrite <- Heq in L. lia.
    - exists (k2 ++ [c])%list. rewrite app_assoc, <- E. exact Hpath. }
  destruct (mkdir_parents_spec (parent path) fs nil) as (fs1 & Hrun & Hdirs & Hrest).
  { intros k1 k2 s E Hk. simpl. apply Hfree. eapply Hproper; eassumption. }
  simpl in Hdirs, Hrest.
  assert (Hopen : open_w fs1 nil path = Ok (<[path := File EmptyString]> fs1)).
  { apply (open_w_spec path fs1 nil Hne).
    - intros k1 k2 E Hk1 Hk2. simpl.
      destruct (exists_last Hk2) as (k2' & c' & ->).
      rewrite Hpath, app_assoc in E. apply app_inj_tail in E. destruct E as [E _].
      apply (Hdirs k1 k2'); assumption.
    - simpl. rewrite Hrest; [exact Htarget|].
      intros k1 k2 E Hk Heq. destruct (Hproper k1 k2 E Hk) as (_ & Hd & _).
      congruence. }
  destruct scenario_text as [Hhead Hrow].
  exists (<[path := File (header_line +:+ CRLF +:+ "0,50.0,30.0,4,0.06,False" +:+ CRLF)]> fs1).
  eexists. split; [|split; [apply lookup_insert_eq|]].
  - unfold export_to_csv. rewrite Hrun. cbn [bind]. rewrite Hopen. cbn [bind].
    rewrite Hhead.
    rewrite (handle_write_file _ path EmptyString _ (lookup_insert_eq _ _ _)).
    cbn [write_rows]. rewrite Hrow. cbn [bind].
    rewrite (handle_write_file _ path _ _ (lookup_insert_eq _ _ _)).
    rewrite !insert_insert_eq. reflexivity.
  - split; [reflexivity|]. split; [vm_compute; reflexivity|]. split.
    + intros d (Hd & Hdp & k & Hk).
      rewrite lookup_insert_ne by congruence.
      destruct k as [|c' k] using rev_ind; [rewrite app_nil_r in Hk; congruence|].
      clear IHk. rewrite Hpath, app_assoc in Hk. apply app_inj_tail in Hk.
      destruct Hk as [Hk _]. apply (Hdirs d k); assumption.
    + intros q Hq Hnp. rewrite lookup_insert_ne by congruence.
      apply Hrest. intros k1 k2 E Hk Heq. subst q.
      apply Hnp. eapply Hproper; eassumption.
Qed.

Lemma export_scenario_file_witness :
  exists fs' text,
    export_to_csv [scenario_metrics] ["out"; "run1"; "metrics.csv"]
      {[ ["out"] := Dir; ["out"; "run1"; "metrics.csv"] := File "stale" ]} = Ok fs' /\
    fs' !! ["out"; "run1"; "metrics.csv"] = Some (File text) /\
    splitlines text = [header_line; "0,50.0,30.0,4,0.06,False"] /\
    fs' !! ["out"; "run1"] = Some Dir.
Proof.
  destruct (export_scenario_file
              {[ ["out"] := Dir; ["out"; "run1"; "metrics.csv"] := File "stale" ]}
              ["out"; "run1"; "metrics.csv"])
    as (fs' & text & Hrun & Hfile & _ & Hlines & Hdirs & _).
  - discriminate.
  - intros d s (Hd & Hdp & k & Hk).
    destruct d as [|c1 [|c2 [|c3 [|c4 d]]]]; try contradiction;
      injection Hk as <-; try (intros; subst); try contradiction;
      vm_compute; discriminate.
  - vm_compute. discriminate.
  - exists fs', text. repeat split; try assumption.
    apply Hdirs. repeat split; [discriminate|discriminate|].
    exists ["metrics.csv"]. reflexivity.
Defined.

(** C3, as stated, fails: the second line of the file is not
    [0,50.00,30.00,4,0.06,False]; the two measures are written as
    [50.0] and [30.0]. *)
Lemma export_does_not_round :
  exists fs' text,
    export_to_csv [scenario_metrics] ["out"; "metrics.csv"] ∅ = Ok fs' /\
    fs' !! ["out"; "metrics.csv"] = Some (File text) /\
    nth 0 (splitlines text) EmptyString = header_line /\
    nth 1 (splitlines text) EmptyString = "0,50.0,30.0,4,0.06,False" /\
    nth 1 (splitlines text) EmptyString <> "0,50.00,30.00,4,0.06,False".
Proof.
  eexists. eexists. split; [vm_compute; reflexivity|].
  split; [vm_compute; reflexivity|].
  repeat split; try (vm_compute; reflexivity).
  vm_compute. discriminate.
Qed.

(* ===================================================================== *)
(** ** Further properties: the stages of [run_pipeline] *)
(* ===================================================================== *)

Lemma run_pbind {A B : Type} (h : handler) (p : prog A) (f : A -> prog B) :
  run h (pbind p f) =
  match snd (run h p) with
  | Ok a => ((fst (run h p) ++ fst (run h (f a)))%list, snd (run h (f a)))
  | Raise e => (fst (run h p), Raise e)
  end.
Proof.
  induction p as [a|e|X c k IH].
  - simpl. destruct (run h (f a)). reflexivity.
  - reflexivity.
  - cbn [pbind]. rewrite !run_vis. destruct (h X c) as [x|e]; [|reflexivity].
    cbn [fst snd]. rewrite IH.
    destruct (snd (run h (k x))); reflexivity.
Qed.

Lemma run_call {X : Type} (h : handler) (c : ext X) :
  run h (call c) =
  ([Made c], match h _ c with Ok x => Ok x | Raise e => Raise e end).
Proof. unfold call. rewrite run_vis. destruct (h X c); reflexivity. Qed.

Lemma run_lift {A : Type} (h : handler) (r : result A) : run h (lift r) = (nil, r).
Proof. destruct r; reflexivity. Qed.

Lemma well_shaped_shape (contour : ndarray) :
  well_shaped contour = true ->
  exists n k, shape contour = [n; 1; k].
Proof.
  unfold well_shaped. destruct (shape contour) as [|n [|one [|k [|x rest]]]];
    simpl; try discriminate.
  intros H. apply Z.eqb_eq in H. subst. eauto.
Qed.

(** X1: [contour_to_polygon] turns away a contour that has not three
    axes with a middle one of length one, with [ValueError] and without
    calling shapely; any other contour, of shape [(n, 1, k)], goes to
    shapely as the [(n, k)] array of the same elements, and what shapely
    answers or raises is the outcome. *)
Theorem contour_to_polygon_guard (h : handler) (contour : ndarray) :
  (well_shaped contour = false ->
   run h (contour_to_polygon contour)
   = (nil, Raise (ValueError "Unexpected contour shape"))) /\
  (well_shaped contour = true ->
   exists n k,
     shape contour = [n; 1; k] /\
     run h (contour_to_polygon contour)
     = ([Made (ShapelyPolygon {| shape := [n; k]; elements := elements contour |})],
        h _ (ShapelyPolygon {| shape := [n; k]; elements := elements contour |}))).
Proof.
  split; intros H.
  - unfold contour_to_polygon. unfold well_shaped in H.
    rewrite <- negb_andb, H. reflexivity.
  - destruct (well_shaped_shape _ H) as (n & k & Hs). exists n, k. split; [exact Hs|].
    unfold contour_to_polygon. unfold well_shaped in H.
    rewrite <- negb_andb, H. cbn [negb]. rewrite run_call.
    unfold drop_middle_axis. rewrite Hs.
    destruct (h _ _); reflexivity.
Qed.

Lemma contour_to_polygon_guard_witness :
  run obliging (contour_to_polygon blank)
  = (nil, Raise (ValueError "Unexpected contour shape")) /\
  exists n k,
    shape {| shape := [4; 1; 2]; elements := [0; 0; 100; 0; 100; 50; 0; 50] |}
    = [n; 1; k].
Proof.
  split.
  - apply (contour_to_polygon_guard obliging blank). reflexivity.
  - destruct (contour_to_polygon_guard obliging
                {| shape := [4; 1; 2]; elements := [0; 0; 100; 0; 100; 50; 0; 50] |})
      as (_ & H).
    destruct (H eq_refl) as (n & k & Hs & _). exists n, k. exact Hs.
Defined.

(** Running the list comprehension over contours that are all well shaped
    and all taken by shapely. *)
Lemma run_for_each_ok (h : handler) (contours : list ndarray) (polys : list Polygon) :
  Forall2 (fun c p => well_shaped c = true /\
                      h _ (ShapelyPolygon (drop_middle_axis c)) = Ok p)
    contours polys ->
  run h (for_each contour_to_polygon contours)
  = (map (fun c => Made (ShapelyPolygon (drop_middle_axis c))) contours, Ok polys).
Proof.
  induction 1 as [|c p cs ps [Hw Hp] _ IH]; [reflexivity|].
  cbn [for_each]. rewrite run_pbind.
  assert (E : run h (contour_to_polygon c)
              = ([Made (ShapelyPolygon (drop_middle_axis c))], Ok p)).
  { unfold contour_to_polygon. unfold well_shaped in Hw.
    rewrite <- negb_andb, Hw. cbn [negb]. rewrite run_call, Hp. reflexivity. }
  rewrite E. cbn [fst snd]. rewrite run_pbind, IH. simpl.
  rewrite app_nil_r. reflexivity.
Qed.

(** A run of the comprehension that returns has met only well-shaped
    contours, each taken by shapely. *)
Lemma run_for_each_inv (h : handler) (contours : list ndarray) :
  forall polys,
    snd (run h (for_each contour_to_polygon contours)) = Ok polys ->
    Forall2 (fun c p => well_shaped c = true /\
                        h _ (ShapelyPolygon (drop_middle_axis c)) = Ok p)
      contours polys.
Proof.
  induction contours as [|c cs IH]; intros polys H.
  - simpl in H. injection H as <-. constructor.
  - cbn [for_each] in H. rewrite run_pbind in H.
    destruct (well_shaped c) eqn:Hw.
    + assert (E : run h (contour_to_polygon c)
                  = ([Made (ShapelyPolygon (drop_middle_axis c))],
                     h _ (ShapelyPolygon (drop_middle_axis c)))).
      { unfold contour_to_polygon. unfold well_shaped in Hw.
        rewrite <- negb_andb, Hw. cbn [negb]. rewrite run_call.
        destruct (h _ _); reflexivity. }
      rewrite E in H. cbn [fst snd] in H.
      destruct (h _ (ShapelyPolygon (drop_middle_axis c))) as [p|e] eqn:Hp;
        [|discriminate].
      cbn [snd] in H. rewrite run_pbind in H.
      destruct (snd (run h (for_each contour_to_polygon cs))) as [ps|e] eqn:Hrest;
        [|discriminate].
      cbn [snd] in H. simpl in H. injection H as <-.
      constructor; [split; assumption|]. apply IH. reflexivity.
    + destruct (contour_to_polygon_guard h c) as [Hbad _].
      rewrite (Hbad Hw) in H. discriminate.
Qed.

(** X2: in the list comprehension of [run_pipeline], one contour of the
    wrong shape ends the run in an error whatever the libraries answer;
    when shapely takes every array it is given, that error is the
    [ValueError] of [contour_to_polygon], and shapely has been called for
    the contours ahead of the first malformed one and no further. *)
Theorem malformed_contour_aborts (h : handler) (before after : list ndarray)
    (bad : ndarray) :
  well_shaped bad = false ->
  is_ok (snd (run h (for_each contour_to_polygon (before ++ bad :: after)))) = false /\
  (forallb well_shaped before = true ->
   (forall points, is_ok (h _ (ShapelyPolygon points)) = true) ->
   run h (for_each contour_to_polygon (before ++ bad :: after))
   = (map (fun c => Made (ShapelyPolygon (drop_middle_axis c))) before,
      Raise (ValueError "Unexpected contour shape"))).
Proof.
  intros Hbad. split.
  - destruct (snd (run h (for_each contour_to_polygon (before ++ bad :: after))))
      as [polys|e] eqn:E; [|reflexivity].
    apply run_for_each_inv in E. apply Forall2_app_inv_l in E.
    destruct E as (ps1 & ps2 & _ & E & _).
    inversion E as [|? ? ? ? [Hw _]]; subst. congruence.
  - intros Hgood Hshapely. induction before as [|c cs IH].
    + cbn [app for_each]. rewrite run_pbind.
      destruct (contour_to_polygon_guard h bad) as [Hg _]. rewrite (Hg Hbad).
      reflexivity.
    + cbn [forallb] in Hgood. apply andb_true_iff in Hgood. destruct Hgood as [Hc Hcs].
      cbn [app for_each]. rewrite run_pbind.
      destruct (contour_to_polygon_guard h c) as [_ Hg].
      destruct (Hg Hc) as (n & k & Hs & Hrun).
      assert (Hd : {| shape := [n; k]; elements := elements c |} = drop_middle_axis c).
      { unfold drop_middle_axis. rewrite Hs. reflexivity. }
      rewrite Hd in Hrun. rewrite Hrun. cbn [fst snd].
      specialize (Hshapely (drop_middle_axis c)).
      destruct (h _ (ShapelyPolygon (drop_middle_axis c))) as [p|e]; [|discriminate].
      rewrite run_pbind, (IH Hcs). reflexivity.
Qed.

Lemma malformed_contour_aborts_witness :
  run obliging
    (for_each contour_to_polygon
       [ {| shape := [4; 1; 2]; elements := [0; 0; 100; 0; 100; 50; 0; 50] |};
         blank ])
  = ([Made (ShapelyPolygon
              {| shape := [4; 2]; elements := [0; 0; 100; 0; 100; 50; 0; 50] |})],
     Raise (ValueError "Unexpected contour shape")).
Proof.
  destruct (malformed_contour_aborts obliging
              [ {| shape := [4; 1; 2]; elements := [0; 0; 100; 0; 100; 50; 0; 50] |} ]
              nil blank eq_refl)
    as (_ & H).
  apply H; [reflexivity|]. intros points. reflexivity.
Defined.

Lemma run_adaptive_binarize_odd (h : handler) (gray : ndarray) (config : PipelineConfig) :
  adaptive_block_size config mod 2 <> 0 ->
  run h (adaptive_binarize gray (adaptive_block_size config) (adaptive_c config))
  = ([Made (binarization_of config gray)], h _ (binarization_of config gray)).
Proof.
  intros Hodd. unfold adaptive_binarize.
  destruct (adaptive_block_size config mod 2 =? 0) eqn:E;
    [apply Z.eqb_eq in E; contradiction|].
  rewrite run_call. unfold binarization_of. destruct (h _ _); reflexivity.
Qed.

Lemma run_find_closed_contours (h : handler) (mask : ndarray) :
  run h (find_closed_contours mask)
  = ([Made (FindContours mask RETR_EXTERNAL CHAIN_APPROX_SIMPLE)],
     match h _ (FindContours mask RETR_EXTERNAL CHAIN_APPROX_SIMPLE) with
     | Ok found => Ok (fst found)
     | Raise e => Raise e
     end).
Proof.
  unfold find_closed_contours. rewrite run_pbind, run_call. cbn [fst snd].
  destruct (h _ _); reflexivity.
Qed.

(** The stages of [run_pipeline], one after the other. *)
Lemma run_pipeline_stages (h : handler) (pdf_path : string) (page_number : Z)
    (calibration : Calibration) (config : PipelineConfig)
    (gray binary mask hierarchy : ndarray) (contours : list ndarray)
    (polys : list Polygon) :
  adaptive_block_size config mod 2 <> 0 ->
  h _ (RenderPage pdf_path page_number (dpi config)) = Ok gray ->
  h _ (binarization_of config gray) = Ok binary ->
  snd (run h (thickness_gate binary (line_weight_threshold_px config)
                (close_kernel_px config))) = Ok mask ->
  h _ (FindContours mask RETR_EXTERNAL CHAIN_APPROX_SIMPLE) = Ok (contours, hierarchy) ->
  Forall2 (fun c p => well_shaped c = true /\
                      h _ (ShapelyPolygon (drop_middle_axis c)) = Ok p)
    contours polys ->
  run h (run_pipeline pdf_path page_number calibration config)
  = ((Made (RenderPage pdf_path page_number (dpi config))
      :: Made (binarization_of config gray)
      :: fst (run h (thickness_gate binary (line_weight_threshold_px config)
                       (close_kernel_px config)))
      ++ Made (FindContours mask RETR_EXTERNAL CHAIN_APPROX_SIMPLE)
      :: map (fun c => Made (ShapelyPolygon (drop_middle_axis c))) contours)%list,
     filter_candidates polys calibration config).
Proof.
  intros Hodd Hg Hb Hgate Hfind Hpolys.
  unfold run_pipeline, render_pdf_to_grayscale.
  rewrite run_pbind, run_call, Hg. cbn [fst snd].
  rewrite run_pbind, (run_adaptive_binarize_odd h gray config Hodd), Hb. cbn [fst snd].
  rewrite run_pbind, Hgate. cbn [fst snd].
  rewrite run_pbind, run_find_closed_contours, Hfind. cbn [fst snd].
  rewrite run_pbind, (run_for_each_ok h contours polys Hpolys). cbn [fst snd].
  rewrite run_lift. cbn [fst snd]. rewrite app_nil_r. reflexivity.
Qed.

(** X3: [run_pipeline] composes its stages: with an odd block size, once
    the page is rendered and binarized, the thickness gate has given a
    mask, contours have been found on it and shapely has built a polygon
    from each, the outcome of the run is the outcome of
    [filter_candidates] on those polygons, an error of the filter
    included, and the library has been called stage by stage in that
    order, once per contour at the end. *)
Theorem run_pipeline_composes (h : handler) (pdf_path : string) (page_number : Z)
    (calibration : Calibration) (config : PipelineConfig)
    (gray binary mask hierarchy : ndarray) (contours : list ndarray)
    (polys : list Polygon) :
  adaptive_block_size config mod 2 <> 0 ->
  h _ (RenderPage pdf_path page_number (dpi config)) = Ok gray ->
  h _ (binarization_of config gray) = Ok binary ->
  snd (run h (thickness_gate binary (line_weight_threshold_px config)
                (close_kernel_px config))) = Ok mask ->
  h _ (FindContours mask RETR_EXTERNAL CHAIN_APPROX_SIMPLE) = Ok (contours, hierarchy) ->
  Forall2 (fun c p => well_shaped c = true /\
                      h _ (ShapelyPolygon (drop_middle_axis c)) = Ok p)
    contours polys ->
  run h (run_pipeline pdf_path page_number calibration config)
  = ((Made (RenderPage pdf_path page_number (dpi config))
      :: Made (binarization_of config gray)
      :: fst (run h (thickness_gate binary (line_weight_threshold_px config)
                       (close_kernel_px config)))
      ++ Made (FindContours mask RETR_EXTERNAL CHAIN_APPROX_SIMPLE)
      :: map (fun c => Made (ShapelyPolygon (drop_middle_axis c))) contours)%list,
     filter_candidates polys calibration config).
Proof. apply run_pipeline_stages. Qed.

Lemma run_pipeline_composes_witness :
  run obliging (run_pipeline "plan.pdf" 0 scenario_calibration default_config)
  = ([Made (RenderPage "plan.pdf" 0 600);
      Made (binarization_of default_config blank);
      Made (GetStructuringElement MORPH_RECT (5, 5));
      Made (MorphologyEx blank MORPH_OPEN {| shape := [5; 5]; elements := nil |});
      Made (GetStructuringElement MORPH_RECT (3, 3));
      Made (MorphologyEx blank MORPH_CLOSE {| shape := [3; 3]; elements := nil |});
      Made (FindContours blank RETR_EXTERNAL CHAIN_APPROX_SIMPLE)],
     Ok {| polygons := nil; metrics := nil |}).
Proof.
  apply (run_pipeline_composes obliging "plan.pdf" 0 scenario_calibration
           default_config blank blank blank {| shape := nil; elements := nil |}
           nil nil);
    try reflexivity.
  - discriminate.
  - constructor.
Defined.

(** X4: a run of [run_pipeline] that returns a result has an odd block
    size, has gone through every stage with the libraries answering, has
    met only well-shaped contours, and returns what [filter_candidates]
    returns on the polygons shapely built from them, one per contour in
    the order the contours were found. *)
Theorem run_pipeline_result_reading (h : handler) (pdf_path : string)
    (page_number : Z) (calibration : Calibration) (config : PipelineConfig)
    (r : PipelineResult) :
  snd (run h (run_pipeline pdf_path page_number calibration config)) = Ok r ->
  adaptive_block_size config mod 2 <> 0 /\
  exists gray binary mask hierarchy contours polys,
    h _ (RenderPage pdf_path page_number (dpi config)) = Ok gray /\
    h _ (binarization_of config gray) = Ok binary /\
    snd (run h (thickness_gate binary (line_weight_threshold_px config)
                  (close_kernel_px config))) = Ok mask /\
    h _ (FindContours mask RETR_EXTERNAL CHAIN_APPROX_SIMPLE) = Ok (contours, hierarchy) /\
    Forall2 (fun c p => well_shaped c = true /\
                        h _ (ShapelyPolygon (drop_middle_axis c)) = Ok p)
      contours polys /\
    filter_candidates polys calibration config = Ok r.
Proof.
  intros H.
  assert (Hodd : adaptive_block_size config mod 2 <> 0).
  { intros Heven. unfold run_pipeline, render_pdf_to_grayscale in H.
    rewrite run_pbind, run_call in H. cbn [fst snd] in H.
    destruct (h _ (RenderPage pdf_path page_number (dpi config))) as [gray|e];
      [|discriminate].
    cbn [snd] in H. rewrite run_pbind in H. unfold adaptive_binarize in H.
    rewrite Heven in H. discriminate. }
  split; [exact Hodd|].
  unfold run_pipeline, render_pdf_to_grayscale in H.
  rewrite run_pbind, run_call in H. cbn [fst snd] in H.
  destruct (h _ (RenderPage pdf_path page_number (dpi config))) as [gray|e] eqn:Hg;
    [|discriminate].
  cbn [snd] in H.
  rewrite run_pbind, (run_adaptive_binarize_odd h gray config Hodd) in H.
  cbn [fst snd] in H.
  destruct (h _ (binarization_of config gray)) as [binary|e] eqn:Hb; [|discriminate].
  cbn [snd] in H. rewrite run_pbind in H.
  destruct (snd (run h (thickness_gate binary (line_weight_threshold_px config)
                          (close_kernel_px config)))) as [mask|e] eqn:Hgate;
    [|discriminate].
  cbn [snd] in H. rewrite run_pbind, run_find_closed_contours in H. cbn [fst snd] in H.
  destruct (h _ (FindContours mask RETR_EXTERNAL CHAIN_APPROX_SIMPLE))
    as [[contours hierarchy]|e] eqn:Hfind; [|discriminate].
  cbn [fst snd] in H. rewrite run_pbind in H.
  destruct (snd (run h (for_each contour_to_polygon contours))) as [polys|e] eqn:Hfor;
    [|discriminate].
  cbn [snd] in H. rewrite run_lift in H. cbn [snd] in H.
  exists gray, binary, mask, hierarchy, contours, polys.
  repeat split; try assumption; try reflexivity.
  apply run_for_each_inv. exact Hfor.
Qed.

Lemma run_pipeline_result_reading_witness :
  exists polys,
    filter_candidates polys scenario_calibration default_config
    = Ok {| polygons := nil; metrics := nil |}.
Proof.
  destruct (run_pipeline_result_reading obliging "plan.pdf" 0 scenario_calibration
              default_config {| polygons := nil; metrics := nil |} eq_refl)
    as (_ & gray & binary & mask & hierarchy & contours & polys & _ & _ & _ & _ & _ & H).
  exists polys. exact H.
Defined.

(** X5: when no contour is found the run returns the empty result, and
    this for every calibration: one whose distances are zero or negative
    goes unnoticed, since nothing has to be measured. *)
Theorem empty_page_never_reads_calibration (h : handler) (pdf_path : string)
    (page_number : Z) (calibration : Calibration) (config : PipelineConfig)
    (gray binary mask hierarchy : ndarray) :
  adaptive_block_size config mod 2 <> 0 ->
  h _ (RenderPage pdf_path page_number (dpi config)) = Ok gray ->
  h _ (binarization_of config gray) = Ok binary ->
  snd (run h (thickness_gate binary (line_weight_threshold_px config)
                (close_kernel_px config))) = Ok mask ->
  h _ (FindContours mask RETR_EXTERNAL CHAIN_APPROX_SIMPLE) = Ok (nil, hierarchy) ->
  snd (run h (run_pipeline pdf_path page_number calibration config))
  = Ok {| polygons := nil; metrics := nil |}.
Proof.
  intros Hodd Hg Hb Hgate Hfind.
  rewrite (run_pipeline_stages h pdf_path page_number calibration config
             gray binary mask hierarchy nil nil Hodd Hg Hb Hgate Hfind);
    [reflexivity|constructor].
Qed.

Lemma empty_page_never_reads_calibration_witness :
  snd (run obliging
         (run_pipeline "plan.pdf" 0
            {| pixel_distance := 0%float; real_distance_feet := (-1)%float |}
            default_config))
  = Ok {| polygons := nil; metrics := nil |}.
Proof.
  apply (empty_page_never_reads_calibration obliging "plan.pdf" 0 _ default_config
           blank blank blank {| shape := nil; elements := nil |});
    try reflexivity.
  discriminate.
Defined.





(* ===================================================================== *)
(** ** Further properties: calibration, geometry and the filter *)
(* ===================================================================== *)

Section NanFacts.

Local Open Scope float_scope.

Local Arguments SFltb !f1 !f2 /.
Local Arguments SFleb !f1 !f2 /.
Local Arguments SFeqb !f1 !f2 /.

Lemma not_below_not_zero (x : float) : (x <=? 0) = false -> (x =? 0) = false.
Proof.
  rewrite FloatAxioms.leb_spec, FloatAxioms.eqb_spec, zero_image.
  destruct (Prim2SF x) as [[]|[]| |[] m e]; cbn; congruence.
Qed.

Lemma nan_image (x : float) : is_nan x = true <-> Prim2SF x = S754_nan.
Proof.
  unfold is_nan. rewrite FloatAxioms.eqb_spec. split.
  - destruct (Prim2SF x) as [[]|[]| |[] m e]; cbn; try discriminate; try reflexivity;
      rewrite ?Z.compare_refl, ?Pos.compare_refl; cbn; discriminate.
  - intros ->. reflexivity.
Qed.

Lemma nan_not_below (x y : float) : is_nan x = true -> (x <=? y) = false.
Proof.
  intros H. apply nan_image in H. rewrite FloatAxioms.leb_spec, H. reflexivity.
Qed.

Lemma nan_not_less (x y : float) : is_nan x = true -> (x <? y) = false.
Proof.
  intros H. apply nan_image in H. rewrite FloatAxioms.ltb_spec, H. reflexivity.
Qed.

Lemma nan_not_zero (x : float) : is_nan x = true -> (x =? 0) = false.
Proof.
  intros H. apply nan_image in H. rewrite FloatAxioms.eqb_spec, H. reflexivity.
Qed.

Lemma div_nan (x y : float) : is_nan y = true -> is_nan (x / y) = true.
Proof.
  intros H. apply nan_image in H. apply nan_image.
  rewrite FloatAxioms.div_spec, H. destruct (Prim2SF x); reflexivity.
Qed.

Lemma mul_nan (x y : float) : is_nan y = true -> is_nan (x * y) = true.
Proof.
  intros H. apply nan_image in H. apply nan_image.
  rewrite FloatAxioms.mul_spec, H. destruct (Prim2SF x); reflexivity.
Qed.

Lemma nan_not_finite (x : float) : is_nan x = true -> is_finite x = false.
Proof. unfold is_finite. intros ->. reflexivity. Qed.

End NanFacts.

(** X8: a NaN [pixel_distance] passes both guards of [feet_per_pixel]:
    the scale is NaN, [compute_geometry] gives every polygon a NaN
    [area_sqft], and no [min_area_sqft] holds such an area back, since a
    NaN is below nothing. *)
Theorem nan_calibration_slips_through (cal : Calibration) :
  is_nan (pixel_distance cal) = true ->
  (real_distance_feet cal <=? 0)%float = false ->
  exists f,
    feet_per_pixel cal = Ok f /\ is_nan f = true /\
    forall p, exists a l,
      compute_geometry p cal = Ok (a, l) /\ is_nan a = true /\
      forall cfg, (a <? min_area_sqft cfg)%float = false.
Proof.
  intros Hnan Hreal.
  exists (real_distance_feet cal / pixel_distance cal)%float.
  assert (Hf : feet_per_pixel cal
               = Ok (real_distance_feet cal / pixel_distance cal)%float).
  { unfold feet_per_pixel, PyFloat.truediv.
    rewrite (nan_not_below _ 0%float Hnan), Hreal, (nan_not_zero _ Hnan). reflexivity. }
  pose proof (div_nan (real_distance_feet cal) _ Hnan) as Hfn.
  split; [exact Hf|]. split; [exact Hfn|].
  intros p.
  exists (Shapely.area p
          * (real_distance_feet cal / pixel_distance cal
             * (real_distance_feet cal / pixel_distance cal)))%float,
         (Shapely.length p * (real_distance_feet cal / pixel_distance cal))%float.
  split.
  - apply compute_geometry_scaled; [exact Hf|]. unfold PyFloat.pow2.
    rewrite (nan_not_finite _ Hfn). reflexivity.
  - pose proof (mul_nan (Shapely.area p) _
                  (mul_nan (real_distance_feet cal / pixel_distance cal)%float _ Hfn))
      as Ha.
    split; [exact Ha|]. intros cfg. apply nan_not_less. exact Ha.
Qed.

Lemma nan_calibration_slips_through_witness :
  exists f,
    feet_per_pixel {| pixel_distance := nan; real_distance_feet := 10%float |} = Ok f /\
    is_nan f = true.
Proof.
  destruct (nan_calibration_slips_through
              {| pixel_distance := nan; real_distance_feet := 10%float |}
              eq_refl eq_refl)
    as (f & Hf & Hn & _).
  exists f. split; assumption.
Defined.

Lemma feet_per_pixel_raises (cal : Calibration) (e : exn) :
  feet_per_pixel cal = Raise e ->
  exists msg, e = ValueError msg /\
    ((pixel_distance cal <=? 0)%float = true \/
     (real_distance_feet cal <=? 0)%float = true).
Proof.
  unfold feet_per_pixel, PyFloat.truediv.
  destruct (pixel_distance cal <=? 0)%float eqn:E1; [intros [= <-]; eauto|].
  destruct (real_distance_feet cal <=? 0)%float eqn:E2; [intros [= <-]; eauto|].
  rewrite (not_below_not_zero _ E1). discriminate.
Qed.

Lemma filter_loop_raise_inv (cal : Calibration) (cfg : PipelineConfig) (e : exn) :
  forall items ms acc,
    filter_loop cal cfg items ms acc = Raise e ->
    exists p, In p (map snd items) /\ Shapely.is_empty p = false /\
              compute_geometry p cal = Raise e.
Proof.
  induction items as [|[idx p] rest IH]; intros ms acc H; [discriminate|].
  simpl in H. destruct (Shapely.is_empty p) eqn:Ee.
  - destruct (IH _ _ H) as (q & Hin & Hq). exists q. split; [right; exact Hin|exact Hq].
  - destruct (compute_geometry p cal) as [[a l]|e'] eqn:Eg.
    + simpl in H. rewrite sanity_score_value in H. simpl in H.
      destruct (a <? min_area_sqft cfg)%float;
        [|destruct (max_vertex_count cfg <? _)];
        destruct (IH _ _ H) as (q & Hin & Hq); exists q;
        (split; [right; exact Hin|exact Hq]).
    + simpl in H. injection H as <-. exists p.
      split; [left; reflexivity|split; [exact Ee|exact Eg]].
Qed.

Lemma enumerate_from_second {A : Type} (l : list A) :
  forall k, map snd (enumerate_from k l) = l.
Proof. induction l as [|x l IH]; intros k; simpl; [|rewrite IH]; reflexivity. Qed.

(** X9: [filter_candidates] fails in two ways only, and only when some
    polygon of the input is not empty: with the [ValueError] of a
    calibration whose pixel or real distance is zero or negative, or with
    [OverflowError] when the scale is finite and its square is not.  It
    never fails on a division, whatever the areas. *)
Theorem filter_candidates_failures (ps : list Polygon) (cal : Calibration)
    (cfg : PipelineConfig) (e : exn) :
  filter_candidates ps cal cfg = Raise e ->
  Exists (fun p => Shapely.is_empty p = false) ps /\
  ((exists msg,
      e = ValueError msg /\ feet_per_pixel cal = Raise e /\
      ((pixel_distance cal <=? 0)%float = true \/
       (real_distance_feet cal <=? 0)%float = true)) \/
   (e = OverflowError /\
    exists f, feet_per_pixel cal = Ok f /\ is_finite f = true /\
              is_infinity (f * f)%float = true)).
Proof.
  unfold filter_candidates. intros H.
  destruct (filter_loop cal cfg (enumerate ps) nil nil) as [[ms acc]|e'] eqn:E;
    [discriminate|].
  simpl in H. injection H as <-.
  destruct (filter_loop_raise_inv _ _ _ _ _ _ E) as (p & Hin & Hne & Hg).
  unfold enumerate in Hin. rewrite enumerate_from_second in Hin. split.
  - apply List.Exists_exists. exists p. split; assumption.
  - unfold compute_geometry in Hg.
    destruct (feet_per_pixel cal) as [f|e0] eqn:Ef.
    + right. simpl in Hg. unfold PyFloat.pow2 in Hg.
      destruct (is_finite f) eqn:Efin; [|discriminate].
      destruct (is_infinity (f * f)%float) eqn:Einf; [|discriminate].
      simpl in Hg. injection Hg as <-. split; [reflexivity|]. exists f. auto.
    + left. simpl in Hg. injection Hg as <-.
      destruct (feet_per_pixel_raises _ _ Ef) as (msg & -> & Hbad).
      exists msg. repeat split; assumption.
Qed.

Lemma filter_candidates_failures_witness :
  exists f,
    feet_per_pixel {| pixel_distance := 1e-200%float; real_distance_feet := 1%float |}
    = Ok f /\
    is_infinity (f * f)%float = true.
Proof.
  destruct (filter_candidates_failures [rectangle]
              {| pixel_distance := 1e-200%float; real_distance_feet := 1%float |}
              default_config OverflowError eq_refl)
    as (_ & [(msg & Hm & _)|(_ & f & Hf & _ & Hinf)]).
  - discriminate.
  - exists f. split; assumption.
Defined.

Section VerdictLists.

Variables (cfg : PipelineConfig) (f s : float).

Local Arguments verdict : simpl never.

Lemma omap_cons_step {A B : Type} (g : A -> option B) (x : A) (l : list A) :
  omap g (x :: l) = match g x with Some y => y :: omap g l | None => omap g l end.
Proof. reflexivity. Qed.

Lemma enumerate_from_app {A : Type} (l1 l2 : list A) :
  forall k,
    enumerate_from k (l1 ++ l2)
    = (enumerate_from k l1 ++ enumerate_from (k + Z.of_nat (List.length l1)) l2)%list.
Proof.
  induction l1 as [|x l1 IH]; intros k; simpl.
  - rewrite Z.add_0_r. reflexivity.
  - rewrite IH. do 3 f_equal. lia.
Qed.

(** The verdict at another position: the same, the label apart. *)
Lemma verdict_shift (k idx : Z) (p : Polygon) :
  verdict cfg f s (idx + k, p)
  = option_map (fun pm => (fst pm, reindexed k (snd pm))) (verdict cfg f s (idx, p)).
Proof.
  unfold verdict.
  destruct (Shapely.is_empty p); [reflexivity|].
  destruct (_ <? min_area_sqft cfg)%float; [reflexivity|].
  destruct (max_vertex_count cfg <? _); reflexivity.
Qed.

Lemma verdicts_shift (k : Z) (ps : list Polygon) :
  forall j,
    omap (verdict cfg f s) (enumerate_from (j + k) ps)
    = map (fun pm => (fst pm, reindexed k (snd pm)))
        (omap (verdict cfg f s) (enumerate_from j ps)).
Proof.
  induction ps as [|p ps IH]; intros j; [reflexivity|].
  cbn [enumerate_from]. rewrite !omap_cons_step, verdict_shift.
  replace (j + k + 1) with (j + 1 + k) by lia. rewrite IH.
  destruct (verdict cfg f s (j, p)) as [[q m]|]; reflexivity.
Qed.

(** The polygons kept are taken from the input in its order. *)
Lemma verdicts_sublist (ps : list Polygon) :
  forall k, sublist (map fst (omap (verdict cfg f s) (enumerate_from k ps))) ps.
Proof.
  induction ps as [|p ps IH]; intros k; [constructor|].
  cbn [enumerate_from]. rewrite omap_cons_step.
  destruct (verdict cfg f s (k, p)) as [[q m]|] eqn:Ev.
  - destruct (verdict_kept _ _ _ _ _ _ _ Ev) as (-> & _).
    cbn [map fst]. apply sublist_skip, IH.
  - apply sublist_cons, IH.
Qed.

(** Filtering what has been kept keeps it all, relabelled from [k]. *)
Lemma verdicts_again (kept : list (Polygon * CandidateMetrics)) :
  Forall (fun pm => exists idx, verdict cfg f s (idx, fst pm) = Some pm) kept ->
  forall k,
    map fst (omap (verdict cfg f s) (enumerate_from k (map fst kept))) = map fst kept /\
    map unplaced (map snd (omap (verdict cfg f s) (enumerate_from k (map fst kept))))
    = map unplaced (map snd kept) /\
    map contour_index (map snd (omap (verdict cfg f s) (enumerate_from k (map fst kept))))
    = count_from k (List.length kept).
Proof.
  induction 1 as [|[p m] kept (idx & Hv) _ IH]; intros k; [repeat split|].
  cbn [map fst enumerate_from]. rewrite omap_cons_step.
  simpl in Hv.
  assert (E : verdict cfg f s (k, p) = Some (p, reindexed (k - idx) m)).
  { replace k with (idx + (k - idx)) at 1 by lia. rewrite verdict_shift, Hv. reflexivity. }
  rewrite E. destruct (IH (k + 1)) as (H1 & H2 & H3).
  cbn [map fst snd List.length count_from]. rewrite H1, H2, H3.
  destruct (verdict_kept _ _ _ _ _ _ _ Hv) as (_ & _ & _ & _ & Hi & _).
  repeat split. simpl. f_equal. lia.
Qed.

Lemma verdicts_all_kept (ps : list Polygon) :
  forall k,
    Forall (fun pm => exists idx, verdict cfg f s (idx, fst pm) = Some pm)
      (omap (verdict cfg f s) (enumerate_from k ps)).
Proof.
  induction ps as [|p ps IH]; intros k; [constructor|].
  cbn [enumerate_from]. rewrite omap_cons_step.
  destruct (verdict cfg f s (k, p)) as [[q m]|] eqn:Ev; [|apply IH].
  constructor; [|apply IH].
  destruct (verdict_kept _ _ _ _ _ _ _ Ev) as (-> & _). exists k. exact Ev.
Qed.

End VerdictLists.

Lemma all_empty_back (ps : list Polygon) (k : Z) :
  Forall (fun item : Z * Polygon => Shapely.is_empty (snd item) = true)
    (enumerate_from k ps) ->
  Forall (fun p => Shapely.is_empty p = true) ps.
Proof.
  intros H. rewrite <- (enumerate_from_second ps k).
  apply List.Forall_map. exact H.
Qed.

(** The two ways a run of the filter returns. *)
Lemma filter_candidates_cases (ps : list Polygon) (cal : Calibration)
    (cfg : PipelineConfig) (r : PipelineResult) :
  filter_candidates ps cal cfg = Ok r ->
  (Forall (fun p => Shapely.is_empty p = true) ps /\
   r = {| polygons := nil; metrics := nil |}) \/
  (exists f s,
     feet_per_pixel cal = Ok f /\ PyFloat.pow2 f = Ok s /\
     r = {| polygons := map fst (omap (verdict cfg f s) (enumerate ps));
            metrics := map snd (omap (verdict cfg f s) (enumerate ps)) |}).
Proof.
  intros H. unfold filter_candidates in H.
  destruct (filter_loop cal cfg (enumerate ps) nil nil) as [[ms acc]|e'] eqn:E;
    [|discriminate].
  simpl in H. injection H as <-.
  destruct (filter_loop_returns_inv _ _ _ _ _ _ E) as [Hall|(f & s & Hf & Hs)].
  - left. rewrite (filter_loop_all_empty cal cfg _ _ _ Hall) in E. injection E as <- <-.
    split; [|reflexivity]. apply (all_empty_back ps 0). exact Hall.
  - right. exists f, s. rewrite (filter_loop_scaled cal cfg f s Hf Hs) in E.
    injection E as <- <-. auto.
Qed.

Lemma filter_candidates_all_empty (ps : list Polygon) (cal : Calibration)
    (cfg : PipelineConfig) :
  Forall (fun p => Shapely.is_empty p = true) ps ->
  filter_candidates ps cal cfg = Ok {| polygons := nil; metrics := nil |}.
Proof.
  intros H. unfold filter_candidates. rewrite filter_loop_all_empty; [reflexivity|].
  apply enumerate_from_empty with (P := fun p => Shapely.is_empty p = true). exact H.
Qed.

(** X10: the filter works through its input piece by piece: when it
    returns on [ps] and on [qs], it returns on [ps ++ qs] the accepted
    polygons of the one followed by those of the other, with the records
    of the second moved on by the length of [ps]. *)
Theorem filter_candidates_app (ps qs : list Polygon) (cal : Calibration)
    (cfg : PipelineConfig) (r1 r2 : PipelineResult) :
  filter_candidates ps cal cfg = Ok r1 ->
  filter_candidates qs cal cfg = Ok r2 ->
  filter_candidates (ps ++ qs) cal cfg
  = Ok {| polygons := (polygons r1 ++ polygons r2)%list;
          metrics := (metrics r1
                      ++ map (reindexed (Z.of_nat (List.length ps))) (metrics r2))%list |}.
Proof.
  intros H1 H2.
  destruct (filter_candidates_cases _ _ _ _ H1) as [[He1 ->]|(f & s & Hf & Hs & ->)].
  - destruct (filter_candidates_cases _ _ _ _ H2) as [[He2 ->]|(f & s & Hf & Hs & ->)].
    + simpl. apply filter_candidates_all_empty. apply Forall_app. split; assumption.
    + rewrite (filter_candidates_returns _ cal cfg f s Hf Hs). f_equal.
      unfold enumerate. rewrite enumerate_from_app, omap_app.
      rewrite (verdict_all_empty cfg f s (enumerate_from 0 ps)).
      2:{ apply enumerate_from_empty with (P := fun p => Shapely.is_empty p = true).
          exact He1. }
      cbn [app polygons metrics map].
      rewrite (verdicts_shift cfg f s (Z.of_nat (List.length ps)) qs 0).
      rewrite !map_map. f_equal.
  - assert (E2 : r2 = {| polygons := map fst (omap (verdict cfg f s) (enumerate qs));
                         metrics := map snd (omap (verdict cfg f s) (enumerate qs)) |}).
    { rewrite (filter_candidates_returns _ cal cfg f s Hf Hs) in H2.
      injection H2 as <-. reflexivity. }
    subst r2. rewrite (filter_candidates_returns _ cal cfg f s Hf Hs). f_equal.
    unfold enumerate. rewrite enumerate_from_app, omap_app.
    rewrite (verdicts_shift cfg f s (Z.of_nat (List.length ps)) qs 0).
    cbn [polygons metrics]. rewrite !map_app, !map_map. reflexivity.
Qed.

Lemma filter_candidates_app_witness :
  filter_candidates ([rectangle] ++ mixed_input) scenario_calibration default_config
  = Ok {| polygons := [rectangle; rectangle];
          metrics := [ {| contour_index := 0;
                          area_sqft := 50.00000000000001%float;
                          perimeter_lf := 30.0%float;
                          vertex_count := 5;
                          metric_sanity_score := 0.06%float;
                          flagged := false |};
                       {| contour_index := 2;
                          area_sqft := 50.00000000000001%float;
                          perimeter_lf := 30.0%float;
                          vertex_count := 5;
                          metric_sanity_score := 0.06%float;
                          flagged := false |} ] |}.
Proof.
  exact (filter_candidates_app [rectangle] mixed_input scenario_calibration
           default_config
           {| polygons := [rectangle];
              metrics := [ {| contour_index := 0;
                              area_sqft := 50.00000000000001%float;
                              perimeter_lf := 30.0%float;
                              vertex_count := 5;
                              metric_sanity_score := 0.06%float;
                              flagged := false |} ] |}
           mixed_result eq_refl mixed_run).
Defined.

(** X11: filtering is idempotent: the polygons a run has accepted are
    all accepted again when given back to the filter, in the same order
    and with the same measures, scores and flags; only the positions are
    counted afresh from zero. *)
Theorem filter_candidates_idempotent (ps : list Polygon) (cal : Calibration)
    (cfg : PipelineConfig) (r : PipelineResult) :
  filter_candidates ps cal cfg = Ok r ->
  exists r',
    filter_candidates (polygons r) cal cfg = Ok r' /\
    polygons r' = polygons r /\
    map unplaced (metrics r') = map unplaced (metrics r) /\
    map contour_index (metrics r') = count_from 0 (List.length (polygons r)).
Proof.
  intros H.
  destruct (filter_candidates_cases _ _ _ _ H) as [[_ ->]|(f & s & Hf & Hs & ->)].
  - exists {| polygons := nil; metrics := nil |}. repeat split.
  - cbn [polygons metrics]. eexists. split.
    + apply (filter_candidates_returns _ cal cfg f s Hf Hs).
    + cbn [polygons metrics]. unfold enumerate.
      destruct (verdicts_again cfg f s _ (verdicts_all_kept cfg f s ps 0) 0)
        as (H1 & H2 & H3).
      rewrite H1, H2, H3, !length_map. repeat split.
Qed.

Lemma filter_candidates_idempotent_witness :
  exists r',
    filter_candidates (polygons mixed_result) scenario_calibration default_config
    = Ok r' /\
    map contour_index (metrics r') = [0].
Proof.
  destruct (filter_candidates_idempotent mixed_input scenario_calibration
              default_config mixed_result mixed_run)
    as (r' & Hr & _ & _ & Hi).
  exists r'. split; assumption.
Defined.

Lemma verdict_more_vertices (cfg : PipelineConfig) (n : Z) (f s : float)
    (item : Z * Polygon) (pm : Polygon * CandidateMetrics) :
  max_vertex_count cfg <= n ->
  verdict cfg f s item = Some pm ->
  verdict (with_max_vertex_count cfg n) f s item = Some pm.
Proof.
  intros Hn. destruct item as [idx p]. unfold verdict, with_max_vertex_count. simpl.
  destruct (Shapely.is_empty p); [discriminate|].
  destruct (_ <? min_area_sqft cfg)%float; [discriminate|].
  destruct (max_vertex_count cfg <? _) eqn:E1; [discriminate|].
  apply Z.ltb_ge in E1.
  destruct (n <? _) eqn:E2; [apply Z.ltb_lt in E2; lia|]. tauto.
Qed.

Lemma omap_sublist_pointwise {A B : Type} (g1 g2 : A -> option B) (l : list A) :
  (forall x y, g1 x = Some y -> g2 x = Some y) ->
  sublist (omap g1 l) (omap g2 l).
Proof.
  intros Hg. induction l as [|x l IH]; [constructor|].
  cbn [omap list_omap].
  destruct (g1 x) as [y|] eqn:E1.
  - rewrite (Hg x y E1). apply sublist_skip, IH.
  - destruct (g2 x); [apply sublist_cons|]; exact IH.
Qed.

Lemma sublist_map {A B : Type} (g : A -> B) (l1 l2 : list A) :
  sublist l1 l2 -> sublist (map g l1) (map g l2).
Proof.
  induction 1; simpl; [constructor|apply sublist_skip|apply sublist_cons]; assumption.
Qed.

(** X12: raising [max_vertex_count] never loses a candidate: when the
    filter returns under one limit it returns under any larger one, and
    what it accepted before, polygons and records, is still there, in
    order, among what it accepts now. *)
Theorem larger_vertex_limit_keeps_candidates (ps : list Polygon) (cal : Calibration)
    (cfg : PipelineConfig) (n : Z) (r : PipelineResult) :
  filter_candidates ps cal cfg = Ok r ->
  max_vertex_count cfg <= n ->
  exists r',
    filter_candidates ps cal (with_max_vertex_count cfg n) = Ok r' /\
    sublist (polygons r) (polygons r') /\
    sublist (metrics r) (metrics r').
Proof.
  intros H Hn.
  destruct (filter_candidates_cases _ _ _ _ H) as [[He ->]|(f & s & Hf & Hs & ->)].
  - exists {| polygons := nil; metrics := nil |}.
    split; [apply filter_candidates_all_empty; exact He|]. split; constructor.
  - eexists. split; [apply (filter_candidates_returns _ cal _ f s Hf Hs)|].
    cbn [polygons metrics].
    split; apply sublist_map, omap_sublist_pointwise;
      intros x y; apply verdict_more_vertices; exact Hn.
Qed.

Lemma larger_vertex_limit_keeps_candidates_witness :
  exists r',
    filter_candidates mixed_input scenario_calibration
      (with_max_vertex_count default_config 2000) = Ok r' /\
    sublist (polygons mixed_result) (polygons r').
Proof.
  destruct (larger_vertex_limit_keeps_candidates mixed_input scenario_calibration
              default_config 2000 mixed_result mixed_run)
    as (r' & Hr & Hp & _).
  - vm_compute. discriminate.
  - exists r'. split; assumption.
Defined.

(* ===================================================================== *)
(** ** Further properties: the metrics export *)
(* ===================================================================== *)

Lemma append_assoc (a b c : string) : (a +:+ b) +:+ c = a +:+ (b +:+ c).
Proof.
  induction a as [|x a IH]; [reflexivity|]. exact (f_equal (String x) IH).
Qed.

Lemma append_empty (a : string) : a +:+ EmptyString = a.
Proof.
  induction a as [|x a IH]; [reflexivity|]. exact (f_equal (String x) IH).
Qed.

(** The keys of the dictionary are the field names: no row is refused,
    and the cells come out in column order. *)
Lemma writerow_of_record (item : CandidateMetrics) :
  DictWriter_writerow fieldnames (row_of item) = Ok (writerow (cells_of item)).
Proof. reflexivity. Qed.

Lemma write_rows_appends (p : list string) (items : list CandidateMetrics) :
  forall (fs : filesystem) (old : string),
    fs !! p = Some (File old) ->
    write_rows fs p items
    = Ok (<[p := File (old +:+ concat_text (map (fun m => writerow (cells_of m)) items))]> fs).
Proof.
  induction items as [|item items IH]; intros fs old H.
  - cbn [write_rows map concat_text]. rewrite append_empty.
    rewrite insert_id; [reflexivity|exact H].
  - cbn [write_rows]. rewrite writerow_of_record. cbn [bind].
    rewrite (handle_write_file fs p old _ H).
    rewrite (IH _ _ (lookup_insert_eq _ _ _)).
    rewrite insert_insert_eq. cbn [map concat_text]. rewrite append_assoc. reflexivity.
Qed.

(** Making the directories and opening the target, when nothing is in
    the way. *)
Lemma export_opens (fs : filesystem) (path : list string) :
  path <> nil ->
  (forall d s, proper_prefix d path -> fs !! d <> Some (File s)) ->
  fs !! path <> Some Dir ->
  exists fs1,
    mkdir_parents fs nil (parent path) = Ok fs1 /\
    open_w fs1 nil path = Ok (<[path := File EmptyString]> fs1) /\
    (forall d, proper_prefix d path -> fs1 !! d = Some Dir) /\
    (forall q, ~ proper_prefix q path -> fs1 !! q = fs !! q).
Proof.
  intros Hne Hfree Htarget.
  destruct (path_split path Hne) as (c & Hpath).
  assert (Hproper : forall k1 k2, parent path = (k1 ++ k2)%list -> k1 <> nil ->
                                  proper_prefix k1 path).
  { intros k1 k2 E Hk. repeat split; [exact Hk| |].
    - intros Heq.
      assert (L : List.length path = S (List.length k1 + List.length k2)).
      { rewrite Hpath, E, !length_app. simpl. lia. }
      rewrite <- Heq in L. lia.
    - exists (k2 ++ [c])%list. rewrite app_assoc, <- E. exact Hpath. }
  assert (Hback : forall d, proper_prefix d path ->
                            exists k, parent path = (d ++ k)%list).
  { intros d (Hd & Hdp & k & Hk).
    destruct k as [|c' k] using rev_ind; [rewrite app_nil_r in Hk; congruence|].
    clear IHk. rewrite Hpath, app_assoc in Hk. apply app_inj_tail in Hk.
    destruct Hk as [Hk _]. exists k. exact Hk. }
  destruct (mkdir_parents_spec (parent path) fs nil) as (fs1 & Hrun & Hdirs & Hrest).
  { intros k1 k2 s E Hk. simpl. apply Hfree. eapply Hproper; eassumption. }
  simpl in Hdirs, Hrest.
  exists fs1. split; [exact Hrun|]. split; [|split].
  - apply (open_w_spec path fs1 nil Hne).
    + intros k1 k2 E Hk1 Hk2. simpl.
      destruct (exists_last Hk2) as (k2' & c' & ->).
      rewrite Hpath, app_assoc in E. apply app_inj_tail in E. destruct E as [E _].
      apply (Hdirs k1 k2'); assumption.
    + simpl. rewrite Hrest; [exact Htarget|].
      intros k1 k2 E Hk Heq. destruct (Hproper k1 k2 E Hk) as (_ & Hd & _).
      congruence.
  - intros d Hd. destruct (Hback d Hd) as (k & Hk).
    apply (Hdirs d k); [exact Hk|apply Hd].
  - intros q Hq. apply Hrest. intros k1 k2 E Hk Heq. subst q.
    apply Hq. eapply Hproper; eassumption.
Qed.

(** X13: whatever the records, when no file sits where a directory is
    needed and the target is not a directory, the export succeeds and
    leaves at the target the header row followed by one row per record,
    in the order of the records and made of the record's six values in
    column order; whatever the target held is gone, the directories above
    it exist, and every other path is as it was. *)
Theorem export_writes_header_then_rows (metrics : list CandidateMetrics)
    (fs : filesystem) (path : list string) :
  path <> nil ->
  (forall d s, proper_prefix d path -> fs !! d <> Some (File s)) ->
  fs !! path <> Some Dir ->
  exists fs',
    export_to_csv metrics path fs = Ok fs' /\
    fs' !! path
    = Some (File (header_line +:+ CRLF
                  +:+ concat_text (map (fun m => writerow (cells_of m)) metrics))) /\
    (forall d, proper_prefix d path -> fs' !! d = Some Dir) /\
    (forall q, q <> path -> ~ proper_prefix q path -> fs' !! q = fs !! q).
Proof.
  intros Hne Hfree Htarget.
  destruct (export_opens fs path Hne Hfree Htarget) as (fs1 & Hrun & Hopen & Hdirs & Hrest).
  destruct scenario_text as [Hhead _].
  eexists. split; [|split; [|split]].
  - unfold export_to_csv. rewrite Hrun. cbn [bind]. rewrite Hopen. cbn [bind].
    rewrite Hhead.
    rewrite (handle_write_file _ path EmptyString _ (lookup_insert_eq _ _ _)).
    rewrite (write_rows_appends path metrics _ _ (lookup_insert_eq _ _ _)).
    rewrite !insert_insert_eq. reflexivity.
  - rewrite lookup_insert_eq, !append_assoc. reflexivity.
  - intros d Hd. rewrite lookup_insert_ne; [apply Hdirs; exact Hd|].
    destruct Hd as (_ & Hdp & _). congruence.
  - intros q Hq Hnp. rewrite lookup_insert_ne by congruence. apply Hrest. exact Hnp.
Qed.

Lemma export_writes_header_then_rows_witness :
  exists fs',
    export_to_csv nil ["out"; "metrics.csv"] {[ ["out"; "metrics.csv"] := File "stale" ]}
    = Ok fs' /\
    fs' !! ["out"; "metrics.csv"] = Some (File (header_line +:+ CRLF)) /\
    fs' !! ["out"] = Some Dir.
Proof.
  destruct (export_writes_header_then_rows nil
              {[ ["out"; "metrics.csv"] := File "stale" ]} ["out"; "metrics.csv"])
    as (fs' & Hrun & Hfile & Hdirs & _).
  - discriminate.
  - intros d s (Hd & Hdp & k & Hk).
    destruct d as [|c1 [|c2 [|c3 d]]]; try contradiction;
      injection Hk as <-; try (intros; subst); try contradiction;
      vm_compute; discriminate.
  - vm_compute. discriminate.
  - exists fs'. split; [exact Hrun|]. split.
    + rewrite Hfile. reflexivity.
    + apply Hdirs. repeat split; [discriminate|discriminate|].
      exists ["metrics.csv"]. reflexivity.
Defined.

(** A file met on the way down stops [mkdir]. *)
Lemma mkdir_parents_blocked (k1 : list string) :
  forall (fs : filesystem) (done : list string) (c : string) (k2 : list string)
         (s : string),
    (forall j1 j2 s', k1 = (j1 ++ j2)%list -> j1 <> nil ->
                      fs !! (done ++ j1)%list <> Some (File s')) ->
    fs !! (done ++ k1 ++ [c])%list = Some (File s) ->
    mkdir_parents fs done (k1 ++ c :: k2)
    = Raise (match k2 with nil => FileExistsError | _ => NotADirectoryError end).
Proof.
  induction k1 as [|a k1 IH]; intros fs done c k2 s Hfree Hfile.
  - cbn [app mkdir_parents]. cbn [app] in Hfile. rewrite Hfile. reflexivity.
  - assert (Hne : (done ++ [a])%list <> (done ++ (a :: k1) ++ [c])%list).
    { intros Heq. apply app_inv_head in Heq. injection Heq as Heq.
      destruct k1; discriminate. }
    assert (Hnext : forall fs1,
               (forall q, q <> (done ++ [a])%list -> fs1 !! q = fs !! q) ->
               mkdir_parents fs1 (done ++ [a]) (k1 ++ c :: k2)
               = Raise (match k2 with nil => FileExistsError
                                 | _ => NotADirectoryError end)).
    { intros fs1 Hsame. apply (IH fs1 (done ++ [a])%list c k2 s).
      - intros j1 j2 s' E Hj. rewrite <- app_assoc. cbn [app].
        rewrite Hsame.
        + apply (Hfree (a :: j1) j2); [rewrite E; reflexivity|discriminate].
        + intros Heq. apply app_inv_head in Heq. injection Heq as Heq.
          subst j1. contradiction.
      - rewrite <- app_assoc. cbn [app]. rewrite Hsame; [exact Hfile|].
        intros Heq. apply Hne. symmetry. exact Heq. }
    cbn [app mkdir_parents].
    destruct (fs !! (done ++ [a])%list) as [[|s0]|] eqn:E.
    + apply Hnext. reflexivity.
    + exfalso. apply (Hfree [a] k1 s0); [reflexivity|discriminate|exact E].
    + apply Hnext. intros q Hq. apply lookup_insert_ne. congruence.
Qed.

Lemma open_w_directory (todo : list string) :
  forall (fs : filesystem) (done : list string),
    todo <> nil ->
    (forall k1 k2, todo = (k1 ++ k2)%list -> k1 <> nil -> k2 <> nil ->
                   fs !! (done ++ k1)%list = Some Dir) ->
    fs !! (done ++ todo)%list = Some Dir ->
    open_w fs done todo = Raise IsADirectoryError.
Proof.
  induction todo as [|c rest IH]; intros fs done Hne Hdirs Hdir; [contradiction|].
  destruct rest as [|c' rest].
  - simpl. rewrite Hdir. reflexivity.
  - rewrite open_w_step.
    rewrite (Hdirs [c] (c' :: rest)); [|reflexivity|discriminate|discriminate].
    apply IH.
    + discriminate.
    + intros k1 k2 E Hk1 Hk2. rewrite <- app_assoc. simpl.
      apply (Hdirs (c :: k1) k2); [rewrite E; reflexivity|discriminate|exact Hk2].
    + rewrite <- app_assoc. exact Hdir.
Qed.

(** X14: the export fails, and writes no row, when the file system is in
    its way.  If the first file met going down towards the target is the
    directory the target should lie in, it is [FileExistsError]; if it is
    higher up, [NotADirectoryError]; and if all the directories can be
    made but the target itself is a directory, [IsADirectoryError]. *)
Theorem export_blocked_by_file_system (metrics : list CandidateMetrics)
    (fs : filesystem) (path : list string) :
  (forall d c k s,
     path = (d ++ c :: k)%list -> d <> nil ->
     fs !! d = Some (File s) ->
     (forall d' s', proper_prefix d' d -> fs !! d' <> Some (File s')) ->
     export_to_csv metrics path fs
     = Raise (match k with nil => FileExistsError | _ => NotADirectoryError end)) /\
  (path <> nil ->
   (forall d s, proper_prefix d path -> fs !! d <> Some (File s)) ->
   fs !! path = Some Dir ->
   export_to_csv metrics path fs = Raise IsADirectoryError).
Proof.
  split.
  - intros d c k s Hpath Hd Hfile Hfree.
    destruct (exists_last Hd) as (k1 & c0 & ->).
    assert (Hparent : parent path = (k1 ++ c0 :: removelast (c :: k))%list).
    { unfold parent. rewrite Hpath.
      rewrite removelast_app by discriminate. rewrite <- app_assoc. reflexivity. }
    unfold export_to_csv. rewrite Hparent.
    rewrite (mkdir_parents_blocked k1 fs nil c0 (removelast (c :: k)) s).
    + destruct k; reflexivity.
    + intros j1 j2 s' E Hj. cbn [app]. apply Hfree. repeat split; [exact Hj| |].
      * intros Heq. rewrite E, <- app_assoc in Heq.
        rewrite <- (app_nil_r j1) in Heq at 1. apply app_inv_head in Heq.
        destruct j2; discriminate.
      * exists (j2 ++ [c0])%list. rewrite E, <- app_assoc. reflexivity.
    + cbn [app]. exact Hfile.
  - intros Hne Hfree Hdir.
    destruct (path_split path Hne) as (c & Hpath).
    assert (Hproper : forall k1 k2, parent path = (k1 ++ k2)%list -> k1 <> nil ->
                                    proper_prefix k1 path).
    { intros k1 k2 E Hk. repeat split; [exact Hk| |].
      - intros Heq.
        assert (L : List.length path = S (List.length k1 + List.length k2)).
        { rewrite Hpath, E, !length_app. simpl. lia. }
        rewrite <- Heq in L. lia.
      - exists (k2 ++ [c])%list. rewrite app_assoc, <- E. exact Hpath. }
    destruct (mkdir_parents_spec (parent path) fs nil) as (fs1 & Hrun & Hdirs & Hrest).
    { intros k1 k2 s E Hk. simpl. apply Hfree. eapply Hproper; eassumption. }
    simpl in Hdirs, Hrest.
    unfold export_to_csv. rewrite Hrun. cbn [bind].
    rewrite (open_w_directory path fs1 nil Hne); [reflexivity| |].
    + intros k1 k2 E Hk1 Hk2. simpl.
      destruct (exists_last Hk2) as (k2' & c' & ->).
      rewrite Hpath, app_assoc in E. apply app_inj_tail in E. destruct E as [E _].
      apply (Hdirs k1 k2'); assumption.
    + simpl. rewrite Hrest; [exact Hdir|].
      intros k1 k2 E Hk Heq. destruct (Hproper k1 k2 E Hk) as (_ & Hd & _).
      congruence.
Qed.

Lemma export_blocked_by_file_system_witness :
  export_to_csv [scenario_metrics] ["out"; "run1"; "metrics.csv"]
    {[ ["out"] := File "notes" ]}
  = Raise NotADirectoryError /\
  export_to_csv [scenario_metrics] ["out"; "metrics.csv"]
    {[ ["out"] := File "notes" ]}
  = Raise FileExistsError /\
  export_to_csv [scenario_metrics] ["out"] {[ ["out"] := Dir ]}
  = Raise IsADirectoryError.
Proof.
  split; [|split].
  - destruct (export_blocked_by_file_system [scenario_metrics]
                {[ ["out"] := File "notes" ]} ["out"; "run1"; "metrics.csv"])
      as (H & _).
    apply (H ["out"] "run1" ["metrics.csv"] "notes"); try reflexivity.
    + discriminate.
    + intros d' s' (Hd & Hdp & k & Hk).
      destruct d' as [|c1 [|c2 d']]; try contradiction; try discriminate.
      injection Hk as <- _. contradiction.
  - destruct (export_blocked_by_file_system [scenario_metrics]
                {[ ["out"] := File "notes" ]} ["out"; "metrics.csv"])
      as (H & _).
    apply (H ["out"] "metrics.csv" nil "notes"); try reflexivity.
    + discriminate.
    + intros d' s' (Hd & Hdp & k & Hk).
      destruct d' as [|c1 [|c2 d']]; try contradiction; try discriminate.
      injection Hk as <- _. contradiction.
  - destruct (export_blocked_by_file_system [scenario_metrics]
                {[ ["out"] := Dir ]} ["out"])
      as (_ & H).
    apply H; try reflexivity.
    + discriminate.
    + intros d s (Hd & Hdp & k & Hk).
      destruct d as [|c1 [|c2 d]]; try contradiction; try discriminate.
      injection Hk as <- _. contradiction.
Defined.

(* ===================================================================== *)
(** ** Further properties: the accepted-regions model *)
(* ===================================================================== *)

Section ModelMore.

Import Model.

Lemma filter_keeps_all {A : Type} (keep : A -> bool) (l : list A) :
  (forall x, In x l -> keep x = true) -> List.filter keep l = l.
Proof.
  induction l as [|x l IH]; intros H; [reflexivity|].
  simpl. rewrite (H x (or_introl eq_refl)). f_equal. apply IH.
  intros y Hy. apply H. right. exact Hy.
Qed.

Lemma count_from_snoc (n : nat) :
  forall k, count_from k (S n) = (count_from k n ++ [k + Z.of_nat n])%list.
Proof.
  induction n as [|n IH]; intros k.
  - simpl. rewrite Z.add_0_r. reflexivity.
  - change (count_from k (S (S n))) with (k :: count_from (k + 1) (S n)).
    rewrite IH. cbn [count_from app]. do 3 f_equal. lia.
Qed.

Lemma filter_swap {A : Type} (g1 g2 : A -> bool) (l : list A) :
  List.filter g1 (List.filter g2 l) = List.filter g2 (List.filter g1 l).
Proof.
  induction l as [|x l IH]; [reflexivity|].
  simpl. destruct (g1 x) eqn:E1; destruct (g2 x) eqn:E2; simpl;
    rewrite ?E1, ?E2, IH; reflexivity.
Qed.

Lemma count_from_length (n : nat) : forall k, List.length (count_from k n) = n.
Proof. induction n as [|n IH]; intros k; [reflexivity|]. simpl. f_equal. apply IH. Qed.

(** The identifiers handed out over a life that starts with [_next_id]. *)
Lemma serve_counts (requests : list request) :
  forall self final handed,
    serve self requests = (final, handed) ->
    map region_id handed = count_from (_next_id self) (additions requests) /\
    _next_id final = _next_id self + Z.of_nat (additions requests).
Proof.
  induction requests as [|[p a l pts|i] rest IH]; intros self final handed H.
  - injection H as <- <-. simpl. split; [reflexivity|lia].
  - simpl in H. destruct (serve _ rest) as [final' handed'] eqn:E.
    injection H as <- <-. destruct (IH _ _ _ E) as [Hm Hn]. simpl in Hm, Hn.
    cbn [additions count_from map region_id]. rewrite Hm, Hn. split; [reflexivity|lia].
  - simpl in H. destruct (IH _ _ _ H) as [Hm Hn]. simpl in Hm, Hn.
    cbn [additions]. split; assumption.
Qed.

(** In a numbered model one stored region at most carries an identifier. *)
Lemma numbered_remove_one (l : list AcceptedRegion) (r : AcceptedRegion) :
  StronglySorted Z.lt (map region_id l) -> In r l ->
  S (List.length (List.filter (fun x => negb (region_id x =? region_id r)) l))
  = List.length l.
Proof.
  induction l as [|x l IH]; intros Hs Hin; [contradiction|].
  simpl in Hs. inversion Hs as [|? ? Hs' Hx]; subst.
  rewrite List.Forall_forall in Hx.
  destruct Hin as [->|Hin].
  - simpl. rewrite Z.eqb_refl. simpl. f_equal.
    rewrite filter_keeps_all; [reflexivity|].
    intros y Hy. apply negb_true_iff, Z.eqb_neq.
    specialize (Hx (region_id y) (in_map region_id _ _ Hy)). lia.
  - simpl. destruct (region_id x =? region_id r) eqn:E.
    + apply Z.eqb_eq in E.
      specialize (Hx (region_id r) (in_map region_id _ _ Hin)). lia.
    + simpl. f_equal. apply IH; assumption.
Qed.

End ModelMore.

(** X15: the identifiers [add_region] hands out over the life of a model
    are 1, 2, 3, ... in the order of the calls, one per call, whatever is
    removed in between; the next identifier of the model is one more than
    the number of additions made. *)
Theorem region_ids_count_additions (requests : list Model.request)
    (final : Model.AcceptedRegionsModel) (handed : list Model.AcceptedRegion) :
  Model.serve Model.init requests = (final, handed) ->
  map Model.region_id handed = count_from 1 (additions requests) /\
  List.length handed = additions requests /\
  Model._next_id final = 1 + Z.of_nat (additions requests).
Proof.
  intros H. destruct (serve_counts requests _ _ _ H) as [Hm Hn].
  split; [exact Hm|]. split; [|exact Hn].
  apply (f_equal (@List.length Z)) in Hm. rewrite length_map in Hm. rewrite Hm.
  apply count_from_length.
Qed.

Lemma region_ids_count_additions_witness :
  map Model.region_id
    (snd (Model.serve Model.init
            [Model.AddRegion 1 1 1 nil; Model.RemoveRegion 1;
             Model.AddRegion 1 2 2 nil]))
  = [1; 2].
Proof.
  destruct (Model.serve Model.init
              [Model.AddRegion 1 1 1 nil; Model.RemoveRegion 1;
               Model.AddRegion 1 2 2 nil]) as [final handed] eqn:E.
  destruct (region_ids_count_additions _ final handed E) as (H & _).
  exact H.
Defined.

(** Adding a region and removing it by its identifier. *)
Lemma add_then_remove (self : Model.AcceptedRegionsModel) (page : Z)
    (area_sqft perimeter_lf : float) (polygon_points : list (float * float)) :
  Model.numbered self ->
  Model._regions
    (Model.remove_region
       (fst (Model.add_region self page area_sqft perimeter_lf polygon_points))
       (Model.region_id
          (snd (Model.add_region self page area_sqft perimeter_lf polygon_points))))
  = Model._regions self /\
  Model._next_id
    (Model.remove_region
       (fst (Model.add_region self page area_sqft perimeter_lf polygon_points))
       (Model.region_id
          (snd (Model.add_region self page area_sqft perimeter_lf polygon_points))))
  = Model._next_id self + 1.
Proof.
  intros [_ Hb]. split; [|reflexivity]. simpl.
  rewrite List.filter_app. simpl. rewrite Z.eqb_refl. simpl. rewrite app_nil_r.
  apply filter_keeps_all. intros r Hr. apply negb_true_iff, Z.eqb_neq.
  rewrite List.Forall_forall in Hb. specialize (Hb r Hr). lia.
Qed.

(** X16: accepting a region and removing it again, as a second click on
    a candidate does, gives back the stored regions as they were; the
    identifier is spent all the same: the next one has moved on by one.
    This in any numbered model, such as every model reached from
    [__init__]. *)
Theorem add_then_remove_restores (self : Model.AcceptedRegionsModel) (page : Z)
    (area_sqft perimeter_lf : float) (polygon_points : list (float * float)) :
  Model.numbered self ->
  Model._regions
    (Model.remove_region
       (fst (Model.add_region self page area_sqft perimeter_lf polygon_points))
       (Model.region_id
          (snd (Model.add_region self page area_sqft perimeter_lf polygon_points))))
  = Model._regions self /\
  Model._next_id
    (Model.remove_region
       (fst (Model.add_region self page area_sqft perimeter_lf polygon_points))
       (Model.region_id
          (snd (Model.add_region self page area_sqft perimeter_lf polygon_points))))
  = Model._next_id self + 1.
Proof. apply add_then_remove. Qed.

Lemma add_then_remove_restores_witness :
  Model._regions
    (Model.remove_region (fst (Model.add_region Model.init 1 1 1 nil)) 1)
  = nil.
Proof.
  destruct (add_then_remove_restores Model.init 1 1 1 nil init_numbered) as (H & _).
  exact H.
Defined.

(** X17: [remove_region] with an identifier no stored region carries
    changes nothing and raises nothing; removing the same identifier a
    second time is therefore without effect. *)
Theorem remove_unknown_region_is_noop (self : Model.AcceptedRegionsModel) (i : Z) :
  ((forall region, In region (Model._regions self) -> Model.region_id region <> i) ->
   Model.remove_region self i = self) /\
  Model.remove_region (Model.remove_region self i) i = Model.remove_region self i.
Proof.
  assert (G : forall m,
             (forall region, In region (Model._regions m) -> Model.region_id region <> i) ->
             Model.remove_region m i = m).
  { intros [rs n] H. unfold Model.remove_region. simpl in *. f_equal.
    apply filter_keeps_all. intros r Hr. apply negb_true_iff, Z.eqb_neq. apply H, Hr. }
  split; [apply G|]. apply G.
  intros region Hin. simpl in Hin. apply List.filter_In in Hin.
  destruct Hin as [_ Hne]. apply negb_true_iff, Z.eqb_neq in Hne. exact Hne.
Qed.

Lemma remove_unknown_region_is_noop_witness :
  Model.remove_region Model.init 7 = Model.init.
Proof.
  destruct (remove_unknown_region_is_noop Model.init 7) as (H & _).
  apply H. intros region [].
Defined.

(** X18: in a numbered model, removing the identifier of a stored region
    takes away that one region and no other: the number of stored regions
    goes down by exactly one. *)
Theorem remove_stored_region_drops_one (self : Model.AcceptedRegionsModel)
    (region : Model.AcceptedRegion) :
  Model.numbered self ->
  In region (Model._regions self) ->
  S (List.length (Model._regions
                    (Model.remove_region self (Model.region_id region))))
  = List.length (Model._regions self) /\
  ~ In region (Model._regions (Model.remove_region self (Model.region_id region))).
Proof.
  intros [Hs _] Hin. split.
  - apply numbered_remove_one; assumption.
  - simpl. intros H. apply List.filter_In in H. destruct H as [_ H].
    rewrite Z.eqb_refl in H. discriminate.
Qed.

Lemma remove_stored_region_drops_one_witness :
  List.length
    (Model._regions
       (Model.remove_region (fst (Model.add_region Model.init 1 1 1 nil)) 1))
  = O.
Proof.
  destruct (remove_stored_region_drops_one
              (fst (Model.add_region Model.init 1 1 1 nil))
              (snd (Model.add_region Model.init 1 1 1 nil)))
    as (H & _).
  - apply add_region_numbered, init_numbered.
  - left. reflexivity.
  - apply eq_add_S. exact H.
Defined.

(** X19: [regions_for_page] follows the two updates: after [add_region]
    the list of the new region's page has it at its end and the list of
    every other page is as before; after [remove_region] each page's list
    is the former one without the regions of that identifier.  A stored
    region is listed under its own page and under no other. *)
Theorem regions_for_page_follows_updates (self : Model.AcceptedRegionsModel)
    (page q : Z) (area_sqft perimeter_lf : float)
    (polygon_points : list (float * float)) (i : Z) :
  Model.regions_for_page
    (fst (Model.add_region self page area_sqft perimeter_lf polygon_points)) q
  = (Model.regions_for_page self q
     ++ (if page =? q
         then [snd (Model.add_region self page area_sqft perimeter_lf polygon_points)]
         else nil))%list /\
  Model.regions_for_page (Model.remove_region self i) q
  = List.filter (fun region => negb (Model.region_id region =? i))
      (Model.regions_for_page self q) /\
  (forall region,
     In region (Model.regions_for_page self q) <->
     In region (Model.regions self) /\ Model.page region = q).
Proof.
  split; [|split].
  - unfold Model.regions_for_page. simpl. rewrite List.filter_app. simpl.
    destruct (page =? q); reflexivity.
  - unfold Model.regions_for_page. simpl.
    apply filter_swap.
  - intros region. unfold Model.regions_for_page, Model.regions.
    rewrite List.filter_In, Z.eqb_eq. reflexivity.
Qed.

(* ===================================================================== *)
(** ** Further properties: accepting candidates in the window *)
(* ===================================================================== *)

Section UiFacts.

Import Ui.

(** Replacing one element of a list, seen through [omap]. *)
Lemma omap_insert_split {A B : Type} (g : A -> option B) (l : list A) (i : nat)
    (x y : A) :
  l !! i = Some x ->
  exists l1 l2,
    omap g l = (l1 ++ option_list (g x) ++ l2)%list /\
    omap g (<[i := y]> l) = (l1 ++ option_list (g y) ++ l2)%list.
Proof.
  intros H. exists (omap g (take i l)), (omap g (drop (S i) l)).
  assert (Hlt : (i < List.length l)%nat) by (eapply lookup_lt_Some; exact H).
  split.
  - rewrite <- (take_drop_middle l i x H) at 1.
    rewrite omap_app. cbn [omap list_omap]. destruct (g x); reflexivity.
  - rewrite (insert_take_drop l i y Hlt).
    rewrite omap_app. cbn [omap list_omap]. destruct (g y); reflexivity.
Qed.

Lemma nodup_middle (l1 l2 : list Z) (x : Z) :
  List.NoDup (l1 ++ [x] ++ l2) <-> ~ In x (l1 ++ l2) /\ List.NoDup (l1 ++ l2).
Proof.
  split.
  - intros H. split.
    + apply (NoDup_remove_2 l1 l2 x). exact H.
    + apply (NoDup_remove_1 l1 l2 x). exact H.
  - intros [Hx Hn]. apply (Permutation_NoDup (Permutation_middle l1 l2 x)).
    constructor; assumption.
Qed.

Lemma in_middle (l1 l2 : list Z) (x y : Z) :
  In y (l1 ++ [x] ++ l2) <-> y = x \/ In y (l1 ++ l2).
Proof.
  rewrite !in_app_iff. simpl. split; intros H; intuition (subst; auto).
Qed.

(** One click keeps items and model linked. *)
Lemma toggle_keeps_linked (w w' : MainWindow) (i : nat) (out : list shown) :
  linked w -> toggle_candidate w i = Ok (w', out) -> linked w'.
Proof.
  intros (Hnd & Hst & Hnum) H. unfold toggle_candidate in H.
  destruct (candidates w !! i) as [item|] eqn:Ei; [|injection H as <- _; exact (conj Hnd (conj Hst Hnum))].
  destruct (calibration w !! current_page w) as [ft|];
    [|injection H as <- _; exact (conj Hnd (conj Hst Hnum))].
  destruct (accepted_region_id item) as [id|] eqn:Ea.
  - injection H as <- _. unfold linked, accepted_ids. cbn [candidates model].
    destruct (omap_insert_split accepted_region_id (candidates w) i item
                {| candidate := candidate item; accepted_region_id := None |} Ei)
      as (l1 & l2 & E1 & E2).
    rewrite Ea in E1. cbn [accepted_region_id option_list] in E1, E2.
    unfold accepted_ids in Hnd, Hst. rewrite E1 in Hnd, Hst. rewrite E2.
    cbn [app]. apply nodup_middle in Hnd. destruct Hnd as [Hx Hn].
    split; [exact Hn|]. split; [|apply remove_region_numbered; exact Hnum].
    intros id' Hin. simpl.
    assert (Hold : In id' (map Model.region_id (Model._regions (model w)))).
    { apply Hst. apply in_middle. right. exact Hin. }
    apply in_map_iff in Hold. destruct Hold as (r & Hr & Hrin).
    apply in_map_iff. exists r. split; [exact Hr|].
    apply List.filter_In. split; [exact Hrin|].
    apply negb_true_iff, Z.eqb_neq. rewrite Hr. intros ->. contradiction.
  - destruct (PyFloat.pow2 ft) as [sq|e]; [|discriminate].
    simpl in H. injection H as <- _. unfold linked, accepted_ids.
    cbn [candidates model].
    destruct (omap_insert_split accepted_region_id (candidates w) i item
                {| candidate := candidate item;
                   accepted_region_id := Some (Model._next_id (model w)) |} Ei)
      as (l1 & l2 & E1 & E2).
    rewrite Ea in E1. cbn [accepted_region_id option_list] in E1, E2.
    unfold accepted_ids in Hnd, Hst. rewrite E1 in Hnd, Hst. cbn [app] in Hnd, Hst.
    rewrite E2.
    assert (Hfresh : ~ In (Model._next_id (model w)) (l1 ++ l2)).
    { intros Hin. specialize (Hst _ Hin). apply in_map_iff in Hst.
      destruct Hst as (r & Hr & Hrin). destruct Hnum as [_ Hb].
      rewrite List.Forall_forall in Hb. specialize (Hb r Hrin). lia. }
    split; [apply nodup_middle; split; assumption|]. split.
    + intros id' Hin. apply in_middle in Hin. simpl. rewrite map_app, in_app_iff.
      destruct Hin as [->|Hin]; [right; left; reflexivity|left; apply Hst, Hin].
    + apply (add_region_numbered (model w)). exact Hnum.
Qed.

End UiFacts.

(** X20: a first click on a candidate that is not accepted, on a
    calibrated page, stores a region numbered with the model's next
    identifier, on page [current_page + 1], with the pixel area times the
    square of the scale and the pixel perimeter times the scale; a second
    click on it takes that region out again: candidates and stored
    regions are as before the two clicks, and the identifier is spent. *)
Theorem toggle_twice_restores (w : Ui.MainWindow) (i : nat)
    (item : Ui.CandidateGraphicsItem) (ft squared : float) :
  Ui.candidates w !! i = Some item ->
  Ui.accepted_region_id item = None ->
  Ui.calibration w !! Ui.current_page w = Some ft ->
  PyFloat.pow2 ft = Ok squared ->
  Model.numbered (Ui.model w) ->
  exists w1 w2,
    Ui.toggle_candidate w i = Ok (w1, [Ui.StyleUpdated i; Ui.TableUpdated]) /\
    Model._regions (Ui.model w1)
    = (Model._regions (Ui.model w)
       ++ [ {| Model.page := Ui.current_page w + 1;
               Model.region_id := Model._next_id (Ui.model w);
               Model.area_sqft := (Detect.area_px (Ui.candidate item) * squared)%float;
               Model.perimeter_lf := (Detect.perimeter_px (Ui.candidate item) * ft)%float;
               Model.polygon_points := Detect.polygon (Ui.candidate item) |} ])%list /\
    (exists item1, Ui.candidates w1 !! i = Some item1 /\
                   Ui.accepted_region_id item1 = Some (Model._next_id (Ui.model w))) /\
    Ui.toggle_candidate w1 i = Ok (w2, [Ui.StyleUpdated i; Ui.TableUpdated]) /\
    Ui.candidates w2 = Ui.candidates w /\
    Model._regions (Ui.model w2) = Model._regions (Ui.model w) /\
    Model._next_id (Ui.model w2) = Model._next_id (Ui.model w) + 1.
Proof.
  intros Hi Ha Hc Hs Hnum.
  assert (Hlt : (i < List.length (Ui.candidates w))%nat)
    by (eapply lookup_lt_Some; exact Hi).
  eexists. eexists. split.
  { unfold Ui.toggle_candidate. rewrite Hi, Hc, Ha, Hs. reflexivity. }
  split; [reflexivity|]. split.
  { eexists. split; [apply list_lookup_insert_eq; exact Hlt|reflexivity]. }
  split.
  { unfold Ui.toggle_candidate. cbn [Ui.candidates Ui.calibration Ui.current_page].
    rewrite list_lookup_insert_eq by exact Hlt. rewrite Hc. reflexivity. }
  cbn [Ui.candidates Ui.model Ui.candidate]. split; [|split].
  - rewrite list_insert_insert_eq. apply list_insert_id.
    rewrite Hi. f_equal. destruct item as [c a]. simpl in Ha. subst a. reflexivity.
  - apply (add_then_remove (Ui.model w)). exact Hnum.
  - reflexivity.
Qed.

Lemma toggle_twice_restores_witness :
  exists w1 w2,
    Ui.toggle_candidate sample_window 1 = Ok (w1, [Ui.StyleUpdated 1; Ui.TableUpdated]) /\
    Ui.toggle_candidate w1 1 = Ok (w2, [Ui.StyleUpdated 1; Ui.TableUpdated]) /\
    Ui.candidates w2 = Ui.candidates sample_window /\
    Model._next_id (Ui.model w2) = 2.
Proof.
  destruct (toggle_twice_restores sample_window 1
              {| Ui.candidate := sample_candidate; Ui.accepted_region_id := None |}
              0.1%float (0.1 * 0.1)%float eq_refl eq_refl eq_refl eq_refl init_numbered)
    as (w1 & w2 & H1 & _ & _ & H2 & Hc & _ & Hn).
  exists w1, w2. repeat split; assumption.
Defined.

Lemma fresh_candidates_linked (w : Ui.MainWindow) :
  Forall (fun item => Ui.accepted_region_id item = None) (Ui.candidates w) ->
  Model.numbered (Ui.model w) ->
  Ui.linked w.
Proof.
  intros Hfresh Hnum. unfold Ui.linked, Ui.accepted_ids.
  assert (E : omap Ui.accepted_region_id (Ui.candidates w) = nil).
  { induction Hfresh as [|item l Hi _ IH]; [reflexivity|].
    cbn [omap list_omap]. rewrite Hi. exact IH. }
  rewrite E. split; [constructor|]. split; [intros id []|exact Hnum].
Qed.

Lemma toggle_keeps_geometry (w w' : Ui.MainWindow) (i : nat) (out : list Ui.shown) :
  Ui.toggle_candidate w i = Ok (w', out) ->
  map Ui.candidate (Ui.candidates w') = map Ui.candidate (Ui.candidates w) /\
  Ui.calibration w' = Ui.calibration w /\
  Ui.current_page w' = Ui.current_page w /\
  (forall j, j <> i -> Ui.candidates w' !! j = Ui.candidates w !! j).
Proof.
  intros H. unfold Ui.toggle_candidate in H.
  destruct (Ui.candidates w !! i) as [item|] eqn:Ei;
    [|injection H as <- _; repeat split; reflexivity].
  destruct (Ui.calibration w !! Ui.current_page w) as [ft|];
    [|injection H as <- _; repeat split; reflexivity].
  assert (G : forall a,
             map Ui.candidate
               (<[i := {| Ui.candidate := Ui.candidate item;
                          Ui.accepted_region_id := a |}]> (Ui.candidates w))
             = map Ui.candidate (Ui.candidates w)).
  { intros a. change (map Ui.candidate) with (fmap (M := list) Ui.candidate).
    rewrite list_fmap_insert. apply list_insert_id.
    rewrite list_lookup_fmap, Ei. reflexivity. }
  destruct (Ui.accepted_region_id item) as [id|].
  - injection H as <- _. cbn [Ui.candidates Ui.calibration Ui.current_page].
    repeat split; [apply G|]. intros j Hj. apply list_lookup_insert_ne. congruence.
  - destruct (PyFloat.pow2 ft) as [sq|e]; [|discriminate].
    simpl in H. injection H as <- _.
    cbn [Ui.candidates Ui.calibration Ui.current_page].
    repeat split; [apply G|]. intros j Hj. apply list_lookup_insert_ne. congruence.
Qed.

(** X21: starting from candidates none of which is accepted and from a
    numbered model, after any number of clicks no two candidates carry
    the same region identifier, every identifier a candidate carries is
    that of a stored region, the model is still numbered, and the
    candidates have kept their geometry. *)
Theorem clicks_keep_window_consistent (start w : Ui.MainWindow) :
  Forall (fun item => Ui.accepted_region_id item = None) (Ui.candidates start) ->
  Model.numbered (Ui.model start) ->
  Ui.reached start w ->
  Ui.linked w /\
  map Ui.candidate (Ui.candidates w) = map Ui.candidate (Ui.candidates start).
Proof.
  intros Hfresh Hnum Hreach. induction Hreach as [|w w' i out _ [IHl IHg] Hstep].
  - split; [apply fresh_candidates_linked; assumption|reflexivity].
  - split; [eapply toggle_keeps_linked; eassumption|].
    destruct (toggle_keeps_geometry _ _ _ _ Hstep) as (Hg & _). rewrite Hg. exact IHg.
Qed.

Lemma clicks_keep_window_consistent_witness :
  exists w, Ui.reached sample_window w /\ Ui.linked w /\ Ui.accepted_ids w = [1].
Proof.
  destruct (Ui.toggle_candidate sample_window 1) as [[w out]|e] eqn:E;
    [|vm_compute in E; discriminate].
  assert (R : Ui.reached sample_window w).
  { eapply Ui.reached_toggle; [apply Ui.reached_start|exact E]. }
  exists w. split; [exact R|]. split.
  - apply (clicks_keep_window_consistent sample_window w); [|apply init_numbered|exact R].
    repeat constructor.
  - vm_compute in E. injection E as <- _. reflexivity.
Defined.

(** X22: a click touches the clicked candidate and the model only: the
    calibration dictionary, the current page and every other candidate
    are as before; and when the current page has no scale in the
    dictionary the click changes nothing at all and asks to calibrate
    first. *)
Theorem click_changes_one_candidate (w w' : Ui.MainWindow) (i : nat)
    (out : list Ui.shown) :
  Ui.toggle_candidate w i = Ok (w', out) ->
  Ui.calibration w' = Ui.calibration w /\
  Ui.current_page w' = Ui.current_page w /\
  (forall j, j <> i -> Ui.candidates w' !! j = Ui.candidates w !! j) /\
  (Ui.calibration w !! Ui.current_page w = None ->
   w' = w /\
   (forall item, Ui.candidates w !! i = Some item ->
                 out = [Ui.Information "Calibrate first" "Calibrate first."])).
Proof.
  intros H. destruct (toggle_keeps_geometry _ _ _ _ H) as (_ & Hc & Hp & Hj).
  split; [exact Hc|]. split; [exact Hp|]. split; [exact Hj|].
  intros Hnone. unfold Ui.toggle_candidate in H. rewrite Hnone in H. split.
  - destruct (Ui.candidates w !! i); injection H as <- _; reflexivity.
  - intros item Hi. rewrite Hi in H. injection H as _ <-. reflexivity.
Qed.

Lemma click_changes_one_candidate_witness :
  exists w', Ui.toggle_candidate sample_window 1 = Ok (w', [Ui.StyleUpdated 1; Ui.TableUpdated])
             /\ Ui.candidates w' !! O = Ui.candidates sample_window !! O.
Proof.
  destruct (Ui.toggle_candidate sample_window 1) as [[w out]|e] eqn:E;
    [|vm_compute in E; discriminate].
  destruct (click_changes_one_candidate sample_window w 1 out E) as (_ & _ & Hj & _).
  exists w. split; [|apply Hj; discriminate].
  vm_compute in E. injection E as <- <-. reflexivity.
Defined.

(* ===================================================================== *)
(** ** Further properties: the thickness presets of [detect.py] *)
(* ===================================================================== *)

Lemma kernel_from_preset_cases (preset : string) :
  (preset = "Light" /\ Detect._kernel_from_preset preset = 3) \/
  (preset = "Heavy" /\ Detect._kernel_from_preset preset = 7) \/
  (preset <> "Light" /\ preset <> "Heavy" /\ Detect._kernel_from_preset preset = 5).
Proof.
  unfold Detect._kernel_from_preset, Detect.preset_map.
  destruct (decide (preset = "Light")) as [->|H1]; [left; split; reflexivity|].
  destruct (decide (preset = "Heavy")) as [->|H3]; [right; left; split; reflexivity|].
  right. right. repeat split; try assumption.
  rewrite lookup_insert_ne by congruence.
  destruct (decide (preset = "Medium")) as [->|H2]; [reflexivity|].
  rewrite lookup_insert_ne by congruence.
  rewrite lookup_singleton_ne by congruence. reflexivity.
Qed.

(** X23: whatever the preset string, [_kernel_from_preset] gives 3, 5 or
    7, an odd size a structuring element can have: 3 for "Light", 7 for
    "Heavy", and 5 for "Medium" and for every string the table does not
    know. *)
Theorem kernel_from_preset_is_odd (preset : string) :
  Detect._kernel_from_preset "Light" = 3 /\
  Detect._kernel_from_preset "Medium" = 5 /\
  Detect._kernel_from_preset "Heavy" = 7 /\
  (preset <> "Light" -> preset <> "Heavy" -> Detect._kernel_from_preset preset = 5) /\
  In (Detect._kernel_from_preset preset) [3; 5; 7] /\
  Detect._kernel_from_preset preset mod 2 = 1.
Proof.
  pose proof (kernel_from_preset_cases preset) as G.
  split; [reflexivity|]. split; [reflexivity|]. split; [reflexivity|]. split.
  - intros H1 H3. destruct G as [[-> _]|[[-> _]|(_ & _ & E)]];
      [contradiction|contradiction|exact E].
  - destruct G as [[_ E]|[[_ E]|(_ & _ & E)]]; rewrite E; simpl; auto.
Qed.

Lemma kernel_from_preset_is_odd_witness :
  Detect._kernel_from_preset "Extra heavy" = 5.
Proof.
  destruct (kernel_from_preset_is_odd "Extra heavy") as (_ & _ & _ & H & _).
  apply H; discriminate.
Defined.

(* ===================================================================== *)
(** ** Further properties: [detect_regions] *)
(* ===================================================================== *)

Section DetectFacts.

Import Detect.

Variable h : library.

Lemma exec_ask_step {A X : Type} (c : call X) (k : X -> program A) :
  exec h (Ask c k) =
  match h _ c with
  | Ok x => (Asked c :: fst (exec h (k x)), snd (exec h (k x)))
  | Raise e => ([Asked c], Raise e)
  end.
Proof.
  simpl. destruct (h X c) as [x|e]; [|reflexivity].
  destruct (exec h (k x)). reflexivity.
Qed.

Lemma exec_andthen {A B : Type} (p : program A) (f : A -> program B) :
  exec h (andthen p f) =
  match snd (exec h p) with
  | Ok a => ((fst (exec h p) ++ fst (exec h (f a)))%list, snd (exec h (f a)))
  | Raise e => (fst (exec h p), Raise e)
  end.
Proof.
  induction p as [a|e|X c k IH].
  - simpl. destruct (exec h (f a)). reflexivity.
  - reflexivity.
  - cbn [andthen]. rewrite !exec_ask_step. destruct (h X c) as [x|e]; [|reflexivity].
    cbn [fst snd]. rewrite IH.
    destruct (snd (exec h (k x))); reflexivity.
Qed.

Lemma exec_ask {X : Type} (c : call X) :
  exec h (ask c) = ([Asked c], h _ c).
Proof. unfold ask. rewrite exec_ask_step. destruct (h X c); reflexivity. Qed.

Lemma exec_of_result {A : Type} (r : result A) : exec h (of_result r) = (nil, r).
Proof. destruct r; reflexivity. Qed.

(** The loop asks for measures only. *)
Lemma measure_asks_measures (min_area_px : float) (contours : list ndarray) :
  forall acc, forallb is_measure (fst (exec h (measure min_area_px contours acc))) = true.
Proof.
  induction contours as [|c rest IH]; intros acc; [reflexivity|].
  cbn [measure]. rewrite exec_andthen, exec_ask. cbn [fst snd].
  destruct (h _ (ContourArea c)) as [a|e]; [|reflexivity].
  cbn [forallb is_measure andb].
  destruct (a <? min_area_px)%float; [apply IH|].
  rewrite exec_andthen, exec_ask. cbn [fst snd].
  destruct (h _ (ArcLength c true)) as [p|e]; [|reflexivity].
  cbn [app forallb is_measure andb].
  rewrite exec_andthen, exec_ask. cbn [fst snd].
  destruct (h _ (ApproxPolyDP c _ true)) as [pts|e]; [|reflexivity].
  cbn [app forallb is_measure andb]. apply IH.
Qed.

(** What a run of the loop that returns has added to its list. *)
Lemma measure_returns (min_area_px : float) (contours : list ndarray) :
  forall acc cands,
    snd (exec h (measure min_area_px contours acc)) = Ok cands ->
    exists new,
      cands = (acc ++ new)%list /\
      map contour new = List.filter (keeps h min_area_px) contours /\
      Forall (described h min_area_px) new.
Proof.
  induction contours as [|c rest IH]; intros acc cands H.
  - simpl in H. injection H as <-. exists nil. rewrite app_nil_r.
    repeat split. constructor.
  - cbn [measure] in H. rewrite exec_andthen, exec_ask in H. cbn [fst snd] in H.
    cbn [List.filter]. unfold keeps at 1.
    destruct (h _ (ContourArea c)) as [a|e] eqn:Ha; [|discriminate].
    cbn [snd] in H.
    destruct (a <? min_area_px)%float eqn:Hlt; [apply IH; exact H|].
    rewrite exec_andthen, exec_ask in H. cbn [fst snd] in H.
    destruct (h _ (ArcLength c true)) as [p|e] eqn:Hp; [|discriminate].
    cbn [snd] in H. rewrite exec_andthen, exec_ask in H. cbn [fst snd] in H.
    destruct (h _ (ApproxPolyDP c (0.002 * p)%float true)) as [pts|e] eqn:Hpts;
      [|discriminate].
    cbn [snd] in H. destruct (IH _ _ H) as (new & -> & Hm & Hd).
    eexists (_ :: new). rewrite <- app_assoc. split; [reflexivity|].
    cbn [negb map contour]. split; [rewrite Hm; reflexivity|].
    constructor; [|exact Hd].
    unfold described. cbn [contour area_px perimeter_px polygon].
    repeat split; try assumption. exists pts. split; [exact Hpts|reflexivity].
Qed.

End DetectFacts.

(** Everything a run of [detect_regions] that returns has gone through. *)
Lemma detect_regions_reading (h : Detect.library) (gray : ndarray)
    (thickness_preset gap_close : string) (min_area_sqft ft_per_pixel : float)
    (dpi : Z) (cands : list Detect.CandidateRegion) (debug : Detect.DetectionDebug) :
  snd (Detect.exec h (Detect.detect_regions gray thickness_preset gap_close
                        min_area_sqft ft_per_pixel dpi)) = Ok (cands, debug) ->
  exists blur retval kernel squared contours hierarchy preview,
    h _ (Detect.GaussianBlur gray (3, 3) 0) = Ok blur /\
    h _ (Detect.Threshold blur 0 255 9) = Ok (retval, Detect.binary debug) /\
    h _ (Detect.StructuringElement MORPH_RECT
           (Detect._kernel_from_preset thickness_preset,
            Detect._kernel_from_preset thickness_preset)) = Ok kernel /\
    h _ (Detect.Morphology (Detect.binary debug) MORPH_OPEN kernel)
    = Ok (Detect.thickness_mask debug) /\
    (if String.eqb gap_close "Low"
     then exists close_kernel,
            h _ (Detect.StructuringElement MORPH_RECT (3, 3)) = Ok close_kernel /\
            h _ (Detect.Morphology (Detect.thickness_mask debug) MORPH_CLOSE close_kernel)
            = Ok (Detect.closed_mask debug)
     else Detect.closed_mask debug = Detect.thickness_mask debug) /\
    h _ (Detect.Contours (Detect.closed_mask debug) RETR_EXTERNAL CHAIN_APPROX_SIMPLE)
    = Ok (contours, hierarchy) /\
    PyFloat.pow2 ft_per_pixel = Ok squared /\
    (squared =? 0)%float = false /\
    map Detect.contour cands
    = List.filter (Detect.keeps h (min_area_sqft / squared)%float) contours /\
    Forall (Detect.described h (min_area_sqft / squared)%float) cands /\
    h _ (Detect.CvtColor (Detect.closed_mask debug) Detect.COLOR_GRAY2BGR) = Ok preview /\
    h _ (Detect.DrawContours preview (map Detect.contour cands) (-1) (0, 255, 0) 2)
    = Ok (Detect.contour_preview debug) /\
    Detect.gray debug = gray /\
    Detect.stats debug
    = [("dpi", pretty dpi);
       ("kernel_size", pretty (Detect._kernel_from_preset thickness_preset));
       ("contours_found", pretty (Z.of_nat (List.length contours)));
       ("candidates", pretty (Z.of_nat (List.length cands)));
       ("min_area_sqft", Detect.format_2f min_area_sqft)].
Proof.
  intros H. unfold Detect.detect_regions in H.
  rewrite exec_andthen, exec_ask in H. cbn [fst snd] in H.
  destruct (h _ (Detect.GaussianBlur gray (3, 3) 0)) as [blur|e] eqn:H1; [|discriminate].
  cbn [snd] in H. rewrite exec_andthen, exec_ask in H. cbn [fst snd] in H.
  change (Detect.THRESH_BINARY_INV_flag + Detect.THRESH_OTSU_flag) with 9 in H.
  destruct (h _ (Detect.Threshold blur 0 255 9)) as [[retval binary]|e] eqn:H2;
    [|discriminate].
  cbn [snd] in H. rewrite exec_andthen, exec_ask in H. cbn [fst snd] in H.
  destruct (h _ (Detect.StructuringElement MORPH_RECT _)) as [kernel|e] eqn:H3;
    [|discriminate].
  cbn [snd] in H. rewrite exec_andthen, exec_ask in H. cbn [fst snd] in H.
  destruct (h _ (Detect.Morphology binary MORPH_OPEN kernel)) as [tmask|e] eqn:H4;
    [|discriminate].
  cbn [snd] in H. rewrite exec_andthen in H.
  destruct (snd (Detect.exec h
                   (if String.eqb gap_close "Low"
                    then Detect.andthen
                           (Detect.ask (Detect.StructuringElement MORPH_RECT (3, 3)))
                           (fun close_kernel =>
                              Detect.ask (Detect.Morphology tmask MORPH_CLOSE close_kernel))
                    else Detect.Return tmask))) as [cmask|e] eqn:H5; [|discriminate].
  cbn [snd] in H. rewrite exec_andthen, exec_ask in H. cbn [fst snd] in H.
  destruct (h _ (Detect.Contours cmask RETR_EXTERNAL CHAIN_APPROX_SIMPLE))
    as [[contours hierarchy]|e] eqn:H6; [|discriminate].
  cbn [fst snd] in H. rewrite exec_andthen, exec_of_result in H. cbn [fst snd] in H.
  destruct (PyFloat.pow2 ft_per_pixel) as [squared|e] eqn:H7; [|discriminate].
  cbn [bind] in H. unfold PyFloat.truediv in H.
  destruct (squared =? 0)%float eqn:H8; [discriminate|].
  cbn [snd] in H. rewrite exec_andthen in H.
  destruct (snd (Detect.exec h (Detect.measure (min_area_sqft / squared)%float
                                  contours nil))) as [cs|e] eqn:H9; [|discriminate].
  cbn [snd] in H. rewrite exec_andthen, exec_ask in H. cbn [fst snd] in H.
  destruct (h _ (Detect.CvtColor cmask Detect.COLOR_GRAY2BGR)) as [preview|e] eqn:H10;
    [|discriminate].
  cbn [snd] in H. rewrite exec_andthen, exec_ask in H. cbn [fst snd] in H.
  destruct (h _ (Detect.DrawContours preview (map Detect.contour cs) (-1) (0, 255, 0) 2))
    as [drawn|e] eqn:H11; [|discriminate].
  cbn [snd] in H. simpl in H. injection H as <- <-.
  cbn [Detect.binary Detect.thickness_mask Detect.closed_mask Detect.contour_preview
       Detect.gray Detect.stats].
  destruct (measure_returns h _ _ _ _ H9) as (new & -> & Hm & Hd). cbn [app] in *.
  exists blur, retval, kernel, squared, contours, hierarchy, preview.
  repeat split; try assumption; try reflexivity.
  destruct (String.eqb gap_close "Low").
  - rewrite exec_andthen, exec_ask in H5. cbn [fst snd] in H5.
    destruct (h _ (Detect.StructuringElement MORPH_RECT (3, 3))) as [ck|e] eqn:H12;
      [|discriminate].
    cbn [snd] in H5. rewrite exec_ask in H5. cbn [snd] in H5.
    exists ck. split; [reflexivity|exact H5].
  - simpl in H5. injection H5 as <-. reflexivity.
Qed.

(** X24: when [detect_regions] returns, its candidates are the contours
    found on the closed mask whose area, as OpenCV reports it, is not
    below [min_area_sqft / ft_per_pixel ** 2], in the order they were
    found; each carries that area, the arc length OpenCV reports and the
    polygon approximated with tolerance 0.002 times that length; and the
    statistics give the two counts in decimal. *)
Theorem detect_regions_keeps_large_contours (h : Detect.library) (gray : ndarray)
    (thickness_preset gap_close : string) (min_area_sqft ft_per_pixel : float)
    (dpi : Z) (cands : list Detect.CandidateRegion) (debug : Detect.DetectionDebug) :
  snd (Detect.exec h (Detect.detect_regions gray thickness_preset gap_close
                        min_area_sqft ft_per_pixel dpi)) = Ok (cands, debug) ->
  exists squared contours hierarchy,
    PyFloat.pow2 ft_per_pixel = Ok squared /\
    (squared =? 0)%float = false /\
    h _ (Detect.Contours (Detect.closed_mask debug) RETR_EXTERNAL CHAIN_APPROX_SIMPLE)
    = Ok (contours, hierarchy) /\
    map Detect.contour cands
    = List.filter (Detect.keeps h (min_area_sqft / squared)%float) contours /\
    Forall (Detect.described h (min_area_sqft / squared)%float) cands /\
    In ("contours_found", pretty (Z.of_nat (List.length contours))) (Detect.stats debug) /\
    In ("candidates", pretty (Z.of_nat (List.length cands))) (Detect.stats debug).
Proof.
  intros H.
  destruct (detect_regions_reading _ _ _ _ _ _ _ _ _ H)
    as (blur & retval & kernel & squared & contours & hierarchy & preview
        & _ & _ & _ & _ & _ & Hc & Hs & Hz & Hm & Hd & _ & _ & _ & Hst).
  exists squared, contours, hierarchy. rewrite Hst.
  repeat split; try assumption; simpl; tauto.
Qed.

Lemma detect_regions_keeps_large_contours_witness :
  exists cands debug,
    snd (Detect.exec studio
           (Detect.detect_regions blank "Medium" "Low" 1.0%float 0.1%float 600))
    = Ok (cands, debug) /\
    In ("candidates", pretty (Z.of_nat (List.length cands))) (Detect.stats debug).
Proof.
  destruct (snd (Detect.exec studio
                   (Detect.detect_regions blank "Medium" "Low" 1.0%float 0.1%float 600)))
    as [[cands debug]|e] eqn:E; [|vm_compute in E; discriminate].
  destruct (detect_regions_keeps_large_contours _ _ _ _ _ _ _ _ _ E)
    as (squared & contours & hierarchy & _ & _ & _ & _ & _ & _ & Hin).
  exists cands, debug. split; [reflexivity|exact Hin].
Defined.

Section DetectScale.

Import Detect.

Variable h : library.

(** When the area threshold cannot be computed the run ends there: after
    the contours are found, before any is measured. *)
Lemma detect_regions_no_threshold (gray : ndarray) (thickness_preset gap_close : string)
    (min_area_sqft ft_per_pixel : float) (dpi : Z) (e : exn) :
  bind (PyFloat.pow2 ft_per_pixel) (fun squared => PyFloat.truediv min_area_sqft squared)
  = Raise e ->
  is_ok (snd (exec h (detect_regions gray thickness_preset gap_close
                        min_area_sqft ft_per_pixel dpi))) = false /\
  existsb is_measure (fst (exec h (detect_regions gray thickness_preset gap_close
                                     min_area_sqft ft_per_pixel dpi))) = false /\
  ((forall (X : Type) (c : call X), is_ok (h X c) = true) ->
   snd (exec h (detect_regions gray thickness_preset gap_close
                  min_area_sqft ft_per_pixel dpi)) = Raise e).
Proof.
  intros Hbad. unfold detect_regions.
  rewrite exec_andthen, exec_ask. cbn [fst snd].
  destruct (h _ (GaussianBlur gray (3, 3) 0)) as [blur|e1] eqn:H1.
  2:{ cbn. repeat split. intros Hall. specialize (Hall _ (GaussianBlur gray (3, 3) 0)).
      rewrite H1 in Hall. discriminate. }
  cbn [fst snd]. rewrite exec_andthen, exec_ask. cbn [fst snd].
  destruct (h _ (Threshold blur 0 255 _)) as [[retval binary]|e2] eqn:H2.
  2:{ cbn. repeat split. intros Hall. specialize (Hall _ (Threshold blur 0 255
        (THRESH_BINARY_INV_flag + THRESH_OTSU_flag))).
      rewrite H2 in Hall. discriminate. }
  cbn [fst snd]. rewrite exec_andthen, exec_ask. cbn [fst snd].
  destruct (h _ (StructuringElement MORPH_RECT _)) as [kernel|e3] eqn:H3.
  2:{ cbn. repeat split. intros Hall.
      specialize (Hall _ (StructuringElement MORPH_RECT
        (_kernel_from_preset thickness_preset, _kernel_from_preset thickness_preset))).
      rewrite H3 in Hall. discriminate. }
  cbn [fst snd]. rewrite exec_andthen, exec_ask. cbn [fst snd].
  destruct (h _ (Morphology binary MORPH_OPEN kernel)) as [tmask|e4] eqn:H4.
  2:{ cbn. repeat split. intros Hall.
      specialize (Hall _ (Morphology binary MORPH_OPEN kernel)).
      rewrite H4 in Hall. discriminate. }
  cbn [fst snd]. rewrite exec_andthen.
  assert (Hclose :
    exists log,
      existsb is_measure log = false /\
      ((exists cmask,
          exec h (if String.eqb gap_close "Low"
                  then andthen (ask (StructuringElement MORPH_RECT (3, 3)))
                         (fun close_kernel =>
                            ask (Morphology tmask MORPH_CLOSE close_kernel))
                  else Return tmask) = (log, Ok cmask)) \/
       (exists e5,
          exec h (if String.eqb gap_close "Low"
                  then andthen (ask (StructuringElement MORPH_RECT (3, 3)))
                         (fun close_kernel =>
                            ask (Morphology tmask MORPH_CLOSE close_kernel))
                  else Return tmask) = (log, Raise e5) /\
          ~ (forall (X : Type) (c : call X), is_ok (h X c) = true)))).
  { destruct (String.eqb gap_close "Low").
    - rewrite exec_andthen, exec_ask. cbn [fst snd].
      destruct (h _ (StructuringElement MORPH_RECT (3, 3))) as [ck|e5] eqn:H5.
      + cbn [snd]. rewrite exec_ask. cbn [fst snd].
        destruct (h _ (Morphology tmask MORPH_CLOSE ck)) as [cm|e6] eqn:H6.
        * eexists. split; [|left; eexists; reflexivity]. reflexivity.
        * eexists. split; [|right; eexists; split; [reflexivity|]]; [reflexivity|].
          intros Hall. specialize (Hall _ (Morphology tmask MORPH_CLOSE ck)).
          rewrite H6 in Hall. discriminate.
      + eexists. split; [|right; eexists; split; [reflexivity|]]; [reflexivity|].
        intros Hall. specialize (Hall _ (StructuringElement MORPH_RECT (3, 3))).
        rewrite H5 in Hall. discriminate.
    - exists nil. split; [reflexivity|]. left. eexists. reflexivity. }
  destruct Hclose as (log & Hlog & [(cmask & ->)|(e5 & -> & Hnot)]).
  2:{ cbn [fst snd app existsb is_measure orb is_ok].
      split; [reflexivity|]. split; [exact Hlog|].
      intros Hall. destruct (Hnot Hall). }
  cbn [fst snd]. rewrite exec_andthen, exec_ask. cbn [fst snd].
  destruct (h _ (Contours cmask RETR_EXTERNAL CHAIN_APPROX_SIMPLE))
    as [[contours hierarchy]|e6] eqn:H6.
  2:{ cbn [fst snd app existsb is_measure orb is_ok].
      rewrite existsb_app, Hlog. repeat split. intros Hall.
      specialize (Hall _ (Contours cmask RETR_EXTERNAL CHAIN_APPROX_SIMPLE)).
      rewrite H6 in Hall. discriminate. }
  cbn [fst snd]. rewrite exec_andthen, exec_of_result. cbn [fst snd]. rewrite Hbad.
  cbn [fst snd app existsb is_measure orb is_ok].
  rewrite existsb_app, Hlog. repeat split.
Qed.

Lemma zero_not_infinite (r : float) : (r =? 0)%float = true -> is_infinity r = false.
Proof.
  unfold is_infinity.
  rewrite !FloatAxioms.eqb_spec, FloatAxioms.abs_spec, zero_image.
  assert (I : Prim2SF infinity = S754_infinity false) by reflexivity. rewrite I.
  destruct (Prim2SF r) as [[]|[]| |[] m e]; cbn; congruence.
Qed.

End DetectScale.

(** X25: [detect_regions] needs a usable scale.  If the square of
    [ft_per_pixel] is zero (a zero scale, or one so small that its square
    underflows), or if the scale is finite and its square overflows, the
    run does not return and no contour is measured; when OpenCV answers
    every call, it ends in [ZeroDivisionError] in the first case and in
    [OverflowError] in the second. *)
Theorem detect_regions_needs_usable_scale (h : Detect.library) (gray : ndarray)
    (thickness_preset gap_close : string) (min_area_sqft ft_per_pixel : float)
    (dpi : Z) :
  ((ft_per_pixel * ft_per_pixel =? 0)%float = true ->
   is_ok (snd (Detect.exec h (Detect.detect_regions gray thickness_preset gap_close
                                min_area_sqft ft_per_pixel dpi))) = false /\
   existsb Detect.is_measure
     (fst (Detect.exec h (Detect.detect_regions gray thickness_preset gap_close
                            min_area_sqft ft_per_pixel dpi))) = false /\
   ((forall (X : Type) (c : Detect.call X), is_ok (h X c) = true) ->
    snd (Detect.exec h (Detect.detect_regions gray thickness_preset gap_close
                          min_area_sqft ft_per_pixel dpi)) = Raise ZeroDivisionError)) /\
  (is_finite ft_per_pixel = true ->
   is_infinity (ft_per_pixel * ft_per_pixel)%float = true ->
   is_ok (snd (Detect.exec h (Detect.detect_regions gray thickness_preset gap_close
                                min_area_sqft ft_per_pixel dpi))) = false /\
   existsb Detect.is_measure
     (fst (Detect.exec h (Detect.detect_regions gray thickness_preset gap_close
                            min_area_sqft ft_per_pixel dpi))) = false /\
   ((forall (X : Type) (c : Detect.call X), is_ok (h X c) = true) ->
    snd (Detect.exec h (Detect.detect_regions gray thickness_preset gap_close
                          min_area_sqft ft_per_pixel dpi)) = Raise OverflowError)).
Proof.
  split.
  - intros Hz. apply detect_regions_no_threshold.
    unfold PyFloat.pow2. rewrite (zero_not_infinite _ Hz), andb_false_r.
    cbn [bind]. unfold PyFloat.truediv. rewrite Hz. reflexivity.
  - intros Hf Hi. apply detect_regions_no_threshold.
    unfold PyFloat.pow2. rewrite Hf, Hi. reflexivity.
Qed.

Lemma detect_regions_needs_usable_scale_witness :
  snd (Detect.exec studio
         (Detect.detect_regions blank "Medium" "High" 1.0%float 1e-200%float 600))
  = Raise ZeroDivisionError /\
  snd (Detect.exec studio
         (Detect.detect_regions blank "Medium" "High" 1.0%float 1e200%float 600))
  = Raise OverflowError.
Proof.
  assert (Hall : forall (X : Type) (c : Detect.call X), is_ok (studio X c) = true).
  { intros X c. destruct c; try reflexivity. destruct ksize. reflexivity. }
  split.
  - destruct (detect_regions_needs_usable_scale studio blank "Medium" "High"
                1.0%float 1e-200%float 600) as (H & _).
    destruct (H eq_refl) as (_ & _ & Hr). exact (Hr Hall).
  - destruct (detect_regions_needs_usable_scale studio blank "Medium" "High"
                1.0%float 1e200%float 600) as (_ & H).
    destruct (H eq_refl eq_refl) as (_ & _ & Hr). exact (Hr Hall).
Defined.



(* ===================================================================== *)
(** ** Further properties: overlays and detection in [ui.py] *)
(* ===================================================================== *)

(** X27: a region accepted on the page in view is stored under
    [current_page + 1], while [_add_accepted_overlays] asks for the
    regions of [current_page]: after the click the overlays of the page
    in view, and of every page but the next, are what they were, and it
    is on the next page that one more overlay is drawn, last, with the
    outline of the candidate. *)
Theorem accepted_overlay_lands_on_next_page (w w' : Ui.MainWindow) (i : nat)
    (item : Ui.CandidateGraphicsItem) (ft : float) (out : list Ui.shown) :
  Ui.candidates w !! i = Some item ->
  Ui.accepted_region_id item = None ->
  Ui.calibration w !! Ui.current_page w = Some ft ->
  Ui.toggle_candidate w i = Ok (w', out) ->
  Ui._add_accepted_overlays true w' = Ui._add_accepted_overlays true w /\
  (forall index, index <> Ui.current_page w + 1 ->
     Ui._add_accepted_overlays true (Ui.on_page_changed w' index)
     = Ui._add_accepted_overlays true (Ui.on_page_changed w index)) /\
  exists o,
    Ui._add_accepted_overlays true (Ui.on_page_changed w' (Ui.current_page w + 1))
    = (Ui._add_accepted_overlays true (Ui.on_page_changed w (Ui.current_page w + 1))
       ++ [o])%list /\
    Ui.outline o = Detect.polygon (Ui.candidate item).
Proof.
  intros Hi Ha Hc H. unfold Ui.toggle_candidate in H. rewrite Hi, Hc, Ha in H.
  destruct (PyFloat.pow2 ft) as [squared|e]; [|discriminate].
  simpl in H. injection H as <- _.
  unfold Ui._add_accepted_overlays, Ui.on_page_changed, Model.regions_for_page.
  cbn [negb Ui.model Ui.current_page Model._regions].
  split; [|split].
  - rewrite List.filter_app. cbn [List.filter Model.page].
    replace (Ui.current_page w + 1 =? Ui.current_page w) with false
      by (symmetry; apply Z.eqb_neq; lia).
    rewrite app_nil_r. reflexivity.
  - intros index Hne. rewrite List.filter_app. cbn [List.filter Model.page].
    replace (Ui.current_page w + 1 =? index) with false
      by (symmetry; apply Z.eqb_neq; lia).
    rewrite app_nil_r. reflexivity.
  - rewrite List.filter_app. cbn [List.filter Model.page].
    rewrite Z.eqb_refl. rewrite map_app. eexists. split; reflexivity.
Qed.

Lemma accepted_overlay_lands_on_next_page_witness :
  exists w',
    Ui.toggle_candidate sample_window 0 = Ok (w', [Ui.StyleUpdated 0; Ui.TableUpdated]) /\
    Ui._add_accepted_overlays true w' = nil /\
    List.length (Ui._add_accepted_overlays true (Ui.on_page_changed w' 1)) = 1%nat.
Proof.
  destruct (Ui.toggle_candidate sample_window 0) as [[w out]|e] eqn:E;
    [|vm_compute in E; discriminate].
  destruct (accepted_overlay_lands_on_next_page sample_window w 0
              {| Ui.candidate := sample_candidate; Ui.accepted_region_id := None |}
              0.1%float out eq_refl eq_refl eq_refl E)
    as (Hsame & _ & o & Hnext & _).
  exists w. split; [|split].
  - vm_compute in E. injection E as <- <-. reflexivity.
  - rewrite Hsame. reflexivity.
  - change (Ui.current_page sample_window + 1) with 1 in Hnext.
    rewrite Hnext. reflexivity.
Defined.

Section DetectionFacts.

Import Ui.

(** The loop of [run_detection] adds one fresh item per candidate. *)
Lemma add_items_fresh (ft : float) (found : list Detect.CandidateRegion) :
  forall items tooltips items' tooltips',
    add_items ft found items tooltips = Ok (items', tooltips') ->
    items' = (items ++ map fresh_item found)%list.
Proof.
  induction found as [|c rest IH]; intros items tooltips items' tooltips' H.
  - simpl in H. injection H as <- _. rewrite app_nil_r. reflexivity.
  - cbn [add_items] in H. destruct (PyFloat.pow2 ft) as [sq|e]; [|discriminate].
    cbn [bind] in H. rewrite (IH _ _ _ _ H), <- app_assoc. reflexivity.
Qed.

(** A detection that returns, on a calibrated page. *)
Lemma run_detection_reading (h : Detect.library) (gray : ndarray)
    (thickness_preset gap_close : string) (min_area_sqft : float) (dpi : Z)
    (debug_checked : bool) (w w1 : MainWindow) (ft : float) (out : detection_shown) :
  calibration w !! current_page w = Some ft ->
  snd (Detect.exec h (run_detection true (Some gray) thickness_preset gap_close
                        min_area_sqft dpi debug_checked w)) = Ok (w1, out) ->
  exists found debug_data,
    snd (Detect.exec h (Detect.detect_regions gray thickness_preset gap_close
                          min_area_sqft ft dpi)) = Ok (found, debug_data) /\
    w1 = {| current_page := current_page w;
            calibration := calibration w;
            candidates := map fresh_item found;
            model := model w |}.
Proof.
  intros Hc H. unfold run_detection in H. rewrite Hc in H.
  rewrite exec_andthen in H.
  destruct (snd (Detect.exec h (Detect.detect_regions gray thickness_preset gap_close
                                  min_area_sqft ft dpi)))
    as [[found debug_data]|e]; [|discriminate].
  cbn [snd] in H. rewrite exec_andthen, exec_of_result in H. cbn [fst snd] in H.
  destruct (add_items ft found nil nil) as [[items tooltips]|e] eqn:Ea; [|discriminate].
  cbn [Detect.exec snd] in H. injection H as <- _.
  exists found, debug_data. split; [reflexivity|].
  rewrite (add_items_fresh _ _ _ _ _ _ Ea). reflexivity.
Qed.

Lemma toggle_keeps_above (floor : Z) (older : list Model.AcceptedRegion)
    (w w' : MainWindow) (i : nat) (out : list shown) :
  Forall (fun region => Model.region_id region < floor) older ->
  above floor w older -> toggle_candidate w i = Ok (w', out) -> above floor w' older.
Proof.
  intros Hold (Hitems & Hnext & newer & Hreg) H. unfold toggle_candidate in H.
  destruct (candidates w !! i) as [item|] eqn:Ei;
    [|injection H as <- _; split; [exact Hitems|split; [exact Hnext|exists newer; exact Hreg]]].
  destruct (calibration w !! current_page w) as [ft|];
    [|injection H as <- _; split; [exact Hitems|split; [exact Hnext|exists newer; exact Hreg]]].
  destruct (accepted_region_id item) as [id|] eqn:Ea.
  - injection H as <- _. unfold above. cbn [candidates model Model._next_id Model.remove_region
                                            Model._regions].
    split; [|split; [exact Hnext|]].
    + apply Forall_insert; [exact Hitems|]. intros id' Hid. discriminate.
    + assert (Hid : floor <= id).
      { exact (Forall_lookup_1 _ _ _ _ Hitems Ei id Ea). }
      exists (List.filter (fun region => negb (Model.region_id region =? id)) newer).
      rewrite Hreg, List.filter_app. f_equal.
      clear - Hold Hid. induction Hold as [|r l Hr _ IH]; [reflexivity|].
      cbn [List.filter].
      replace (Model.region_id r =? id) with false by (symmetry; apply Z.eqb_neq; lia).
      cbn [negb]. rewrite IH. reflexivity.
  - destruct (PyFloat.pow2 ft) as [sq|e]; [|discriminate].
    simpl in H. injection H as <- _. unfold above.
    cbn [candidates model Model._next_id Model._regions].
    split; [|split; [lia|]].
    + apply Forall_insert; [exact Hitems|]. intros id' Hid.
      cbn [accepted_region_id] in Hid. injection Hid as <-. exact Hnext.
    + eexists. rewrite Hreg, <- app_assoc. reflexivity.
Qed.

Lemma clicks_keep_above (floor : Z) (older : list Model.AcceptedRegion)
    (start w : MainWindow) :
  Forall (fun region => Model.region_id region < floor) older ->
  above floor start older -> reached start w -> above floor w older.
Proof.
  intros Hold Hstart Hreach. induction Hreach as [|w w' i out _ IH Hstep].
  - exact Hstart.
  - eapply toggle_keeps_above; eassumption.
Qed.

End DetectionFacts.

(** X28: [run_detection] replaces the candidate items by fresh ones, one
    per candidate [detect_regions] returns, and leaves the model alone.
    The regions accepted before it are thereby out of reach: whatever is
    clicked afterwards, they stay stored, ahead of any region accepted
    since, for no item carries their identifiers any more. *)
Theorem detection_strands_accepted_regions (h : Detect.library) (gray : ndarray)
    (thickness_preset gap_close : string) (min_area_sqft : float) (dpi : Z)
    (debug_checked : bool) (w w1 w2 : Ui.MainWindow) (ft : float)
    (out : Ui.detection_shown) :
  Model.numbered (Ui.model w) ->
  Ui.calibration w !! Ui.current_page w = Some ft ->
  snd (Detect.exec h (Ui.run_detection true (Some gray) thickness_preset gap_close
                        min_area_sqft dpi debug_checked w)) = Ok (w1, out) ->
  Ui.reached w1 w2 ->
  Ui.model w1 = Ui.model w /\
  (exists found debug_data,
     snd (Detect.exec h (Detect.detect_regions gray thickness_preset gap_close
                           min_area_sqft ft dpi)) = Ok (found, debug_data) /\
     Ui.candidates w1 = map fresh_item found) /\
  exists newer,
    Model._regions (Ui.model w2) = (Model._regions (Ui.model w) ++ newer)%list.
Proof.
  intros [_ Hbelow] Hc Hrun Hreach.
  destruct (run_detection_reading _ _ _ _ _ _ _ _ _ _ _ Hc Hrun)
    as (found & debug_data & Hdet & ->).
  split; [reflexivity|]. split.
  { exists found, debug_data. split; [exact Hdet|reflexivity]. }
  assert (Hab : above (Model._next_id (Ui.model w))
                  {| Ui.current_page := Ui.current_page w;
                     Ui.calibration := Ui.calibration w;
                     Ui.candidates := map fresh_item found;
                     Ui.model := Ui.model w |}
                  (Model._regions (Ui.model w))).
  { unfold above. cbn [Ui.candidates Ui.model]. split; [|split; [lia|]].
    - clear. induction found as [|c rest IH]; constructor; [|exact IH].
      intros id Hid. discriminate.
    - exists nil. rewrite app_nil_r. reflexivity. }
  destruct (clicks_keep_above _ _ _ _ Hbelow Hab Hreach) as (_ & _ & newer & Hreg).
  exists newer. exact Hreg.
Qed.

Lemma detection_strands_accepted_regions_witness :
  exists w1 out,
    snd (Detect.exec studio
           (Ui.run_detection true (Some blank) "Medium" "Low" 1.0%float 600 false
              accepted_window)) = Ok (w1, out) /\
    Ui.accepted_ids w1 = nil /\
    exists newer,
      Model._regions (Ui.model w1)
      = (Model._regions (Ui.model accepted_window) ++ newer)%list.
Proof.
  destruct (snd (Detect.exec studio
                   (Ui.run_detection true (Some blank) "Medium" "Low" 1.0%float 600 false
                      accepted_window)))
    as [[w1 out]|e] eqn:E; [|vm_compute in E; discriminate].
  assert (Hnum : Model.numbered (Ui.model accepted_window)).
  { split; cbn; repeat constructor. }
  destruct (detection_strands_accepted_regions studio blank "Medium" "Low" 1.0%float
              600 false accepted_window w1 w1 0.1%float out Hnum eq_refl E
              (Ui.reached_start w1))
    as (_ & _ & Hkept).
  exists w1, out. split; [reflexivity|]. split; [|exact Hkept].
  vm_compute in E. injection E as <- _. reflexivity.
Defined.
